(** * Startup Companion: the guided chat flow of [ChatInterface.tsx]

    A shallow embedding of the conversational state machine
    ([handleInitialChoice], [handleQuestionResponse], [handleRatingResponse]),
    of the profile merge ([updateBusinessProfile]), of the document fan-out
    ([generateAllDocuments], [generateDocument], [loadDocumentsFromDatabase]),
    of the key-point column written by the guide functions and of
    [updateSessionStatus] from the session library; then of the HR guide
    function ([callOpenRouterAPI], [extractKeyPoints], its request handler)
    and of the PDF generator ([generateAndStorePDF], [generatePDFBuffer]).

    Conventions.
    - A JavaScript string is the sequence of its code units; the model covers
      code units below 256, one [ascii] each.
    - React state is read from the closure of the render in which a handler
      was created and written through setters.  A handler is a function of
      the state of that render; user events and timers are taken one at a
      time, each after the render that follows the previous one.
    - The tables the component and the session library write are part of
      the world a handler runs in.  Calls to collaborators whose sources are
      not at hand (rating store, timer queue) are recorded, in order, as
      [Action]s; a callback handed to [setTimeout] is run by [runTimer];
      what a request, a lookup or the clock returns is given by an [Env].
    - The effect on [currentSessionId, viewMode] reloads the documents in
      the dashboard and document views only.  The one handler that enters
      such a view is [generateAllDocuments]; the reload the effect starts
      there, and the point at which it lands among the requests in flight,
      are part of its model.  Clicks on the dashboard are not events of the
      model.
    - [Date.now()] identifiers and timestamps of messages are not modelled. *)

From Stdlib Require Import ZArith Ascii String List Bool Lia.
From stdpp Require Import base option list strings gmap fin_maps pretty.
Import ListNotations.

Open Scope string_scope.
Open Scope list_scope.
Open Scope Z_scope.

(** ** JavaScript string primitives *)

Module Js.

(** White space and line terminators of ECMAScript that fit in one byte:
    TAB, LF, VT, FF, CR, SP and NBSP. *)
Definition isWhiteSpace (c : ascii) : bool :=
  let n := N_of_ascii c in
  (n =? 9)%N || (n =? 10)%N || (n =? 11)%N || (n =? 12)%N || (n =? 13)%N
  || (n =? 32)%N || (n =? 160)%N.

Fixpoint trimStart (s : string) : string :=
  match s with
  | EmptyString => EmptyString
  | String c rest => if isWhiteSpace c then trimStart rest else s
  end.

Fixpoint trimEnd (s : string) : string :=
  match s with
  | EmptyString => EmptyString
  | String c rest =>
      match trimEnd rest with
      | EmptyString => if isWhiteSpace c then EmptyString else String c EmptyString
      | kept => String c kept
      end
  end.

(** [String.prototype.trim] *)
Definition trim (s : string) : string := trimEnd (trimStart s).

(** Value of a code unit as a digit, for radices up to 36. *)
Definition digitValue (c : ascii) : option Z :=
  let n := Z.of_N (N_of_ascii c) in
  if (48 <=? n) && (n <=? 57) then Some (n - 48)
  else if (97 <=? n) && (n <=? 122) then Some (n - 87)
  else if (65 <=? n) && (n <=? 90) then Some (n - 55)
  else None.

Definition radixDigit (radix : Z) (c : ascii) : option Z :=
  match digitValue c with
  | Some d => if d <? radix then Some d else None
  | None => None
  end.

(** The longest prefix of radix digits, folded into its value; [None] when
    the prefix is empty. *)
Fixpoint parseDigits (radix : Z) (acc : option Z) (s : string) : option Z :=
  match s with
  | EmptyString => acc
  | String c rest =>
      match radixDigit radix c with
      | Some d => parseDigits radix (Some (default 0 acc * radix + d)) rest
      | None => acc
      end
  end.

(** [parseInt(s)] with no radix argument: leading white space is skipped, a
    sign is read, a [0x]/[0X] prefix selects radix 16, the longest digit
    prefix is converted.  [None] is NaN.  The result is the mathematical
    value; the rounding of values above 2^53 and the sign of zero are not
    represented. *)
Definition parseInt (s : string) : option Z :=
  let s1 := trimStart s in
  let '(sign, s2) :=
    match s1 with
    | String "-" rest => (-1, rest)
    | String "+" rest => (1, rest)
    | _ => (1, s1)
    end in
  let '(radix, s3) :=
    match s2 with
    | String "0" (String "x" rest) => (16, rest)
    | String "0" (String "X" rest) => (16, rest)
    | _ => (10, s2)
    end in
  match parseDigits radix None s3 with
  | Some v => Some (sign * v)
  | None => None
  end.

(** [c.toUpperCase()] on the letters a-z; it is applied to the first letter
    of the four fixed service names only. *)
Definition toUpperCase (c : ascii) : ascii :=
  let n := N_of_ascii c in
  if (97 <=? n)%N && (n <=? 122)%N then ascii_of_N (n - 32) else c.

(** [s.charAt(0).toUpperCase() + s.slice(1)] *)
Definition capitalize (s : string) : string :=
  match s with
  | EmptyString => EmptyString
  | String c rest => String (toUpperCase c) rest
  end.

(** [parts.join(sep)] on an array of strings *)
Fixpoint join (sep : string) (parts : list string) : string :=
  match parts with
  | [] => ""
  | [p] => p
  | p :: rest => p +:+ sep +:+ join sep rest
  end.

(** Truthiness of a string: every string but the empty one. *)
Definition truthy (s : string) : bool :=
  match s with EmptyString => false | _ => true end.

End Js.

(** ** Data model *)

(** Values held by a profile object or by a column of a stored row. *)
#[warnings="-register-all"] Inductive JsVal :=
| VUndefined
| VNull
| VBool (b : bool)
| VNum (n : Z)
| VStr (s : string)
| VArr (items : list JsVal)
| VObj (fields : list (string * JsVal)).

Inductive MessageType := user | ai.

Record MentorCard := {
  card_name : string;
  card_email : string;
  card_phone : string;
  card_expertise : string;
  card_service : string
}.

Record Message := {
  msg_type : MessageType;
  msg_content : string;
  msg_mentorCards : option (list MentorCard)
}.

Inductive DocumentType := registration | branding | compliance | hr.
Inductive DocumentStatus := generating_ | completed_ | failed_.

Record Document := {
  doc_id : string;
  doc_type : DocumentType;
  doc_title : string;
  doc_keyPoints : list JsVal;
  doc_fullContent : string;
  doc_pdfUrl : option string;
  doc_status : DocumentStatus
}.

Inductive ViewMode := chat | dashboard | document.
Inductive FlowStage := initial | questioning | generating | documents | rating.

Record Question := { q_id : Z; q_field : string; q_prompt : string }.

Definition QUESTIONS : list Question := [
  {| q_id := 1; q_field := "business_name";
     q_prompt := "What is the company name or preferred company name?" |};
  {| q_id := 2; q_field := "company_description";
     q_prompt := "Please provide a brief description of the company or company website" |};
  {| q_id := 3; q_field := "location";
     q_prompt := "Which location will the business operate in?" |};
  {| q_id := 4; q_field := "partners_info";
     q_prompt := "Who will be the partners or directors? (How many and their roles?)" |};
  {| q_id := 5; q_field := "color_preference";
     q_prompt := "What color tone would you prefer for branding? (Earthy, Bright, Professional, etc.)" |};
  {| q_id := 6; q_field := "style_preference";
     q_prompt := "What style would you prefer? (Conservative/Classic, Modern/Contemporary, Expressive/Bold)" |}
].

Record User := { user_id : string }.

(** The state of the [ChatInterface] component ([useState] cells). *)
Record ChatState := {
  messages : list Message;
  currentUser : option User;
  currentSessionId : string;
  viewMode : ViewMode;
  flowStage : FlowStage;
  currentQuestionIndex : nat;
  businessProfile : gmap string JsVal;
  documentList : list Document;
  awaitingRating : bool;
  ratingFeedback : string
}.

(** The state the component starts with. *)
Definition initialState : ChatState := {|
  messages := []; currentUser := None; currentSessionId := "";
  viewMode := chat; flowStage := initial; currentQuestionIndex := 0%nat;
  businessProfile := ∅; documentList := [];
  awaitingRating := false; ratingFeedback := ""
|}.

(** *** Stored records *)

Inductive SessionStatus := active | completed | abandoned.

Record UserSession := {
  us_user_id : option string;
  us_service_type : string;
  us_status : SessionStatus;
  us_completed_at : option string
}.

Record ChatRow := {
  cr_session_id : string;
  cr_user_id : string;
  cr_message_type : MessageType;
  cr_content : string
}.

(** The tables the component and the session library write.  A profile row
    is the object of its columns; sessions are keyed by their [id]. *)
Record Backend := {
  user_sessions : gmap string UserSession;
  chat_messages : list ChatRow;
  business_profiles : list (gmap string JsVal)
}.

Record RatingSubmission := {
  rs_user_id : option string;
  rs_session_id : string;
  rs_service_type : string;
  rs_rating : Z
}.

(** Callbacks handed to [setTimeout], with the session and user of the
    closure that created them. *)
Inductive TimerCallback :=
| RatingPrompt (sessionId : string) (usr : option User)
| FeedbackRequest (sessionId : string) (usr : option User)
| ClosingMessage (sessionId : string) (usr : option User)
| MentorMessage (sessionId : string) (usr : option User) (cards : list MentorCard).

(** What a handler asks of collaborators that are not part of the sources:
    the rating store and the timer queue.  The calls of [setFlowStage] are
    logged with them, so that the stages a handler passes through between
    two of its awaits can be read off the log. *)
Inductive Action :=
| SubmitRating (r : RatingSubmission)
| SetTimeout (callback : TimerCallback) (delay : Z)
| SetFlowStage (stage : FlowStage).

Record World := { ui : ChatState; db : Backend }.

(** ** Handlers as state passing with a log of actions *)

Definition Async (A : Type) : Type := World -> A * World * list Action.

#[global] Instance Async_ret : MRet Async := fun A x w => (x, w, []).
#[global] Instance Async_bind : MBind Async := fun A B f m w =>
  let '(x, w1, log1) := m w in
  let '(y, w2, log2) := f x w1 in
  (y, w2, log1 ++ log2).

Definition emit (a : Action) : Async unit := fun w => (tt, w, [a]).
Definition modifyUi (f : ChatState -> ChatState) : Async unit :=
  fun w => (tt, {| ui := f (ui w); db := db w |}, []).
Definition modifyDb (f : Backend -> Backend) : Async unit :=
  fun w => (tt, {| ui := ui w; db := f (db w) |}, []).
Definition readDb : Async Backend := fun w => (db w, w, []).

Definition run {A} (m : Async A) (w : World) : World * list Action :=
  let '(_, w', log) := m w in (w', log).

(** The world a computation ends in and the actions it logged. *)
Definition worldAfter {A} (m : Async A) (w : World) : World := fst (run m w).
Definition logOf {A} (m : Async A) (w : World) : list Action := snd (run m w).

(** *** Setters *)

Definition setMessages (f : list Message -> list Message) : Async unit :=
  modifyUi (fun s => {|
    messages := f (messages s); currentUser := currentUser s;
    currentSessionId := currentSessionId s; viewMode := viewMode s;
    flowStage := flowStage s; currentQuestionIndex := currentQuestionIndex s;
    businessProfile := businessProfile s; documentList := documentList s;
    awaitingRating := awaitingRating s; ratingFeedback := ratingFeedback s |}).

Definition setCurrentSessionId (v : string) : Async unit :=
  modifyUi (fun s => {|
    messages := messages s; currentUser := currentUser s;
    currentSessionId := v; viewMode := viewMode s;
    flowStage := flowStage s; currentQuestionIndex := currentQuestionIndex s;
    businessProfile := businessProfile s; documentList := documentList s;
    awaitingRating := awaitingRating s; ratingFeedback := ratingFeedback s |}).

Definition setViewMode (v : ViewMode) : Async unit :=
  modifyUi (fun s => {|
    messages := messages s; currentUser := currentUser s;
    currentSessionId := currentSessionId s; viewMode := v;
    flowStage := flowStage s; currentQuestionIndex := currentQuestionIndex s;
    businessProfile := businessProfile s; documentList := documentList s;
    awaitingRating := awaitingRating s; ratingFeedback := ratingFeedback s |}).

Definition setFlowStage (v : FlowStage) : Async unit :=
  modifyUi (fun s => {|
    messages := messages s; currentUser := currentUser s;
    currentSessionId := currentSessionId s; viewMode := viewMode s;
    flowStage := v; currentQuestionIndex := currentQuestionIndex s;
    businessProfile := businessProfile s; documentList := documentList s;
    awaitingRating := awaitingRating s; ratingFeedback := ratingFeedback s |}) ;;
  emit (SetFlowStage v).

Definition setCurrentQuestionIndex (v : nat) : Async unit :=
  modifyUi (fun s => {|
    messages := messages s; currentUser := currentUser s;
    currentSessionId := currentSessionId s; viewMode := viewMode s;
    flowStage := flowStage s; currentQuestionIndex := v;
    businessProfile := businessProfile s; documentList := documentList s;
    awaitingRating := awaitingRating s; ratingFeedback := ratingFeedback s |}).

Definition setBusinessProfile (v : gmap string JsVal) : Async unit :=
  modifyUi (fun s => {|
    messages := messages s; currentUser := currentUser s;
    currentSessionId := currentSessionId s; viewMode := viewMode s;
    flowStage := flowStage s; currentQuestionIndex := currentQuestionIndex s;
    businessProfile := v; documentList := documentList s;
    awaitingRating := awaitingRating s; ratingFeedback := ratingFeedback s |}).

Definition setDocuments (f : list Document -> list Document) : Async unit :=
  modifyUi (fun s => {|
    messages := messages s; currentUser := currentUser s;
    currentSessionId := currentSessionId s; viewMode := viewMode s;
    flowStage := flowStage s; currentQuestionIndex := currentQuestionIndex s;
    businessProfile := businessProfile s; documentList := f (documentList s);
    awaitingRating := awaitingRating s; ratingFeedback := ratingFeedback s |}).

Definition setAwaitingRating (v : bool) : Async unit :=
  modifyUi (fun s => {|
    messages := messages s; currentUser := currentUser s;
    currentSessionId := currentSessionId s; viewMode := viewMode s;
    flowStage := flowStage s; currentQuestionIndex := currentQuestionIndex s;
    businessProfile := businessProfile s; documentList := documentList s;
    awaitingRating := v; ratingFeedback := ratingFeedback s |}).

Definition setRatingFeedback (v : string) : Async unit :=
  modifyUi (fun s => {|
    messages := messages s; currentUser := currentUser s;
    currentSessionId := currentSessionId s; viewMode := viewMode s;
    flowStage := flowStage s; currentQuestionIndex := currentQuestionIndex s;
    businessProfile := businessProfile s; documentList := documentList s;
    awaitingRating := awaitingRating s; ratingFeedback := v |}).

(** ** The session library *)

(** The tables are taken without storage faults: the functions below log a
    fault and carry on, leaving the table as it was. *)

(** [saveChatMessage(sessionId, userId, messageType, content)] *)
Definition saveChatMessage (sessionId userId : string) (messageType : MessageType)
    (content : string) : Async bool :=
  modifyDb (fun b => {|
    user_sessions := user_sessions b;
    chat_messages := chat_messages b ++
      [{| cr_session_id := sessionId; cr_user_id := userId;
          cr_message_type := messageType; cr_content := content |}];
    business_profiles := business_profiles b |}) ;;
  mret true.

(** [updateSessionStatus(sessionId, status)]: [status] is set on the row
    whose id is [sessionId], and [completed_at] with it when the status is
    ['completed'].  [isoNow] is [new Date().toISOString()]. *)
Definition updateSessionStatus (isoNow : string) (sessionId : string)
    (status : SessionStatus) : Async bool :=
  modifyDb (fun b => {|
    user_sessions :=
      alter (fun row => {|
        us_user_id := us_user_id row;
        us_service_type := us_service_type row;
        us_status := status;
        us_completed_at :=
          match status with
          | completed => Some isoNow
          | _ => us_completed_at row
          end |}) sessionId (user_sessions b);
    chat_messages := chat_messages b;
    business_profiles := business_profiles b |}) ;;
  mret true.

(** [createSession(userId, serviceType)]: the store chooses the id of the
    new row; [newId] is that id, or [None] when the insert fails and the
    function returns null. *)
Definition createSession (newId : option string) (userId : option string)
    (serviceType : string) : Async (option string) :=
  match newId with
  | None => mret None
  | Some sid =>
      modifyDb (fun b => {|
        user_sessions :=
          <[sid := {| us_user_id := userId; us_service_type := serviceType;
                      us_status := active; us_completed_at := None |}]>
            (user_sessions b);
        chat_messages := chat_messages b;
        business_profiles := business_profiles b |}) ;;
      mret (Some sid)
  end.

(** ** The component *)

Definition nl : string := String (ascii_of_nat 10) "".
Definition dq : string := String (ascii_of_nat 34) "".

Definition aiMessage (content : string) : Message :=
  {| msg_type := ai; msg_content := content; msg_mentorCards := None |}.

(** [addMessageAndSave(message)], in a closure whose session is [sessionId]
    and whose user is [usr]. *)
Definition addMessageAndSave (sessionId : string) (usr : option User)
    (message : Message) : Async unit :=
  setMessages (fun prev => prev ++ [message]) ;;
  match Js.truthy sessionId, usr with
  | true, Some u =>
      saveChatMessage sessionId (user_id u) (msg_type message) (msg_content message) ;;
      mret tt
  | _, _ => mret tt
  end.

(** *** Profile store *)

(** [v !== undefined && v !== null && v !== ''] *)
Definition hasNewValue (v : JsVal) : bool :=
  match v with
  | VUndefined | VNull => false
  | VStr s => Js.truthy s
  | _ => true
  end.

(** The merge of [updateBusinessProfile]: starting from a copy of the stored
    row, every key of the incoming profile that has a new value is set. *)
Definition mergeProfile (existingProfile profile : gmap string JsVal)
    : gmap string JsVal :=
  map_fold (fun key v mergedProfile =>
              if hasNewValue v then <[key := v]> mergedProfile else mergedProfile)
           existingProfile profile.

(** An object as it is sent to the store: [JSON.stringify] leaves out the
    fields that hold undefined. *)
Definition isDefined (v : JsVal) : bool :=
  match v with
  | VUndefined => false
  | _ => true
  end.

Definition jsonBody (o : gmap string JsVal) : gmap string JsVal :=
  filter (fun kv => isDefined kv.2 = true) o.

(** [.eq('session_id', sid)] *)
Definition sessionIs (sid : string) (row : gmap string JsVal) : bool :=
  match row !! "session_id" with
  | Some (VStr s) => String.eqb s sid
  | _ => false
  end.

(** [.maybeSingle()]: the row when exactly one matches, null otherwise. *)
Definition maybeSingle {A} (rows : list A) : option A :=
  match rows with
  | [row] => Some row
  | _ => None
  end.

Definition setBusinessProfiles (rows : list (gmap string JsVal)) : Async unit :=
  modifyDb (fun b => {|
    user_sessions := user_sessions b;
    chat_messages := chat_messages b;
    business_profiles := rows |}).

(** [{ user_id: currentUser.id, session_id: currentSessionId, ...profile }]
    as it is sent *)
Definition insertedRow (u : User) (sessionId : string) (profile : gmap string JsVal)
    : gmap string JsVal :=
  jsonBody (profile ∪ <["user_id" := VStr (user_id u)]>
                        (<["session_id" := VStr sessionId]> ∅)).

(** [updateBusinessProfile(profile)] in a closure with state [c]: the row
    of the session is read; when there is one, the merged object is written
    over its columns, otherwise a new row is inserted. *)
Definition updateBusinessProfile (c : ChatState) (profile : gmap string JsVal)
    : Async unit :=
  match currentUser c, Js.truthy (currentSessionId c) with
  | Some u, true =>
      b ← readDb ;
      match maybeSingle (List.filter (sessionIs (currentSessionId c)) (business_profiles b)) with
      | Some existingProfile =>
          let mergedProfile := mergeProfile existingProfile profile in
          setBusinessProfiles
            (List.map (fun row => if sessionIs (currentSessionId c) row
                                  then jsonBody mergedProfile ∪ row else row)
                      (business_profiles b))
      | None =>
          setBusinessProfiles
            (business_profiles b ++ [insertedRow u (currentSessionId c) profile])
      end
  | _, _ => mret tt
  end.

(** *** Document generator client *)

Definition documentTypes : list DocumentType :=
  [registration; branding; compliance; hr].

Definition typeName (t : DocumentType) : string :=
  match t with
  | registration => "registration"
  | branding => "branding"
  | compliance => "compliance"
  | hr => "hr"
  end.

#[global] Instance DocumentType_eq_dec : EqDecision DocumentType.
Proof. solve_decision. Defined.

(** [a === b] on the four type names *)
Definition DocumentType_eqb (a b : DocumentType) : bool :=
  match a, b with
  | registration, registration | branding, branding
  | compliance, compliance | hr, hr => true
  | _, _ => false
  end.

(** The JSON body of a guide function, typed as the functions build it:
    [{response, keyPoints, fullContent, pdfUrl}] on success and
    [{error, userMessage}] on a fault; an absent field is [None] and the
    key points are the entries of an array. *)
Record EdgeResult := {
  res_error : option string;
  res_userMessage : option string;
  res_fullContent : option string;
  res_response : option string;
  res_keyPoints : option (list JsVal);
  res_pdfUrl : option string
}.

(** How one [fetch] ends: it rejects, or it resolves to a response whose
    [ok] flag and body are given; [None] is a body [response.json()]
    rejects. *)
Inductive FetchOutcome :=
| FetchRejected
| FetchResolved (ok : bool) (body : option EdgeResult).

Definition truthyField (o : option string) : bool :=
  match o with
  | Some s => Js.truthy s
  | None => false
  end.

(** [a || b] on optional strings *)
Definition orElse (a b : option string) : option string :=
  if truthyField a then a else b.

(** [result.fullContent || result.response || ''] *)
Definition contentOf (result : EdgeResult) : string :=
  default "" (orElse (orElse (res_fullContent result) (res_response result)) (Some "")).

(** [{ ...doc, status: 'failed' }] *)
Definition withFailed (doc : Document) : Document := {|
  doc_id := doc_id doc; doc_type := doc_type doc; doc_title := doc_title doc;
  doc_keyPoints := doc_keyPoints doc; doc_fullContent := doc_fullContent doc;
  doc_pdfUrl := doc_pdfUrl doc; doc_status := failed_ |}.

(** [{ ...doc, status: 'completed', keyPoints, fullContent, pdfUrl }] *)
Definition withCompleted (keyPoints : list JsVal) (fullContent : string)
    (pdfUrl : option string) (doc : Document) : Document := {|
  doc_id := doc_id doc; doc_type := doc_type doc; doc_title := doc_title doc;
  doc_keyPoints := keyPoints; doc_fullContent := fullContent;
  doc_pdfUrl := pdfUrl; doc_status := completed_ |}.

(** [prev.map(doc => doc.type === type ? f(doc) : doc)] *)
Definition updateOfType (t : DocumentType) (f : Document -> Document)
    (prev : list Document) : list Document :=
  List.map (fun doc => if DocumentType_eqb (doc_type doc) t then f doc else doc) prev.

Definition markFailed (t : DocumentType) : Async unit :=
  setDocuments (updateOfType t withFailed).

(** [generateDocument(type)] in a closure with state [c]; [outcome] is how
    the request ends.  Reading [currentUser.id] of a null user throws inside
    the [try] block, before the request is sent. *)
Definition generateDocument (c : ChatState) (outcome : FetchOutcome)
    (t : DocumentType) : Async unit :=
  match currentUser c with
  | None => markFailed t
  | Some _ =>
      match outcome with
      | FetchRejected => markFailed t
      | FetchResolved true None => markFailed t
      | FetchResolved true (Some result) =>
          if truthyField (res_error result) || truthyField (res_userMessage result)
          then markFailed t
          else
            let fullContent := contentOf result in
            if negb (Js.truthy fullContent) || (String.length fullContent <? 100)%nat
            then markFailed t
            else setDocuments
                   (updateOfType t
                      (withCompleted (default [] (res_keyPoints result))
                                     fullContent (res_pdfUrl result)))
      | FetchResolved false _ => markFailed t
      end
  end.

(** A row of [generated_documents] as [getDocumentsBySession] returns it. *)
Record DbDocument := {
  db_id : string;
  db_document_type : DocumentType;
  db_document_title : string;
  db_key_points : JsVal;
  db_full_content : option string;
  db_pdf_url : option string;
  db_generation_status : DocumentStatus
}.

(** [Array.isArray(v) ? v : []] *)
Definition keyPointsOfColumn (v : JsVal) : list JsVal :=
  match v with
  | VArr items => items
  | _ => []
  end.

(** The callback of [dbDocuments.map(doc => ...)] *)
Definition formatDocument (doc : DbDocument) : Document := {|
  doc_id := db_id doc;
  doc_type := db_document_type doc;
  doc_title := db_document_title doc;
  doc_keyPoints := keyPointsOfColumn (db_key_points doc);
  doc_fullContent := default "" (orElse (db_full_content doc) (Some ""));
  doc_pdfUrl := orElse (db_pdf_url doc) None;
  doc_status := db_generation_status doc |}.

(** [loadDocumentsFromDatabase()] in a closure with state [c];
    [dbDocuments] is what [getDocumentsBySession] resolves to, [None] when
    it rejects. *)
Definition loadDocumentsFromDatabase (c : ChatState)
    (dbDocuments : option (list DbDocument)) : Async unit :=
  if Js.truthy (currentSessionId c) then
    match dbDocuments with
    | Some rows => setDocuments (fun _ => List.map formatDocument rows)
    | None => mret tt
    end
  else mret tt.

(** A mentor record as [getMentorForService] returns it. *)
Record Mentor := {
  mentor_name : string;
  mentor_email : string;
  mentor_phone : option string;
  mentor_specialization : list string
}.

(** What the environment decides during one user event: the id of a session
    the store creates, the clock, how each request ends and in which order
    the four settle (a permutation of [documentTypes]), the rows the
    document store returns to the reload that follows the requests, the
    rows it returns to the reload started by the effect on the view mode
    and how many requests have settled when that reload lands, and the
    result of each mentor lookup (null is [None]). *)
Record Env := {
  newSessionId : option string;
  dateNow : string;
  isoNow : string;
  fetchOutcome : DocumentType -> FetchOutcome;
  settleOrder : list DocumentType;
  dbDocuments : option (list DbDocument);
  effectDocuments : option (list DbDocument);
  effectLands : nat;
  getMentorForService : string -> option Mentor
}.

Definition initialDocument (dateNow : string) (t : DocumentType) : Document := {|
  doc_id := typeName t +:+ "-" +:+ dateNow;
  doc_type := t;
  doc_title := Js.capitalize (typeName t) +:+ " Guide";
  doc_keyPoints := [];
  doc_fullContent := "";
  doc_pdfUrl := None;
  doc_status := generating_ |}.

(** The four requests of [generateAllDocuments] run at once; each writes its
    outcome when it settles, in the order [order]. *)
Fixpoint settleAll (c : ChatState) (outcomes : DocumentType -> FetchOutcome)
    (order : list DocumentType) : Async unit :=
  match order with
  | [] => mret tt
  | t :: rest => generateDocument c (outcomes t) t ;; settleAll c outcomes rest
  end.

(** The effect [useEffect(..., [currentSessionId, viewMode])] as it runs
    after [setViewMode('dashboard')]: it runs when the view mode of the
    render before was another one, and reloads the documents when there is
    a session id.  The handler has changed neither the session id nor the
    view mode before, so both are those of its closure. *)
Definition effectFires (c : ChatState) : bool :=
  Js.truthy (currentSessionId c) &&
  match viewMode c with
  | dashboard => false
  | _ => true
  end.

Definition effectReload (c : ChatState) (rows : option (list DbDocument)) : Async unit :=
  if effectFires c then loadDocumentsFromDatabase c rows else mret tt.

(** [generateAllDocuments()] up to the point where all four requests have
    settled ([Promise.allSettled]).  With a signed-in user the requests are
    sent and the handler waits; the component renders, the effect starts
    its reload, and that reload lands when [effectLands env] of the
    requests have settled (after the last one when the number is four or
    more), with the rows the store held when it was started.  Without a
    user each request fails before its first [await], so all four have
    settled before the component renders. *)
Definition dispatchDocuments (c : ChatState) (env : Env) : Async unit :=
  setDocuments (fun _ => List.map (initialDocument (dateNow env)) documentTypes) ;;
  setFlowStage documents ;;
  setViewMode dashboard ;;
  match currentUser c with
  | Some _ =>
      settleAll c (fetchOutcome env) (take (effectLands env) (settleOrder env)) ;;
      effectReload c (effectDocuments env) ;;
      settleAll c (fetchOutcome env) (drop (effectLands env) (settleOrder env))
  | None => settleAll c (fetchOutcome env) (settleOrder env)
  end.

Definition ratingPromptText : string :=
  "🎉 All your business documents have been generated!" +:+ nl +:+ nl +:+
  "You can view them in the document dashboard." +:+ nl +:+ nl +:+
  "How would you rate your experience?" +:+ nl +:+ nl +:+
  "Please type a number from 1-5:" +:+ nl +:+ nl +:+
  "1 ⭐ - Poor" +:+ nl +:+ "2 ⭐⭐ - Fair" +:+ nl +:+ "3 ⭐⭐⭐ - Good" +:+ nl +:+
  "4 ⭐⭐⭐⭐ - Very Good" +:+ nl +:+ "5 ⭐⭐⭐⭐⭐ - Excellent".

(** [generateAllDocuments()].  The store answers the reads in the order
    in which they were started: with a signed-in user the reload of the
    effect, started while the requests were in flight, has landed before the
    reload that follows them; without a user the reload of the effect is
    started after that one, with no write to the store in between, and
    lands after it with the same answer. *)
Definition generateAllDocuments (c : ChatState) (env : Env) : Async unit :=
  dispatchDocuments c env ;;
  loadDocumentsFromDatabase c (dbDocuments env) ;;
  match currentUser c with
  | Some _ => mret tt
  | None => effectReload c (dbDocuments env)
  end ;;
  emit (SetTimeout (RatingPrompt (currentSessionId c) (currentUser c)) 3000).

(** *** Flow state machine *)

Definition ideaTuningText : string :=
  "Idea Tuning service will be available soon! This feature will help you refine and validate your business concept." +:+ nl +:+ nl +:+
  "For now, if you have a confirmed idea, please type " +:+ dq +:+ "2" +:+ dq +:+
  " to proceed with document generation.".

Definition promptOf (index : nat) : string :=
  match QUESTIONS !! index with
  | Some q => q_prompt q
  | None => ""
  end.

(** [handleInitialChoice(userInput)] *)
Definition handleInitialChoice (c : ChatState) (env : Env) (userInput : string)
    : Async unit :=
  let choice := Js.trim userInput in
  if String.eqb choice "1" then
    addMessageAndSave (currentSessionId c) (currentUser c) (aiMessage ideaTuningText)
  else if String.eqb choice "2" then
    session ← createSession (newSessionId env) (user_id <$> currentUser c)
                            "confirmed_idea_flow" ;
    (if truthyField session then
       setCurrentSessionId (default "" session) ;;
       setBusinessProfile ∅ ;;
       setCurrentQuestionIndex 0%nat
     else mret tt) ;;
    setFlowStage questioning ;;
    addMessageAndSave (currentSessionId c) (currentUser c)
      (aiMessage ("Great! I'll ask you 6 quick questions to gather the information we need." +:+ nl +:+ nl +:+
                  "Question 1 of 6:" +:+ nl +:+ promptOf 0))
  else
    addMessageAndSave (currentSessionId c) (currentUser c)
      (aiMessage "Please type 1 for Idea Tuning or 2 for Confirmed Idea to proceed.").

Definition processingText : string :=
  "Perfect! I have all the information I need." +:+ nl +:+ nl +:+
  "Processing your information and generating your business documents..." +:+ nl +:+ nl +:+
  "This may take a few moments. Please wait.".

(** [handleQuestionResponse(userInput)].  An index past the last question
    makes [currentQuestion.field] throw and the handler stops there. *)
Definition handleQuestionResponse (c : ChatState) (env : Env) (userInput : string)
    : Async unit :=
  match QUESTIONS !! currentQuestionIndex c with
  | None => mret tt
  | Some currentQuestion =>
      let updatedProfile :=
        if String.eqb (q_field currentQuestion) "partners_info"
        then <[q_field currentQuestion := VArr [VObj [("info", VStr userInput)]]]>
               (businessProfile c)
        else <[q_field currentQuestion := VStr userInput]> (businessProfile c) in
      setBusinessProfile updatedProfile ;;
      updateBusinessProfile c updatedProfile ;;
      if (currentQuestionIndex c <? length QUESTIONS - 1)%nat then
        let nextIndex := (currentQuestionIndex c + 1)%nat in
        setCurrentQuestionIndex nextIndex ;;
        addMessageAndSave (currentSessionId c) (currentUser c)
          (aiMessage ("Got it!" +:+ nl +:+ nl +:+
                      "Question " +:+ pretty (nextIndex + 1)%nat +:+ " of 6:" +:+ nl +:+
                      promptOf nextIndex))
      else
        setFlowStage generating ;;
        addMessageAndSave (currentSessionId c) (currentUser c) (aiMessage processingText) ;;
        generateAllDocuments c env
  end.

(** *** Rating and feedback *)

Definition serviceTypes : list string :=
  ["registration"; "branding"; "compliance"; "hr"].

(** [mentors.filter(mentor => mentor !== null)] *)
Definition nonNull (mentors : list (option Mentor)) : list Mentor :=
  omap id mentors.

(** The callback of [.map((mentor, index) => ...)]: [index] is the position
    in the array [map] runs over.  It stays below four, the length of
    [serviceTypes]. *)
Definition mentorCard (index : nat) (mentor : Mentor) : MentorCard := {|
  card_name := mentor_name mentor;
  card_email := mentor_email mentor;
  card_phone := default "" (orElse (mentor_phone mentor) (Some ""));
  card_expertise := Js.join ", " (mentor_specialization mentor);
  card_service := Js.capitalize (default "" (serviceTypes !! index)) |}.

Definition mentorCardsOf (mentors : list (option Mentor)) : list MentorCard :=
  imap mentorCard (nonNull mentors).

(** [rating >= 1 && rating <= 5], false on NaN *)
Definition validRating (r : option Z) : bool :=
  match r with
  | Some n => (1 <=? n) && (n <=? 5)
  | None => false
  end.

Definition thankYouText (r : Z) : string :=
  "Thank you for your " +:+ pretty r +:+ "-star rating! " +:+
  (if 4 <=? r then "🎉 We're glad you had a great experience!" else "").

Definition feedbackRequestText : string :=
  "We're sorry to hear that. Could you briefly tell us what went wrong or what we could improve? Your feedback helps us serve you better.".
Definition closingText : string :=
  "All your documents are available in the document tab. You can view or download them anytime. Thank you for using StartUP Companion!".
Definition feedbackThanksText : string :=
  "Thank you for your feedback. Let us connect you with our expert mentors who can provide personalized guidance for each area of your business.".
Definition mentorsText : string := "📞 Your Recommended Mentors".
Definition invalidRatingText : string :=
  "Please provide a valid rating between 1 and 5.".

(** [handleRatingResponse(userInput)] *)
Definition handleRatingResponse (c : ChatState) (env : Env) (userInput : string)
    : Async unit :=
  let r := Js.parseInt (Js.trim userInput) in
  if validRating r then
    let n := default 0 r in
    setAwaitingRating false ;;
    emit (SubmitRating {| rs_user_id := user_id <$> currentUser c;
                          rs_session_id := currentSessionId c;
                          rs_service_type := "confirmed_idea_flow";
                          rs_rating := n |}) ;;
    addMessageAndSave (currentSessionId c) (currentUser c) (aiMessage (thankYouText n)) ;;
    if n <=? 3 then
      emit (SetTimeout (FeedbackRequest (currentSessionId c) (currentUser c)) 1000)
    else
      emit (SetTimeout (ClosingMessage (currentSessionId c) (currentUser c)) 1500)
  else if String.eqb (ratingFeedback c) "awaiting" then
    setRatingFeedback "" ;;
    addMessageAndSave (currentSessionId c) (currentUser c) (aiMessage feedbackThanksText) ;;
    let mentors := List.map (getMentorForService env) serviceTypes in
    let mentorCards := mentorCardsOf mentors in
    if (0 <? length mentorCards)%nat then
      emit (SetTimeout (MentorMessage (currentSessionId c) (currentUser c) mentorCards) 1500)
    else mret tt
  else
    addMessageAndSave (currentSessionId c) (currentUser c) (aiMessage invalidRatingText).

(** The body of each timer callback. *)
Definition runTimer (env : Env) (callback : TimerCallback) : Async unit :=
  match callback with
  | RatingPrompt sid usr =>
      setFlowStage rating ;;
      setViewMode chat ;;
      addMessageAndSave sid usr (aiMessage ratingPromptText) ;;
      setAwaitingRating true
  | FeedbackRequest sid usr =>
      addMessageAndSave sid usr (aiMessage feedbackRequestText) ;;
      setRatingFeedback "awaiting"
  | ClosingMessage sid usr =>
      addMessageAndSave sid usr (aiMessage closingText) ;;
      if Js.truthy sid then updateSessionStatus (isoNow env) sid completed ;; mret tt
      else mret tt
  | MentorMessage sid usr cards =>
      addMessageAndSave sid usr
        {| msg_type := ai; msg_content := mentorsText; msg_mentorCards := Some cards |} ;;
      if Js.truthy sid then updateSessionStatus (isoNow env) sid completed ;; mret tt
      else mret tt
  end.

Definition userMessage (inputText : string) : Message :=
  {| msg_type := user; msg_content := inputText; msg_mentorCards := None |}.

(** [handleSendMessage()] with [inputText] in the input box. *)
Definition handleSendMessage (c : ChatState) (env : Env) (inputText : string)
    : Async unit :=
  if negb (Js.truthy (Js.trim inputText)) then mret tt
  else
    addMessageAndSave (currentSessionId c) (currentUser c) (userMessage inputText) ;;
    match flowStage c with
    | initial => handleInitialChoice c env inputText
    | questioning => handleQuestionResponse c env inputText
    | rating => handleRatingResponse c env inputText
    | _ => mret tt
    end.

(** A user event or a timer, taken after the render that follows the
    previous one: the closure holds the state the event starts from. *)
Inductive Event :=
| UserInput (env : Env) (inputText : string)
| TimerFires (env : Env) (callback : TimerCallback).

Definition step (w : World) (e : Event) : World * list Action :=
  match e with
  | UserInput env inputText => run (handleSendMessage (ui w) env inputText) w
  | TimerFires env callback => run (runTimer env callback) w
  end.

(** All events of a list in turn, with the actions they log. *)
Fixpoint steps (w : World) (es : list Event) : World * list Action :=
  match es with
  | [] => (w, [])
  | e :: rest =>
      let '(w1, log1) := step w e in
      let '(w2, log2) := steps w1 rest in
      (w2, log1 ++ log2)
  end.

(** ** The guide functions: what they store *)

Module Json.

Definition hexDigit (n : N) : ascii :=
  if (n <? 10)%N then ascii_of_N (48 + n) else ascii_of_N (87 + n).

(** One code unit of a string inside [JSON.stringify]'s quotes. *)
Definition quoteUnit (c : ascii) : string :=
  let n := N_of_ascii c in
  if (n =? 8)%N then "\b"
  else if (n =? 9)%N then "\t"
  else if (n =? 10)%N then "\n"
  else if (n =? 12)%N then "\f"
  else if (n =? 13)%N then "\r"
  else if (n =? 34)%N then String "\" dq
  else if (n =? 92)%N then "\\"
  else if (n <? 32)%N then
    "\u00" +:+ String (hexDigit (n / 16)) (String (hexDigit (n mod 16)) "")
  else String c "".

Fixpoint quoteUnits (s : string) : string :=
  match s with
  | EmptyString => ""
  | String c rest => quoteUnit c +:+ quoteUnits rest
  end.

(** [JSON.stringify(s)] for a string *)
Definition stringifyString (s : string) : string := dq +:+ quoteUnits s +:+ dq.

(** [JSON.stringify(a)] for an array of strings *)
Definition stringify (a : list string) : string :=
  "[" +:+ Js.join "," (List.map stringifyString a) +:+ "]".

End Json.

(** [c.toLowerCase()] on code units below 256: the letters A-Z and the
    capital letters of Latin-1. *)
Definition toLowerUnit (c : ascii) : ascii :=
  let n := N_of_ascii c in
  if ((65 <=? n)%N && (n <=? 90)%N)
     || ((192 <=? n)%N && (n <=? 222)%N && negb (n =? 215)%N)
  then ascii_of_N (n + 32) else c.

Fixpoint toLowerCase (s : string) : string :=
  match s with
  | EmptyString => EmptyString
  | String c rest => String (toLowerUnit c) (toLowerCase rest)
  end.

(** [s.includes(t)] *)
Fixpoint includes (s t : string) : bool :=
  String.prefix t s ||
  match s with
  | EmptyString => false
  | String _ rest => includes rest t
  end.

(** [s.split(' ')[0]] *)
Fixpoint firstWord (s : string) : string :=
  match s with
  | EmptyString => EmptyString
  | String c rest => if Ascii.eqb c " " then EmptyString else String c (firstWord rest)
  end.

(** [if (found) keyPoints.push(point)] *)
Definition pushIf (found : bool) (point : string) (keyPoints : list string)
    : list string :=
  if found then keyPoints ++ [point] else keyPoints.

Definition fallbackPoints : list string := [
  "Employment contract templates";
  "Core HR policy framework";
  "Compensation and benefits structure";
  "Statutory compliance guide";
  "Employee lifecycle management";
  "HR systems and processes"
].

(** One turn of the loop over the fallback points.  The loop leaves at the
    first turn that finds six key points; as no later turn would add one,
    the turns after it are taken as turns that change nothing. *)
Definition addFallback (keyPoints : list string) (fallback : string) : list string :=
  if (6 <=? length keyPoints)%nat then keyPoints
  else if negb (existsb (fun point => includes (toLowerCase point)
                                               (firstWord (toLowerCase fallback)))
                        keyPoints)
  then keyPoints ++ [fallback]
  else keyPoints.

(** The key points [extractKeyPoints] returns for a content of fewer than
    a hundred units. *)
Definition defaultKeyPoints : list string := [
  "Employment documentation templates";
  "HR policies (leave, attendance, conduct)";
  "Salary structure guidelines";
  "Payroll and statutory compliance";
  "Onboarding and performance management";
  "HR technology recommendations"
].

(** [extractKeyPoints(content)] of the HR guide function *)
Definition extractKeyPoints (content : string) : list string :=
  if negb (Js.truthy content) || (String.length content <? 100)%nat
  then defaultKeyPoints
  else
    let lower := toLowerCase content in
    let has := existsb (includes lower) in
    let keyPoints :=
      pushIf (includes lower "engagement" || includes lower "team building"
              || includes lower "recognition")
        "Employee engagement strategies"
      (pushIf (has ["minimum wages"; "gratuity"; "maternity"; "posh"; "compliance";
                    "labor law"])
        "Legal compliance requirements"
      (pushIf (includes lower "hrms" || includes lower "software"
               || includes lower "tool" || includes lower "technology")
        "HR technology and tools recommendations"
      (pushIf (includes lower "org"
               && (includes lower "chart" || includes lower "structure"
                   || includes lower "hierarchy"))
        "Organizational structure recommendations"
      (pushIf (has ["performance"; "appraisal"; "review"; "kpi"; "okr"; "goal setting"])
        "Performance management framework"
      (pushIf (includes lower "onboarding" || includes lower "orientation"
               || includes lower "joining process")
        "Structured onboarding process"
      (pushIf (has ["payroll"; "pf"; "provident fund"; "tds"; "payslip"; "statutory"])
        "Payroll processing and statutory compliance"
      (pushIf (has ["salary"; "compensation"; "pay structure"; "wages"; "benefits"])
        "Salary structure and compensation guidelines"
      (pushIf (has ["leave policy"; "attendance"; "code of conduct"; "hr polic";
                    "work hours"])
        "Essential HR policies (leave, attendance, conduct)"
      (pushIf (has ["offer letter"; "appointment letter"; "employment agreement"; "nda";
                    "documentation"])
        "Complete employment documentation templates"
        []))))))))) in
    take 6 (fold_left addFallback fallbackPoints keyPoints).

(** The row a guide function writes to [generated_documents] (here the HR
    guide), for the content and the key points it generated; [pdfUrl] is
    [pdfResult?.pdfUrl || null].  The store hands each column back as it
    was written and names the row [id]. *)
Definition storedGuideRow (id : string) (fullContent : string)
    (keyPoints : list string) (pdfUrl : option string) : DbDocument := {|
  db_id := id;
  db_document_type := hr;
  db_document_title := "HR Setup Guide";
  db_key_points := VStr (Json.stringify keyPoints);
  db_full_content := Some fullContent;
  db_pdf_url := orElse pdfUrl None;
  db_generation_status := completed_ |}.

(** The body the same function answers with. *)
Definition guideResponse (fullContent : string) (keyPoints : list string)
    (pdfUrl : option string) : EdgeResult := {|
  res_error := None;
  res_userMessage := None;
  res_fullContent := Some fullContent;
  res_response := Some fullContent;
  res_keyPoints := Some (VStr <$> keyPoints);
  res_pdfUrl := pdfUrl |}.

(** Row and body of the HR guide for the content the model returned. *)
Definition hrGuideRow (id : string) (fullContent : string) (pdfUrl : option string)
    : DbDocument :=
  storedGuideRow id fullContent (extractKeyPoints fullContent) pdfUrl.
Definition hrGuideResponse (fullContent : string) (pdfUrl : option string) : EdgeResult :=
  guideResponse fullContent (extractKeyPoints fullContent) pdfUrl.

(** ** Sample worlds *)

Definition sampleUser : User := {| user_id := "u1" |}.

Definition sampleBackend : Backend := {|
  user_sessions :=
    {[ "s1" := {| us_user_id := Some "u1"; us_service_type := "confirmed_idea_flow";
                  us_status := active; us_completed_at := None |} ]};
  chat_messages := [];
  business_profiles := [] |}.

(** A session that has reached the rating stage. *)
Definition ratingState (feedback : string) : ChatState := {|
  messages := []; currentUser := Some sampleUser; currentSessionId := "s1";
  viewMode := chat; flowStage := rating; currentQuestionIndex := 5%nat;
  businessProfile := ∅; documentList := [];
  awaitingRating := true; ratingFeedback := feedback |}.

Definition ratingWorld (feedback : string) : World :=
  {| ui := ratingState feedback; db := sampleBackend |}.

Definition mentorOf (name : string) : Mentor := {|
  mentor_name := name; mentor_email := name +:+ "@example.org";
  mentor_phone := None; mentor_specialization := ["Law"; "Tax"] |}.

Definition goodBody : EdgeResult :=
  guideResponse
    "0123456789012345678901234567890123456789012345678901234567890123456789012345678901234567890123456789"
    defaultKeyPoints (Some "https://files.example.org/guide.pdf").

Definition emptyBody : EdgeResult := guideResponse "" defaultKeyPoints None.

(** An environment in which every request succeeds and no mentor is found. *)
Definition quietEnv : Env := {|
  newSessionId := Some "s1";
  dateNow := "1700000000000";
  isoNow := "2023-11-14T22:13:20.000Z";
  fetchOutcome := fun _ => FetchResolved true (Some goodBody);
  settleOrder := documentTypes;
  dbDocuments := None;
  effectDocuments := Some [];
  effectLands := 0%nat;
  getMentorForService := fun _ => None |}.

(** The same with mentors for every service but registration. *)
Definition mentorEnv : Env := {|
  newSessionId := Some "s1";
  dateNow := "1700000000000";
  isoNow := "2023-11-14T22:13:20.000Z";
  fetchOutcome := fun _ => FetchResolved true (Some goodBody);
  settleOrder := documentTypes;
  dbDocuments := None;
  effectDocuments := Some [];
  effectLands := 0%nat;
  getMentorForService := fun t =>
    if String.eqb t "registration" then None else Some (mentorOf t) |}.

(** ** Auxiliary definitions of the statements *)

(** The two timers an accepted rating can schedule. *)
Definition ratingBranch (c : ChatState) (n : Z) : Action :=
  if n <=? 3
  then SetTimeout (FeedbackRequest (currentSessionId c) (currentUser c)) 1000
  else SetTimeout (ClosingMessage (currentSessionId c) (currentUser c)) 1500.

Definition ratingOf (c : ChatState) (n : Z) : RatingSubmission :=
  {| rs_user_id := user_id <$> currentUser c;
     rs_session_id := currentSessionId c;
     rs_service_type := "confirmed_idea_flow";
     rs_rating := n |}.


(** The world after [handleRatingResponse] has run on [input] in a closure
    with state [c], and what it logged. *)
Definition ratingReply (c : ChatState) (w : World) (env : Env) (input : string) : World :=
  worldAfter (handleRatingResponse c env input) w.
Definition ratingLog (c : ChatState) (w : World) (env : Env) (input : string)
    : list Action :=
  logOf (handleRatingResponse c env input) w.

(** The world once the user's text has been appended and saved: the world
    the stage handlers run in, in the closure of the render before. *)
Definition received (w : World) (inputText : string) : World :=
  worldAfter (addMessageAndSave (currentSessionId (ui w)) (currentUser (ui w))
                                (userMessage inputText)) w.

(** The ratings a log submits. *)
Definition submittedRatings (log : list Action) : list Z :=
  omap (fun a => match a with SubmitRating r => Some (rs_rating r) | _ => None end) log.

(** The callbacks a log schedules. *)
Definition scheduled (log : list Action) : list TimerCallback :=
  omap (fun a => match a with SetTimeout cb _ => Some cb | _ => None end) log.

(** Immutability of the rating as a property of the machine: after an input
    has been accepted as a rating, no later input submits one. *)
Definition ratingImmutable : Prop :=
  forall (w : World) (env1 env2 : Env) (input1 input2 : string),
    flowStage (ui w) = rating ->
    validRating (Js.parseInt (Js.trim input1)) = true ->
    submittedRatings
      (snd (step (fst (step w (UserInput env1 input1))) (UserInput env2 input2))) = [].

Definition statusOf (w : World) (sid : string) : option SessionStatus :=
  us_status <$> user_sessions (db w) !! sid.

(** The card the specification asks for: the mentor with the service whose
    lookup returned it. *)
Definition cardFor (serviceType : string) (mentor : Mentor) : MentorCard := {|
  card_name := mentor_name mentor;
  card_email := mentor_email mentor;
  card_phone := default "" (orElse (mentor_phone mentor) (Some ""));
  card_expertise := Js.join ", " (mentor_specialization mentor);
  card_service := Js.capitalize serviceType |}.

(** The cards of the lookups that returned a mentor, each with its own
    service. *)
Definition pairedCards (lookup : string -> option Mentor) : list MentorCard :=
  omap (fun t => cardFor t <$> lookup t) serviceTypes.

(** What the specification says a request's outcome does to its document:
    completed with the returned key points, content and file reference on a
    successful response without error payload whose content has at least a
    hundred units, failed otherwise. *)
Definition settle (outcome : FetchOutcome) (doc : Document) : Document :=
  match outcome with
  | FetchResolved true (Some result) =>
      if truthyField (res_error result) || truthyField (res_userMessage result)
      then withFailed doc
      else if (100 <=? String.length (contentOf result))%nat
      then withCompleted (default [] (res_keyPoints result)) (contentOf result)
                         (res_pdfUrl result) doc
      else withFailed doc
  | _ => withFailed doc
  end.

Definition typeIn (order : list DocumentType) (t : DocumentType) : bool :=
  existsb (DocumentType_eqb t) order.

(** A document after the requests of [order] have settled. *)
Definition settled (outcomes : DocumentType -> FetchOutcome)
    (order : list DocumentType) (doc : Document) : Document :=
  if typeIn order (doc_type doc) then settle (outcomes (doc_type doc)) doc else doc.

(** [result.error || result.userMessage] *)
Definition errorPayload (result : EdgeResult) : bool :=
  truthyField (res_error result) || truthyField (res_userMessage result).

(** The outcomes the specification calls a success: a successful response
    without error payload whose content has at least a hundred units. *)
Inductive succeeds : FetchOutcome -> EdgeResult -> Prop :=
| succeeds_intro (result : EdgeResult) :
    errorPayload result = false ->
    (100 <= String.length (contentOf result))%nat ->
    succeeds (FetchResolved true (Some result)) result.

(** The outcomes it calls a failure: a thrown fault (the request rejects or
    the body does not parse), a non-success response, an error payload, or
    a content of fewer than a hundred units, the empty one included. *)
Inductive fails : FetchOutcome -> Prop :=
| fails_rejected : fails FetchRejected
| fails_body : fails (FetchResolved true None)
| fails_status (body : option EdgeResult) : fails (FetchResolved false body)
| fails_error (result : EdgeResult) :
    errorPayload result = true -> fails (FetchResolved true (Some result))
| fails_short (result : EdgeResult) :
    (String.length (contentOf result) < 100)%nat ->
    fails (FetchResolved true (Some result)).

(** The documents once the four requests have settled, and the log. *)
Definition dispatched (c : ChatState) (env : Env) (w : World) : list Document :=
  documentList (ui (worldAfter (dispatchDocuments c env) w)).

(** An environment in which the branding request returns an empty content
    and the four requests settle in reverse order; the reload started by
    the effect finds no row in the store and lands before any of them. *)
Definition oneFlawedEnv : Env := {|
  newSessionId := Some "s1";
  dateNow := "1700000000000";
  isoNow := "2023-11-14T22:13:20.000Z";
  fetchOutcome := fun t =>
    match t with
    | branding => FetchResolved true (Some emptyBody)
    | _ => FetchResolved true (Some goodBody)
    end;
  settleOrder := [hr; compliance; branding; registration];
  dbDocuments := None;
  effectDocuments := Some [];
  effectLands := 0%nat;
  getMentorForService := fun _ => None |}.

(** A session whose last answer has just been given. *)
Definition generatingState : ChatState := {|
  messages := []; currentUser := Some sampleUser; currentSessionId := "s1";
  viewMode := chat; flowStage := generating; currentQuestionIndex := 5%nat;
  businessProfile := ∅; documentList := [];
  awaitingRating := false; ratingFeedback := "" |}.

Definition generatingWorld : World :=
  {| ui := generatingState; db := sampleBackend |}.

(** Type and status of each document of a list. *)
Definition statuses (docs : list Document) : list (DocumentType * DocumentStatus) :=
  List.map (fun d => (doc_type d, doc_status d)) docs.

(** The row of a guide generated from a short content, as the store hands
    it back. *)
Definition shortGuideRow : DbDocument := hrGuideRow "d1" "Draft." None.

(** A content of more than a hundred units. *)
Definition payrollContent : string :=
  "# HR Setup Guide" +:+ nl +:+
  "Set up Payroll with PF and TDS deductions, write a Leave Policy, " +:+
  "and pick an HRMS software for attendance." +:+ nl +:+
  "Review performance twice a year.".

Definition reloadEnv : Env := {|
  newSessionId := Some "s1";
  dateNow := "1700000000000";
  isoNow := "2023-11-14T22:13:20.000Z";
  fetchOutcome := fun _ => FetchResolved true (Some goodBody);
  settleOrder := documentTypes;
  dbDocuments := Some [shortGuideRow];
  effectDocuments := Some [];
  effectLands := 0%nat;
  getMentorForService := fun _ => None |}.

(** The first unit of [s] is not a decimal digit. *)
Definition noLeadingDigit (s : string) : Prop :=
  match s with
  | EmptyString => True
  | String c _ => Js.radixDigit 10 c = None
  end.

(** The stored profile of a session: the row [maybeSingle] finds. *)
Definition storedProfile (w : World) (sid : string) : option (gmap string JsVal) :=
  maybeSingle (List.filter (sessionIs sid) (business_profiles (db w))).

(** The value a field has after an update with [profile] when it held [v]. *)
Definition mergedValue (profile : gmap string JsVal) (key : string) (v : option JsVal)
    : option JsVal :=
  match profile !! key with
  | Some v' => if hasNewValue v' then Some v' else v
  | None => v
  end.

(** The profile once [input] has been recorded as the answer to [q]. *)
Definition recorded (q : Question) (input : string) (profile : gmap string JsVal)
    : gmap string JsVal :=
  if String.eqb (q_field q) "partners_info"
  then <[q_field q := VArr [VObj [("info", VStr input)]]]> profile
  else <[q_field q := VStr input]> profile.

(** Stage, question index and profile of a world. *)
Definition progress (w : World) : FlowStage * nat * gmap string JsVal :=
  (flowStage (ui w), currentQuestionIndex (ui w), businessProfile (ui w)).

(** The user picks the confirmed-idea flow and answers the questions. *)
Definition questionnaire (start : Env) (choice : string)
    (answers : list (Env * string)) : list Event :=
  UserInput start choice :: List.map (fun ea => UserInput (fst ea) (snd ea)) answers.

Definition sampleAnswers : list (Env * string) := [
  (quietEnv, "Acme Tools"); (quietEnv, "We sell tools, see acme.example.org");
  (quietEnv, "Pune"); (quietEnv, "Two directors: CEO and CTO");
  (quietEnv, "Earthy"); (quietEnv, "Modern") ].

Definition startWorld : World :=
  {| ui := {| messages := []; currentUser := Some sampleUser; currentSessionId := "";
              viewMode := chat; flowStage := initial; currentQuestionIndex := 0%nat;
              businessProfile := ∅; documentList := [];
              awaitingRating := false; ratingFeedback := "" |};
     db := {| user_sessions := ∅; chat_messages := []; business_profiles := [] |} |}.

(** The six fields of a complete profile. *)
Definition profileFields : gset string :=
  {[ "business_name"; "company_description"; "location"; "partners_info";
     "color_preference"; "style_preference" ]}.

(** ** Further definitions of the statements *)

(** Position of a stage in [initial → questioning → generating → documents
    → rating]. *)
Definition stageRank (s : FlowStage) : nat :=
  match s with
  | initial => 0
  | questioning => 1
  | generating => 2
  | documents => 3
  | rating => 4
  end.

(** The user inputs of a run, each with what the environment decides
    during it. *)
Definition userInputs (inputs : list (Env * string)) : list Event :=
  List.map (fun ei => UserInput (fst ei) (snd ei)) inputs.

(** The environment an event runs in. *)
Definition envOf (e : Event) : Env :=
  match e with
  | UserInput env _ => env
  | TimerFires env _ => env
  end.

(** Every unit of [s] is white space. *)
Fixpoint allWhiteSpace (s : string) : bool :=
  match s with
  | EmptyString => true
  | String c rest => Js.isWhiteSpace c && allWhiteSpace rest
  end.

(** The reply to the choice of the confirmed-idea flow. *)
Definition firstQuestionText : string :=
  "Great! I'll ask you 6 quick questions to gather the information we need." +:+ nl +:+ nl +:+
  "Question 1 of 6:" +:+ nl +:+ promptOf 0.

(** A world in which no session has been created. *)
Definition sessionlessWorld (stage : FlowStage) : World :=
  {| ui := {| messages := []; currentUser := Some sampleUser; currentSessionId := "";
              viewMode := chat; flowStage := stage; currentQuestionIndex := 0%nat;
              businessProfile := ∅; documentList := [];
              awaitingRating := false; ratingFeedback := "" |};
     db := sampleBackend |}.

(** An environment in which the store cannot create a session. *)
Definition noSessionEnv : Env := {|
  newSessionId := None;
  dateNow := "1700000000000";
  isoNow := "2023-11-14T22:13:20.000Z";
  fetchOutcome := fun _ => FetchResolved true (Some goodBody);
  settleOrder := documentTypes;
  dbDocuments := None;
  effectDocuments := Some [];
  effectLands := 0%nat;
  getMentorForService := fun _ => None |}.

(** The state of the generating stage when the auth call has not set a
    user. *)
Definition signedOutState : ChatState := {|
  messages := []; currentUser := None; currentSessionId := "s1";
  viewMode := chat; flowStage := generating; currentQuestionIndex := 5%nat;
  businessProfile := ∅; documentList := [];
  awaitingRating := false; ratingFeedback := "" |}.

(** The rows of [business_profiles] that belong to a session. *)
Definition profilesOf (sid : string) (w : World) : list (gmap string JsVal) :=
  List.filter (sessionIs sid) (business_profiles (db w)).

(** The rows [updateBusinessProfile] leaves, given the rows it finds. *)
Definition profilesAfter (c : ChatState) (profile : gmap string JsVal)
    (rows : list (gmap string JsVal)) : list (gmap string JsVal) :=
  business_profiles (db (worldAfter (updateBusinessProfile c profile)
    {| ui := c;
       db := {| user_sessions := ∅; chat_messages := []; business_profiles := rows |} |})).

(** The store holds, for the session of [w], the profile the component
    holds, with the ids of the user and of the session. *)
Definition profileStored (u : User) (w : World) : Prop :=
  storedProfile w (currentSessionId (ui w)) =
  Some (insertedRow u (currentSessionId (ui w)) (businessProfile (ui w))).

(** The questioning stage after a first answer. *)
Definition answeringWorld : World :=
  worldAfter
    (updateBusinessProfile
       {| messages := []; currentUser := Some sampleUser; currentSessionId := "s1";
          viewMode := chat; flowStage := questioning; currentQuestionIndex := 1%nat;
          businessProfile := {[ "business_name" := VStr "Acme Tools" ]};
          documentList := []; awaitingRating := false; ratingFeedback := "" |}
       {[ "business_name" := VStr "Acme Tools" ]})
    {| ui := {| messages := []; currentUser := Some sampleUser; currentSessionId := "s1";
                viewMode := chat; flowStage := questioning; currentQuestionIndex := 1%nat;
                businessProfile := {[ "business_name" := VStr "Acme Tools" ]};
                documentList := []; awaitingRating := false; ratingFeedback := "" |};
       db := sampleBackend |}.

(** [p] holds of both booleans. *)
Definition forallBool (p : bool -> bool) : bool := p true && p false.

(** No two strings of [l] are the same. *)
Fixpoint distinct (l : list string) : bool :=
  match l with
  | [] => true
  | x :: rest => negb (existsb (String.eqb x) rest) && distinct rest
  end.

(** Every string of [l] is one of [texts]. *)
Definition allIn (texts l : list string) : bool :=
  forallb (fun x => existsb (String.eqb x) texts) l.

(** The list [extractKeyPoints] ends with, from the ten topics found. *)
Definition keyPointsFound (documentation policies compensation payroll onboarding
    performance structure technology compliance engagement : bool) : list string :=
  take 6 (fold_left addFallback fallbackPoints
    (pushIf engagement "Employee engagement strategies"
    (pushIf compliance "Legal compliance requirements"
    (pushIf technology "HR technology and tools recommendations"
    (pushIf structure "Organizational structure recommendations"
    (pushIf performance "Performance management framework"
    (pushIf onboarding "Structured onboarding process"
    (pushIf payroll "Payroll processing and statutory compliance"
    (pushIf compensation "Salary structure and compensation guidelines"
    (pushIf policies "Essential HR policies (leave, attendance, conduct)"
    (pushIf documentation "Complete employment documentation templates"
       []))))))))))).

(** The sixteen texts a key point of a content of a hundred units or more
    is taken from. *)
Definition keyPointTexts : list string := [
  "Complete employment documentation templates";
  "Essential HR policies (leave, attendance, conduct)";
  "Salary structure and compensation guidelines";
  "Payroll processing and statutory compliance";
  "Structured onboarding process";
  "Performance management framework";
  "Organizational structure recommendations";
  "HR technology and tools recommendations";
  "Legal compliance requirements";
  "Employee engagement strategies" ] ++ fallbackPoints.

(** ** The PDF generator ([_shared/pdfGenerator.ts]) *)

(** [s.startsWith(t)] *)
Definition startsWith (s t : string) : bool := String.prefix t s.

(** [s.endsWith(t)] *)
Fixpoint endsWith (s t : string) : bool :=
  String.eqb s t ||
  match s with
  | EmptyString => false
  | String _ rest => endsWith rest t
  end.

(** [s.substring(n)] *)
Fixpoint substringFrom (n : nat) (s : string) : string :=
  match n, s with
  | O, _ => s
  | S m, String _ rest => substringFrom m rest
  | S _, EmptyString => EmptyString
  end.

(** [s.split(sep)] for a separator of one unit *)
Fixpoint splitOn (sep : ascii) (s : string) : list string :=
  match s with
  | EmptyString => [EmptyString]
  | String c rest =>
      if Ascii.eqb c sep then EmptyString :: splitOn sep rest
      else match splitOn sep rest with
           | first :: others => String c first :: others
           | [] => [String c EmptyString]
           end
  end.

(** [s.replace(/\*\*/g, '')]: the matches are taken from the left and do
    not overlap. *)
Fixpoint removeBold (s : string) : string :=
  match s with
  | EmptyString => EmptyString
  | String c rest =>
      match rest with
      | String c' rest' =>
          if Ascii.eqb c "*" && Ascii.eqb c' "*" then removeBold rest'
          else String c (removeBold rest)
      | EmptyString => String c EmptyString
      end
  end.

(** The calls made on the PDF document, in order.  [OpMoveDown] counts in
    tenths of a line; [OpPageCheck limit] is
    [if (doc.y > limit) doc.addPage()], whose outcome is the library's;
    [OpList] is a list drawn with bullet radius 2, text indent 20 and bullet
    indent 10; [OpRule] is the line stroked from x = 50 to x = 545 at the
    current height, one unit wide. *)
Inductive PdfOp :=
| OpFontSize (size : Z)
| OpFillColor (color : string)
| OpFont (name : string)
| OpText (text : string) (align : option string)
| OpTextAt (text : string) (x y width : Z) (align : string)
| OpList (items : list string)
| OpMoveDown (tenths : Z)
| OpRule (color : string)
| OpPageCheck (limit : Z).

(** [titleMap] and [colorMap]; on the four document types the fallbacks
    ['Business Guide'] and ['#3B82F6'] are not reached. *)
Definition titleOf (documentType : DocumentType) : string :=
  match documentType with
  | registration => "Company Registration Guide"
  | branding => "Branding Strategy Guide"
  | compliance => "Compliance & Legal Guide"
  | hr => "HR Setup Guide"
  end.

Definition colorOf (documentType : DocumentType) : string :=
  match documentType with
  | registration => "#3B82F6"
  | branding => "#9333EA"
  | compliance => "#10B981"
  | hr => "#F97316"
  end.

(** The branch of the loop a trimmed line takes. *)
Inductive LineKind :=
| Heading1 | Heading2 | Heading3 | BulletLine | BoldLine | PlainLine | BlankLine.

Definition lineKind (trimmedLine : string) : LineKind :=
  if startsWith trimmedLine "# " then Heading1
  else if startsWith trimmedLine "## " then Heading2
  else if startsWith trimmedLine "### " then Heading3
  else if startsWith trimmedLine "- " || startsWith trimmedLine "* " then BulletLine
  else if startsWith trimmedLine "**" && endsWith trimmedLine "**" then BoldLine
  else if (0 <? String.length trimmedLine)%nat then PlainLine
  else BlankLine.

(** One turn of the loop over the lines, after the page check: the calls it
    makes and the values it leaves in [currentFontSize] and
    [currentColor]. *)
Definition renderLine (primaryColor : string) (style : Z * string) (line : string)
    : list PdfOp * (Z * string) :=
  let trimmedLine := Js.trim line in
  match lineKind trimmedLine with
  | Heading1 =>
      ([OpMoveDown 8; OpFontSize 18; OpFillColor primaryColor;
        OpText (substringFrom 2 trimmedLine) None; OpMoveDown 5], (11, "#1F2937"))
  | Heading2 =>
      ([OpMoveDown 6; OpFontSize 14; OpFillColor primaryColor;
        OpText (substringFrom 3 trimmedLine) None; OpMoveDown 3], (11, "#1F2937"))
  | Heading3 =>
      ([OpMoveDown 4; OpFontSize 12; OpFillColor "#374151";
        OpText (substringFrom 4 trimmedLine) None; OpMoveDown 2], (11, "#1F2937"))
  | BulletLine =>
      ([OpFontSize 11; OpFillColor "#1F2937"; OpList [substringFrom 2 trimmedLine]],
       style)
  | BoldLine =>
      ([OpMoveDown 2; OpFontSize 11; OpFillColor "#374151"; OpFont "Helvetica-Bold";
        OpText (removeBold trimmedLine) None; OpFont "Helvetica"], (11, "#1F2937"))
  | PlainLine =>
      ([OpFontSize (fst style); OpFillColor (snd style);
        OpText (removeBold trimmedLine) (Some "left")], style)
  | BlankLine => ([OpMoveDown 3], style)
  end.

(** The loop [for (const line of lines)]. *)
Fixpoint renderLines (primaryColor : string) (style : Z * string) (lines : list string)
    : list PdfOp * (Z * string) :=
  match lines with
  | [] => ([], style)
  | line :: rest =>
      let '(ops, style1) := renderLine primaryColor style line in
      let '(ops', style2) := renderLines primaryColor style1 rest in
      (OpPageCheck 720 :: ops ++ ops', style2)
  end.

(** [generatePDFBuffer(content, documentType, businessName)]: the document
    handed to the PDF library, from which it makes the buffer.  [dateText]
    is the date of the day as [toLocaleDateString] writes it. *)
Definition generatePDFBuffer (content : string) (documentType : DocumentType)
    (businessName dateText : string) : list PdfOp :=
  let primaryColor := colorOf documentType in
  [OpFontSize 24; OpFillColor primaryColor; OpText (titleOf documentType) (Some "center");
   OpMoveDown 5; OpFontSize 14; OpFillColor "#6B7280";
   OpText ("Generated for: " +:+ businessName) (Some "center");
   OpMoveDown 3; OpFontSize 10; OpFillColor "#9CA3AF";
   OpText ("Date: " +:+ dateText) (Some "center");
   OpMoveDown 20; OpRule "#E5E7EB"; OpMoveDown 10]
  ++ fst (renderLines primaryColor (11, "#1F2937") (splitOn (ascii_of_N 10) content))
  ++ [OpMoveDown 20; OpFontSize 8; OpFillColor "#9CA3AF";
      OpTextAt "Generated by StartUP Companion - Your Business Launch Partner"
               50 750 495 "center"].

Record PDFGenerationOptions := {
  opt_userId : string;
  opt_documentType : DocumentType;
  opt_content : string;
  opt_businessName : option string
}.

(** What the environment decides during [generateAndStorePDF]: the clock,
    whether the library or the upload fails, and the public URL the
    storage gives a file name. *)
Record PdfEnv := {
  pdf_isoNow : string;
  pdf_dateText : string;
  pdf_renderFails : bool;
  pdf_uploadFails : bool;
  pdf_publicUrl : string -> string
}.

(** [`${userId}/${documentType}/${documentType}-guide-${timestamp}.pdf`]
    with [timestamp = new Date().toISOString().split('T')[0]] *)
Definition pdfFileName (userId : string) (documentType : DocumentType) (isoNow : string)
    : string :=
  userId +:+ "/" +:+ typeName documentType +:+ "/" +:+ typeName documentType +:+
  "-guide-" +:+ default "" (head (splitOn "T" isoNow)) +:+ ".pdf".

(** [generateAndStorePDF(options, supabaseClient)] on the bucket
    [business-documents], a map from file names to documents; the upload
    is an upsert.  The result is [None] for null. *)
Definition generateAndStorePDF (options : PDFGenerationOptions) (env : PdfEnv)
    (bucket : gmap string (list PdfOp))
    : option (string * string) * gmap string (list PdfOp) :=
  let businessName := default "Business" (opt_businessName options) in
  let fileName := pdfFileName (opt_userId options) (opt_documentType options)
                              (pdf_isoNow env) in
  if pdf_renderFails env then (None, bucket)
  else
    let pdfBuffer := generatePDFBuffer (opt_content options) (opt_documentType options)
                                       businessName (pdf_dateText env) in
    if pdf_uploadFails env then (None, bucket)
    else (Some (pdf_publicUrl env fileName, fileName), <[fileName := pdfBuffer]> bucket).

(** ** The HR guide function ([hr-guide-guru]) *)

(** How the call to the model ends: no API key is configured; the request
    or the reading of its body throws an error with that message; the
    response has a status that is not a success; or the body is read and
    [data.choices[0].message.content] is [content], [None] when a step of
    that path is missing. *)
Inductive Upstream :=
| NoApiKey
| UpstreamThrows (message : option string)
| UpstreamStatus (status : Z)
| UpstreamContent (content : option string).

(** [callOpenRouterAPI(contextInfo)]: the content, or the message of the
    error it throws. *)
Definition callOpenRouterAPI (upstream : Upstream) : string + option string :=
  match upstream with
  | NoApiKey => inr (Some "API_KEY_NOT_CONFIGURED")
  | UpstreamThrows message => inr message
  | UpstreamStatus status => inr (Some ("API_ERROR: " +:+ pretty status))
  | UpstreamContent None => inr (Some "INVALID_API_RESPONSE")
  | UpstreamContent (Some content) =>
      if Js.truthy content then inl content else inr (Some "INVALID_API_RESPONSE")
  end.

(** The fields of the request body the function stores. *)
Record RequestPayload := {
  rp_message : string;
  rp_sessionId : string;
  rp_userId : string
}.

(** A request: its method and its body, or the message of the error
    thrown before the call to the model (by [createClient] or by
    [req.json()]). *)
Record GuideRequest := {
  rq_method : string;
  rq_body : RequestPayload + option string
}.

(** A row of [generated_documents]. *)
Record GuideRow := {
  gr_id : string;
  gr_user_id : string;
  gr_session_id : string;
  gr_document_type : string;
  gr_document_title : string;
  gr_key_points : string;
  gr_full_content : string;
  gr_pdf_url : option string;
  gr_pdf_file_name : option string;
  gr_generation_status : DocumentStatus;
  gr_service_type : string
}.

(** A response: its status and its JSON body as the component reads it
    ([details] and [documentId], which it does not read, are left out);
    [None] is the null body. *)
Record Response := {
  rsp_status : Z;
  rsp_body : option EdgeResult
}.

(** [response.ok] *)
Definition responseOk (response : Response) : bool :=
  (200 <=? rsp_status response) && (rsp_status response <=? 299).

(** What [fetch] and [response.json()] give the component for a response. *)
Definition fetched (response : Response) : FetchOutcome :=
  FetchResolved (responseOk response) (rsp_body response).

(** The [catch] block of the function. *)
Definition errorResponse (message : option string) : Response :=
  let '(errorMessage, userMessage) :=
    match message with
    | Some m =>
        if String.eqb m "API_KEY_NOT_CONFIGURED"
        then ("OpenRouter API key not configured",
              "Configuration error: API key missing. Please contact support.")
        else if startsWith m "API_ERROR"
        then (m, "AI service temporarily unavailable. Please try again in a moment.")
        else ("Internal server error", "Failed to generate HR guide. Please try again.")
    | None => ("Internal server error", "Failed to generate HR guide. Please try again.")
    end in
  {| rsp_status := 500;
     rsp_body := Some {| res_error := Some errorMessage;
                         res_userMessage := Some userMessage;
                         res_fullContent := None; res_response := None;
                         res_keyPoints := None; res_pdfUrl := None |} |}.

(** [.eq('session_id', sessionId).eq('document_type', 'hr')] *)
Definition isHrOf (sessionId : string) (row : GuideRow) : bool :=
  String.eqb (gr_session_id row) sessionId && String.eqb (gr_document_type row) "hr".

(** The columns the function writes over an existing row. *)
Definition rewritten (fullContent : string) (keyPoints : list string)
    (pdfResult : option (string * string)) (row : GuideRow) : GuideRow := {|
  gr_id := gr_id row;
  gr_user_id := gr_user_id row;
  gr_session_id := gr_session_id row;
  gr_document_type := gr_document_type row;
  gr_document_title := "HR Setup Guide";
  gr_key_points := Json.stringify keyPoints;
  gr_full_content := fullContent;
  gr_pdf_url := orElse (fst <$> pdfResult) None;
  gr_pdf_file_name := orElse (snd <$> pdfResult) None;
  gr_generation_status := completed_;
  gr_service_type := "confirmed_idea_flow" |}.

(** The handler of the function.  The prompt it sends is built from the
    business profile; how the model answers is [upstream], what
    [generateAndStorePDF] returns is [pdfResult], and [newId] is the id the
    store gives a new row.  The table is taken without storage faults. *)
Definition hrGuide (request : GuideRequest) (upstream : Upstream)
    (pdfResult : option (string * string)) (newId : string) (rows : list GuideRow)
    : Response * list GuideRow :=
  if String.eqb (rq_method request) "OPTIONS"
  then ({| rsp_status := 200; rsp_body := None |}, rows)
  else
    match rq_body request with
    | inr message => (errorResponse message, rows)
    | inl payload =>
        match callOpenRouterAPI upstream with
        | inr message => (errorResponse message, rows)
        | inl fullContent =>
            let keyPoints := extractKeyPoints fullContent in
            let rows' :=
              match maybeSingle (List.filter (isHrOf (rp_sessionId payload)) rows) with
              | Some existingDoc =>
                  List.map (fun row => if String.eqb (gr_id row) (gr_id existingDoc)
                                       then rewritten fullContent keyPoints pdfResult row
                                       else row) rows
              | None =>
                  rows ++ [{| gr_id := newId;
                              gr_user_id := rp_userId payload;
                              gr_session_id := rp_sessionId payload;
                              gr_document_type := "hr";
                              gr_document_title := "HR Setup Guide";
                              gr_key_points := Json.stringify keyPoints;
                              gr_full_content := fullContent;
                              gr_pdf_url := orElse (fst <$> pdfResult) None;
                              gr_pdf_file_name := orElse (snd <$> pdfResult) None;
                              gr_generation_status := completed_;
                              gr_service_type := "confirmed_idea_flow" |}]
              end in
            ({| rsp_status := 200;
                rsp_body := Some (guideResponse fullContent keyPoints (fst <$> pdfResult)) |},
             rows')
        end
    end.

(** ** Sample requests *)

Definition sampleUrl (fileName : string) : string :=
  "https://files.example.org/business-documents/" +:+ fileName.

Definition morningEnv : PdfEnv := {|
  pdf_isoNow := "2023-11-14T09:00:00.000Z";
  pdf_dateText := "November 14, 2023";
  pdf_renderFails := false;
  pdf_uploadFails := false;
  pdf_publicUrl := sampleUrl |}.

Definition eveningEnv : PdfEnv := {|
  pdf_isoNow := "2023-11-14T22:13:20.000Z";
  pdf_dateText := "November 14, 2023";
  pdf_renderFails := false;
  pdf_uploadFails := false;
  pdf_publicUrl := sampleUrl |}.

Definition guideOptions (content : string) : PDFGenerationOptions := {|
  opt_userId := "u1";
  opt_documentType := hr;
  opt_content := content;
  opt_businessName := Some "Acme Tools" |}.

Definition guideRequest (sessionId : string) : GuideRequest := {|
  rq_method := "POST";
  rq_body := inl {| rp_message := "generate_document";
                    rp_sessionId := sessionId;
                    rp_userId := "u1" |} |}.

(** The ids of the rows of [generated_documents]. *)
Definition rowIds (rows : list GuideRow) : list string := List.map gr_id rows.

(** The rows of the HR guide of a session, and the others. *)
Definition guidesOf (sessionId : string) (rows : list GuideRow) : list GuideRow :=
  List.filter (isHrOf sessionId) rows.
Definition otherGuides (sessionId : string) (rows : list GuideRow) : list GuideRow :=
  List.filter (fun row => negb (isHrOf sessionId row)) rows.

(** The ratings among a run of inputs: those whose trimmed text [parseInt]
    reads as a number from 1 to 5, in order. *)
Definition ratingsIn (inputs : list (Env * string)) : list Z :=
  omap (fun ei => let r := Js.parseInt (Js.trim (snd ei)) in
                  if validRating r then r else None) inputs.
(** * Properties *)

(** ** String primitives on sample inputs *)

Example parseInt_7 : Js.parseInt "7" = Some 7.
Proof. reflexivity. Qed.
Example parseInt_stars : Js.parseInt (Js.trim "  3 stars, it was bad ") = Some 3.
Proof. reflexivity. Qed.
Example parseInt_hex : Js.parseInt "0x3" = Some 3.
Proof. reflexivity. Qed.
Example parseInt_word : Js.parseInt "too slow" = None.
Proof. reflexivity. Qed.
Example parseInt_neg : Js.parseInt "-3" = Some (-3).
Proof. reflexivity. Qed.
Example parseInt_blank : Js.parseInt (Js.trim "   ") = None.
Proof. reflexivity. Qed.
Example capitalize_hr : Js.capitalize "hr" = "Hr".
Proof. reflexivity. Qed.
Example join_three : Js.join ", " ["a"; "b"; "c"] = "a, b, c".
Proof. reflexivity. Qed.
Example stringify_two :
  Json.stringify ["a"; "b c"] = "[" +:+ dq +:+ "a" +:+ dq +:+ "," +:+ dq +:+ "b c" +:+ dq +:+ "]".
Proof. reflexivity. Qed.

(** ** The action log and the chat log *)

Lemma run_bind {A B} (m : Async A) (k : A -> Async B) (w : World) :
  run (m ≫= k) w =
  let '(a, w1, log1) := m w in
  let '(w2, log2) := run (k a) w1 in (w2, log1 ++ log2).
Proof.
  unfold run, mbind, Async_bind.
  destruct (m w) as [[a w1] log1]. destruct (k a w1) as [[b w2] log2]. reflexivity.
Qed.

Lemma worldAfter_seq {A B} (m : Async A) (k : Async B) (w : World) :
  worldAfter (m ;; k) w = worldAfter k (worldAfter m w).
Proof.
  unfold worldAfter, run, mbind, Async_bind.
  destruct (m w) as [[a w1] log1]. cbn. destruct (k w1) as [[b w2] log2]. reflexivity.
Qed.

Lemma logOf_seq {A B} (m : Async A) (k : Async B) (w : World) :
  logOf (m ;; k) w = logOf m w ++ logOf k (worldAfter m w).
Proof.
  unfold logOf, worldAfter, run, mbind, Async_bind.
  destruct (m w) as [[a w1] log1]. cbn. destruct (k w1) as [[b w2] log2]. reflexivity.
Qed.

(** Unfolding of the monad and of the setters, leaving the data alone. *)
Ltac async_unfold :=
  cbv beta iota zeta delta
    [run worldAfter logOf mbind mret Async_bind Async_ret emit modifyUi
     modifyDb readDb setMessages setCurrentSessionId setViewMode setFlowStage
     setCurrentQuestionIndex setBusinessProfile setDocuments setAwaitingRating
     setRatingFeedback setBusinessProfiles saveChatMessage updateSessionStatus
     addMessageAndSave markFailed fst snd];
  cbn [ui db messages currentUser currentSessionId viewMode flowStage
       currentQuestionIndex businessProfile documentList awaitingRating
       ratingFeedback user_sessions chat_messages business_profiles app].

Section AddMessage.
Variables (sid : string) (usr : option User) (m : Message) (w : World).

Lemma addMessageAndSave_log : logOf (addMessageAndSave sid usr m) w = [].
Proof.
  unfold logOf, run, addMessageAndSave.
  destruct (Js.truthy sid), usr; reflexivity.
Qed.

Lemma addMessageAndSave_ui :
  ui (worldAfter (addMessageAndSave sid usr m) w) =
  ui (worldAfter (setMessages (fun prev => prev ++ [m])) w).
Proof.
  unfold worldAfter, run, addMessageAndSave.
  destruct (Js.truthy sid), usr; reflexivity.
Qed.

Lemma addMessageAndSave_sessions :
  user_sessions (db (worldAfter (addMessageAndSave sid usr m) w)) =
  user_sessions (db w).
Proof.
  unfold worldAfter, run, addMessageAndSave.
  destruct (Js.truthy sid), usr; reflexivity.
Qed.

Lemma addMessageAndSave_profiles :
  business_profiles (db (worldAfter (addMessageAndSave sid usr m) w)) =
  business_profiles (db w).
Proof.
  unfold worldAfter, run, addMessageAndSave.
  destruct (Js.truthy sid), usr; reflexivity.
Qed.
End AddMessage.

(** ** Rating stage *)

Lemma validRating_range (r : option Z) :
  validRating r = true <-> exists n, r = Some n /\ 1 <= n <= 5.
Proof.
  unfold validRating. split.
  - destruct r as [n|]; [|discriminate].
    intros H. apply andb_true_iff in H as [H1 H2].
    exists n. split; [reflexivity | lia].
  - intros (n & -> & H). apply andb_true_iff. split; lia.
Qed.

Lemma rating_accepted_run (c : ChatState) (w : World) (env : Env) (input : string) (n : Z) :
  Js.parseInt (Js.trim input) = Some n -> 1 <= n <= 5 ->
  logOf (handleRatingResponse c env input) w =
    [SubmitRating (ratingOf c n); ratingBranch c n] /\
  ui (worldAfter (handleRatingResponse c env input) w) =
    ui (worldAfter (setAwaitingRating false ;;
                    setMessages (fun prev => prev ++ [aiMessage (thankYouText n)])) w) /\
  user_sessions (db (worldAfter (handleRatingResponse c env input) w)) =
    user_sessions (db w).
Proof.
  intros Hp Hn.
  unfold handleRatingResponse, ratingBranch, ratingOf.
  rewrite Hp.
  assert (Hv : validRating (Some n) = true) by (apply validRating_range; eauto).
  rewrite Hv. cbn [default from_option id].
  destruct (Js.truthy (currentSessionId c)) eqn:Hs,
           (currentUser c) eqn:Hu, (n <=? 3);
    async_unfold; rewrite ?Hs, ?Hu; async_unfold; auto.
Qed.

Lemma rating_rejected_run (c : ChatState) (w : World) (env : Env) (input : string) :
  validRating (Js.parseInt (Js.trim input)) = false ->
  run (handleRatingResponse c env input) w =
  if String.eqb (ratingFeedback c) "awaiting" then
    run (setRatingFeedback "" ;;
         addMessageAndSave (currentSessionId c) (currentUser c)
           (aiMessage feedbackThanksText) ;;
         let mentorCards :=
           mentorCardsOf (List.map (getMentorForService env) serviceTypes) in
         if (0 <? length mentorCards)%nat then
           emit (SetTimeout (MentorMessage (currentSessionId c) (currentUser c)
                                           mentorCards) 1500)
         else mret tt) w
  else
    run (addMessageAndSave (currentSessionId c) (currentUser c)
           (aiMessage invalidRatingText)) w.
Proof.
  intros Hv. unfold handleRatingResponse. rewrite Hv.
  destruct (String.eqb (ratingFeedback c) "awaiting"); reflexivity.
Qed.

(** In the rating stage [handleSendMessage] appends the user's text and
    hands a non-blank input to [handleRatingResponse]; a blank one is
    dropped. *)
Lemma rating_stage_dispatch (w : World) (env : Env) (input : string) :
  flowStage (ui w) = rating ->
  Js.truthy (Js.trim input) = true ->
  step w (UserInput env input) =
    (ratingReply (ui w) (received w input) env input,
     ratingLog (ui w) (received w input) env input).
Proof.
  intros Hstage Hin.
  unfold step, handleSendMessage. rewrite Hin, Hstage. cbn [negb].
  unfold ratingReply, ratingLog, received.
  rewrite (surjective_pairing (run _ w)).
  change (fst (run ?m w)) with (worldAfter m w).
  change (snd (run ?m w)) with (logOf m w).
  rewrite worldAfter_seq, logOf_seq, addMessageAndSave_log. reflexivity.
Qed.

Lemma blank_input_dropped (w : World) (env : Env) (input : string) :
  Js.truthy (Js.trim input) = false ->
  step w (UserInput env input) = (w, []).
Proof.
  intros Hin. unfold step, handleSendMessage. rewrite Hin. reflexivity.
Qed.

(** C9 — In the rating stage with no feedback pending, an input that does
    not parse to an integer from 1 to 5 gets the validation message and
    nothing else: nothing is logged (no rating is submitted, no timer is
    set), the stage stays [rating], and the feedback sub-state, the
    awaiting-rating flag and the session table are as before. *)
Theorem invalid_rating_reprompts (c : ChatState) (w : World) (env : Env) (input : string) :
  flowStage (ui w) = rating ->
  ratingFeedback c <> "awaiting" ->
  validRating (Js.parseInt (Js.trim input)) = false ->
  ratingLog c w env input = [] /\
  messages (ui (ratingReply c w env input)) =
    messages (ui w) ++ [aiMessage invalidRatingText] /\
  flowStage (ui (ratingReply c w env input)) = rating /\
  ratingFeedback (ui (ratingReply c w env input)) = ratingFeedback (ui w) /\
  awaitingRating (ui (ratingReply c w env input)) = awaitingRating (ui w) /\
  user_sessions (db (ratingReply c w env input)) = user_sessions (db w).
Proof.
  intros Hstage Hfb Hv.
  unfold ratingLog, ratingReply, logOf, worldAfter.
  rewrite (rating_rejected_run c w env input Hv).
  destruct (String.eqb_spec (ratingFeedback c) "awaiting") as [E|_];
    [contradiction|].
  destruct (Js.truthy (currentSessionId c)) eqn:Hs,
           (currentUser c) eqn:Hu;
    async_unfold; rewrite ?Hs, ?Hu; async_unfold; auto 10.
Qed.

Lemma invalid_rating_reprompts_witness :
  ratingLog (ratingState "") (received (ratingWorld "") "7") quietEnv "7" = [] /\
  messages (ui (ratingReply (ratingState "") (received (ratingWorld "") "7") quietEnv "7")) =
    [userMessage "7"; aiMessage invalidRatingText] /\
  flowStage (ui (ratingReply (ratingState "") (received (ratingWorld "") "7") quietEnv "7"))
    = rating /\
  ratingFeedback (ui (ratingReply (ratingState "") (received (ratingWorld "") "7") quietEnv "7"))
    = "".
Proof.
  destruct (invalid_rating_reprompts (ratingState "") (received (ratingWorld "") "7")
              quietEnv "7") as (H1 & H2 & H3 & H4 & _);
    [reflexivity | discriminate | reflexivity | auto].
Defined.

(** The same event seen from [handleSendMessage]: the user's text and the
    validation message are appended to the chat, nothing is logged. *)
Example seven_at_rating_stage :
  step (ratingWorld "") (UserInput quietEnv "7") =
  ({| ui := {| messages := [ userMessage "7"; aiMessage invalidRatingText ];
               currentUser := Some sampleUser; currentSessionId := "s1";
               viewMode := chat; flowStage := rating;
               currentQuestionIndex := 5%nat; businessProfile := ∅;
               documentList := []; awaitingRating := true;
               ratingFeedback := "" |};
      db := {| user_sessions := user_sessions sampleBackend;
               chat_messages :=
                 [ {| cr_session_id := "s1"; cr_user_id := "u1";
                      cr_message_type := user; cr_content := "7" |};
                   {| cr_session_id := "s1"; cr_user_id := "u1";
                      cr_message_type := ai; cr_content := invalidRatingText |} ];
               business_profiles := [] |} |}, []).
Proof. reflexivity. Qed.

(** The feedback branch: the sub-state is cleared, the thank-you message is
    appended, and at most a mentor timer is logged. *)
Lemma feedback_branch_run (c : ChatState) (w : World) (env : Env) (input : string) :
  ratingFeedback c = "awaiting" ->
  validRating (Js.parseInt (Js.trim input)) = false ->
  ratingFeedback (ui (ratingReply c w env input)) = "" /\
  messages (ui (ratingReply c w env input)) =
    messages (ui w) ++ [aiMessage feedbackThanksText] /\
  flowStage (ui (ratingReply c w env input)) = flowStage (ui w) /\
  user_sessions (db (ratingReply c w env input)) = user_sessions (db w) /\
  ratingLog c w env input =
    let mentorCards := mentorCardsOf (List.map (getMentorForService env) serviceTypes) in
    if (0 <? length mentorCards)%nat
    then [SetTimeout (MentorMessage (currentSessionId c) (currentUser c) mentorCards) 1500]
    else [].
Proof.
  intros Hfb Hv.
  unfold ratingLog, ratingReply, logOf, worldAfter.
  rewrite (rating_rejected_run c w env input Hv), Hfb.
  cbn [String.eqb Ascii.eqb Bool.eqb].
  cbv zeta.
  destruct (Js.truthy (currentSessionId c)) eqn:Hs,
           (currentUser c) eqn:Hu,
           (0 <? length (mentorCardsOf (List.map (getMentorForService env) serviceTypes)))%nat;
    async_unfold; rewrite ?Hs, ?Hu; async_unfold; auto 10.
Qed.

(** C3 — With feedback pending, an input that does not parse to an integer
    from 1 to 5 (an out-of-range number such as 7 included) is taken as the
    feedback: the sub-state is cleared, the reply is the feedback thank-you
    and not the validation message, no rating is submitted, and the stage
    stays [rating]. *)
Theorem pending_feedback_takes_invalid_rating (c : ChatState) (w : World) (env : Env)
    (input : string) :
  flowStage (ui w) = rating ->
  ratingFeedback c = "awaiting" ->
  validRating (Js.parseInt (Js.trim input)) = false ->
  ratingFeedback (ui (ratingReply c w env input)) = "" /\
  messages (ui (ratingReply c w env input)) =
    messages (ui w) ++ [aiMessage feedbackThanksText] /\
  submittedRatings (ratingLog c w env input) = [] /\
  flowStage (ui (ratingReply c w env input)) = rating.
Proof.
  intros Hstage Hfb Hv.
  destruct (feedback_branch_run c w env input Hfb Hv) as (H1 & H2 & H3 & _ & H5).
  repeat split; auto.
  - rewrite H5. cbv zeta.
    destruct (0 <? length _)%nat; reflexivity.
  - congruence.
Qed.

Lemma pending_feedback_takes_invalid_rating_witness :
  ratingFeedback (ui (ratingReply (ratingState "awaiting")
                        (received (ratingWorld "awaiting") "7") quietEnv "7")) = "" /\
  messages (ui (ratingReply (ratingState "awaiting")
                  (received (ratingWorld "awaiting") "7") quietEnv "7")) =
    [userMessage "7"; aiMessage feedbackThanksText] /\
  submittedRatings (ratingLog (ratingState "awaiting")
                      (received (ratingWorld "awaiting") "7") quietEnv "7") = [].
Proof.
  destruct (pending_feedback_takes_invalid_rating (ratingState "awaiting")
              (received (ratingWorld "awaiting") "7") quietEnv "7")
    as (H1 & H2 & H3 & _); [reflexivity | reflexivity | reflexivity | auto].
Defined.

(** The order of the two tests: the sub-state is looked at only when the
    parsed number is not a rating. *)
Example three_then_words :
  ratingFeedback (ui (fst (steps (ratingWorld "")
     [UserInput quietEnv "3";
      TimerFires quietEnv (FeedbackRequest "s1" (Some sampleUser))]))) = "awaiting" /\
  ratingFeedback (ui (fst (steps (ratingWorld "")
     [UserInput quietEnv "3";
      TimerFires quietEnv (FeedbackRequest "s1" (Some sampleUser));
      UserInput quietEnv "the wait was long"]))) = "" /\
  snd (steps (ratingWorld "")
     [UserInput quietEnv "3";
      TimerFires quietEnv (FeedbackRequest "s1" (Some sampleUser));
      UserInput quietEnv "the wait was long"]) =
    [SubmitRating (ratingOf (ratingState "") 3);
     SetTimeout (FeedbackRequest "s1" (Some sampleUser)) 1000].
Proof. repeat split; reflexivity. Qed.

(** *** Parsing of the rating *)

Lemma trimEnd_cons_kept (c : ascii) (rest : string) :
  Js.isWhiteSpace c = false ->
  Js.trimEnd (String c rest) = String c (Js.trimEnd rest).
Proof.
  intros Hc. cbn [Js.trimEnd]. destruct (Js.trimEnd rest); [rewrite Hc|]; reflexivity.
Qed.

(** What is left of a string after [trimEnd] starts as the string did. *)
Lemma trimEnd_head (s : string) (c : ascii) (kept : string) :
  Js.trimEnd s = String c kept -> exists rest, s = String c rest.
Proof.
  destruct s as [|a rest]; [discriminate|].
  cbn [Js.trimEnd]. destruct (Js.trimEnd rest).
  - destruct (Js.isWhiteSpace a); [discriminate|]. intros [= ->]. eauto.
  - intros [= -> _]. eauto.
Qed.

Lemma parseDigits_stop (acc : option Z) (s : string) :
  noLeadingDigit s -> Js.parseDigits 10 acc s = acc.
Proof. destruct s as [|c rest]; cbn; [reflexivity|]. intros ->. reflexivity. Qed.

Lemma parseDigits_cons (radix : Z) (acc : option Z) (c : ascii) (s : string) :
  Js.parseDigits radix acc (String c s) =
  match Js.radixDigit radix c with
  | Some d => Js.parseDigits radix (Some (default 0 acc * radix + d)) s
  | None => acc
  end.
Proof. reflexivity. Qed.

Lemma noLeadingDigit_trimEnd (s : string) :
  noLeadingDigit s -> noLeadingDigit (Js.trimEnd s).
Proof.
  intros H. destruct (Js.trimEnd s) as [|c kept] eqn:E; [exact I|].
  destruct (trimEnd_head _ _ _ E) as [rest ->]. exact H.
Qed.

(** A digit from 1 to 5 followed by anything but a digit is a rating,
    whatever the text after it. *)
Lemma leading_digit_is_rating (d : ascii) (rest : string) :
  (49 <= N_of_ascii d <= 53)%N ->
  noLeadingDigit rest ->
  Js.parseInt (Js.trim (String d rest)) = Some (Z.of_N (N_of_ascii d) - 48).
Proof.
  intros Hd Hrest.
  assert (Hws : Js.isWhiteSpace d = false).
  { unfold Js.isWhiteSpace. cbv zeta.
    repeat (apply orb_false_iff; split); apply N.eqb_neq; lia. }
  unfold Js.trim. cbn [Js.trimStart]. rewrite Hws.
  rewrite (trimEnd_cons_kept d rest Hws).
  apply noLeadingDigit_trimEnd in Hrest.
  set (tail := Js.trimEnd rest) in *.
  assert (Hn : N_of_ascii d = 49%N \/ N_of_ascii d = 50%N \/ N_of_ascii d = 51%N \/
               N_of_ascii d = 52%N \/ N_of_ascii d = 53%N) by lia.
  rewrite <- (ascii_N_embedding d).
  destruct Hn as [-> | [-> | [-> | [-> | ->]]]];
    clearbody tail; cbv -[Js.parseDigits]; rewrite parseDigits_cons;
    cbv -[Js.parseDigits]; rewrite parseDigits_stop by exact Hrest; reflexivity.
Qed.

Lemma rating_rejected_no_submission (c : ChatState) (w : World) (env : Env)
    (input : string) :
  validRating (Js.parseInt (Js.trim input)) = false ->
  submittedRatings (ratingLog c w env input) = [].
Proof.
  intros Hv. unfold ratingLog, logOf.
  rewrite (rating_rejected_run c w env input Hv).
  destruct (String.eqb (ratingFeedback c) "awaiting");
    destruct (Js.truthy (currentSessionId c)) eqn:Hs,
             (currentUser c) eqn:Hu;
    cbv zeta;
    try destruct (0 <? length (mentorCardsOf (List.map (getMentorForService env) serviceTypes)))%nat;
    async_unfold; rewrite ?Hs, ?Hu; async_unfold; reflexivity.
Qed.

Lemma rating_accepted_submission (c : ChatState) (w : World) (env : Env)
    (input : string) (n : Z) :
  Js.parseInt (Js.trim input) = Some n -> 1 <= n <= 5 ->
  submittedRatings (ratingLog c w env input) = [n].
Proof.
  intros Hp Hn.
  destruct (rating_accepted_run c w env input n Hp Hn) as (Hlog & _).
  unfold ratingLog. rewrite Hlog.
  unfold ratingBranch; destruct (n <=? 3); reflexivity.
Qed.

Lemma trimStart_lead (lead s : string) :
  allWhiteSpace lead = true -> Js.trimStart (lead +:+ s) = Js.trimStart s.
Proof.
  induction lead as [|a lead IH]; [reflexivity|].
  cbn [allWhiteSpace]. intros H. apply andb_true_iff in H as [Ha Hlead].
  change (String a lead +:+ s) with (String a (lead +:+ s)).
  cbn [Js.trimStart]. rewrite Ha. exact (IH Hlead).
Qed.

(** C10 — Rating parsing is lenient.  An input made of white space, a digit
    from 1 to 5 and any text that does not go on with a digit (such as
    [3 stars, it was bad]) is read by [parseInt] as that digit; it is
    taken as a rating whatever the feedback sub-state of the closure, also
    when feedback is pending: the rating is submitted, the reply is the
    rating thank-you, the timer of its branch is set and the sub-state is
    left as it was.  For every input, a rating is submitted exactly when
    [parseInt] of the trimmed text lies between 1 and 5, so only the other
    inputs reach the feedback branch or the validation error. *)
Theorem lenient_rating_parse (c : ChatState) (w : World) (env : Env)
    (lead : string) (d : ascii) (rest : string) :
  allWhiteSpace lead = true ->
  (49 <= N_of_ascii d <= 53)%N ->
  noLeadingDigit rest ->
  Js.parseInt (Js.trim (lead +:+ String d rest)) = Some (Z.of_N (N_of_ascii d) - 48) /\
  ratingLog c w env (lead +:+ String d rest) =
    [SubmitRating (ratingOf c (Z.of_N (N_of_ascii d) - 48));
     ratingBranch c (Z.of_N (N_of_ascii d) - 48)] /\
  messages (ui (ratingReply c w env (lead +:+ String d rest))) =
    messages (ui w) ++ [aiMessage (thankYouText (Z.of_N (N_of_ascii d) - 48))] /\
  ratingFeedback (ui (ratingReply c w env (lead +:+ String d rest))) =
    ratingFeedback (ui w) /\
  (forall input : string,
     submittedRatings (ratingLog c w env input) <> [] <->
     validRating (Js.parseInt (Js.trim input)) = true) /\
  (forall (input : string) (n : Z),
     Js.parseInt (Js.trim input) = Some n -> 1 <= n <= 5 ->
     ratingLog c w env input = [SubmitRating (ratingOf c n); ratingBranch c n] /\
     messages (ui (ratingReply c w env input)) =
       messages (ui w) ++ [aiMessage (thankYouText n)] /\
     ratingFeedback (ui (ratingReply c w env input)) = ratingFeedback (ui w)).
Proof.
  intros Hlead Hd Hrest.
  assert (Hall : forall (input : string) (n : Z),
            Js.parseInt (Js.trim input) = Some n -> 1 <= n <= 5 ->
            ratingLog c w env input = [SubmitRating (ratingOf c n); ratingBranch c n] /\
            messages (ui (ratingReply c w env input)) =
              messages (ui w) ++ [aiMessage (thankYouText n)] /\
            ratingFeedback (ui (ratingReply c w env input)) = ratingFeedback (ui w)).
  { intros input n Hp Hn.
    destruct (rating_accepted_run c w env input n Hp Hn) as (Hlog & Hui & _).
    unfold ratingLog, ratingReply. rewrite Hlog, Hui. auto. }
  assert (Hparse : Js.parseInt (Js.trim (lead +:+ String d rest)) =
                   Some (Z.of_N (N_of_ascii d) - 48)).
  { unfold Js.trim. rewrite (trimStart_lead lead _ Hlead).
    exact (leading_digit_is_rating d rest Hd Hrest). }
  assert (Hrange : 1 <= Z.of_N (N_of_ascii d) - 48 <= 5) by lia.
  destruct (Hall _ _ Hparse Hrange) as (Hlog & Hmsg & Hfb).
  split; [exact Hparse|]. split; [exact Hlog|]. split; [exact Hmsg|].
  split; [exact Hfb|]. split; [|exact Hall].
  intros input. split.
  - intros Hsub. destruct (validRating _) eqn:Hv; [reflexivity|].
    exfalso. apply Hsub. exact (rating_rejected_no_submission c w env input Hv).
  - intros Hv. apply validRating_range in Hv as (n & Hp & Hn).
    rewrite (rating_accepted_submission c w env input n Hp Hn). discriminate.
Qed.

Lemma lenient_rating_parse_witness :
  Js.parseInt (Js.trim " 3 stars, it was bad") = Some 3 /\
  ratingLog (ratingState "awaiting") (ratingWorld "awaiting") quietEnv
            " 3 stars, it was bad" =
    [SubmitRating (ratingOf (ratingState "awaiting") 3);
     SetTimeout (FeedbackRequest "s1" (Some sampleUser)) 1000] /\
  ratingFeedback (ui (ratingReply (ratingState "awaiting") (ratingWorld "awaiting")
                                  quietEnv " 3 stars, it was bad")) = "awaiting".
Proof.
  destruct (lenient_rating_parse (ratingState "awaiting") (ratingWorld "awaiting")
              quietEnv " " "3" " stars, it was bad")
    as (Hparse & Hlog & _ & Hfb & _).
  - reflexivity.
  - cbn. lia.
  - reflexivity.
  - split; [exact Hparse|]. split; [exact Hlog | exact Hfb].
Defined.

(** A rating followed by words, sent while feedback is pending, is a rating:
    it is submitted and the sub-state stays set. *)
Example stars_while_feedback_pending :
  snd (step (ratingWorld "awaiting") (UserInput quietEnv "3 stars, it was bad")) =
    [SubmitRating (ratingOf (ratingState "awaiting") 3);
     SetTimeout (FeedbackRequest "s1" (Some sampleUser)) 1000] /\
  ratingFeedback (ui (fst (step (ratingWorld "awaiting")
                             (UserInput quietEnv "3 stars, it was bad")))) = "awaiting".
Proof. split; reflexivity. Qed.

Example hex_and_sign_are_ratings :
  submittedRatings (snd (step (ratingWorld "") (UserInput quietEnv "0x4"))) = [4] /\
  submittedRatings (snd (step (ratingWorld "") (UserInput quietEnv " +2.9"))) = [2] /\
  submittedRatings (snd (step (ratingWorld "") (UserInput quietEnv "five"))) = [].
Proof. repeat split; reflexivity. Qed.

(** *** What the two timers of an accepted rating do *)

Lemma feedback_timer_run (env : Env) (sid : string) (usr : option User) (w : World) :
  ratingFeedback (ui (worldAfter (runTimer env (FeedbackRequest sid usr)) w)) = "awaiting" /\
  user_sessions (db (worldAfter (runTimer env (FeedbackRequest sid usr)) w)) =
    user_sessions (db w) /\
  logOf (runTimer env (FeedbackRequest sid usr)) w = [].
Proof.
  unfold runTimer.
  destruct (Js.truthy sid) eqn:Hs, usr; async_unfold; rewrite ?Hs; auto.
Qed.

Lemma completing_timer_status (env : Env) (sid : string) (usr : option User)
    (m : Message) (w : World) :
  Js.truthy sid = true ->
  statusOf (worldAfter
              (addMessageAndSave sid usr m ;;
               if Js.truthy sid
               then updateSessionStatus (isoNow env) sid completed ;; mret tt
               else mret tt) w) sid
  = (fun _ => completed) <$> statusOf w sid.
Proof.
  intros Hs. unfold statusOf. rewrite Hs.
  destruct usr; async_unfold; rewrite ?Hs; async_unfold;
    rewrite lookup_alter_eq; destruct (user_sessions (db w) !! sid); reflexivity.
Qed.

Lemma closing_timer_run (env : Env) (sid : string) (usr : option User) (w : World) :
  ratingFeedback (ui (worldAfter (runTimer env (ClosingMessage sid usr)) w)) =
    ratingFeedback (ui w) /\
  (Js.truthy sid = true ->
   statusOf (worldAfter (runTimer env (ClosingMessage sid usr)) w) sid =
     (fun _ => completed) <$> statusOf w sid).
Proof.
  split.
  - unfold runTimer.
    destruct (Js.truthy sid) eqn:Hs, usr; async_unfold; rewrite ?Hs; reflexivity.
  - apply completing_timer_status.
Qed.

Lemma mentor_timer_run (env : Env) (sid : string) (usr : option User)
    (cards : list MentorCard) (w : World) :
  Js.truthy sid = true ->
  statusOf (worldAfter (runTimer env (MentorMessage sid usr cards)) w) sid =
    (fun _ => completed) <$> statusOf w sid.
Proof. apply completing_timer_status. Qed.

(** C1, as the code has it — An input accepted as a rating from 1 to 5 is
    submitted once and takes exactly one of two branches: up to 3 the
    feedback request is scheduled, whose callback sets the feedback
    sub-state and leaves the session as it is; from 4 on the closing message
    is scheduled, whose callback marks the session completed.  The stage
    stays [rating] and nothing in the state keeps a later input from being
    accepted: it is submitted as a rating again. *)
Theorem accepted_rating_takes_one_branch (c : ChatState) (w : World) (env : Env)
    (input : string) (n : Z) :
  flowStage (ui w) = rating ->
  Js.parseInt (Js.trim input) = Some n -> 1 <= n <= 5 ->
  submittedRatings (ratingLog c w env input) = [n] /\
  flowStage (ui (ratingReply c w env input)) = rating /\
  ((n <= 3 /\
    scheduled (ratingLog c w env input) =
      [FeedbackRequest (currentSessionId c) (currentUser c)] /\
    forall env' w',
      ratingFeedback (ui (worldAfter (runTimer env'
         (FeedbackRequest (currentSessionId c) (currentUser c))) w')) = "awaiting" /\
      user_sessions (db (worldAfter (runTimer env'
         (FeedbackRequest (currentSessionId c) (currentUser c))) w')) =
        user_sessions (db w'))
   \/
   (4 <= n /\
    scheduled (ratingLog c w env input) =
      [ClosingMessage (currentSessionId c) (currentUser c)] /\
    forall env' w',
      ratingFeedback (ui (worldAfter (runTimer env'
         (ClosingMessage (currentSessionId c) (currentUser c))) w')) =
        ratingFeedback (ui w') /\
      (Js.truthy (currentSessionId c) = true ->
       statusOf (worldAfter (runTimer env'
         (ClosingMessage (currentSessionId c) (currentUser c))) w')
         (currentSessionId c) =
       (fun _ => completed) <$> statusOf w' (currentSessionId c)))) /\
  (forall c2 env2 input2 n2,
     Js.parseInt (Js.trim input2) = Some n2 -> 1 <= n2 <= 5 ->
     submittedRatings (ratingLog c2 (ratingReply c w env input) env2 input2) = [n2]).
Proof.
  intros Hstage Hp Hn.
  split; [exact (rating_accepted_submission c w env input n Hp Hn)|].
  destruct (rating_accepted_run c w env input n Hp Hn) as (Hlog & Hui & _).
  unfold ratingReply at 1. unfold ratingLog at 1 2. rewrite Hlog, Hui.
  split; [async_unfold; exact Hstage|].
  split; [|intros c2 env2 input2 n2; apply rating_accepted_submission].
  unfold ratingBranch. destruct (Z.leb_spec n 3) as [Hle|Hgt].
  - left. split; [exact Hle|]. split; [reflexivity|].
    intros env' w'.
    destruct (feedback_timer_run env' (currentSessionId c) (currentUser c) w')
      as (H1 & H2 & _). auto.
  - right. split; [lia|]. split; [reflexivity|].
    intros env' w'. apply closing_timer_run.
Qed.

Lemma accepted_rating_takes_one_branch_witness :
  submittedRatings (ratingLog (ratingState "") (received (ratingWorld "") "5") quietEnv "5")
    = [5] /\
  flowStage (ui (ratingReply (ratingState "") (received (ratingWorld "") "5") quietEnv "5"))
    = rating /\
  scheduled (ratingLog (ratingState "") (received (ratingWorld "") "5") quietEnv "5") =
    [ClosingMessage "s1" (Some sampleUser)].
Proof.
  destruct (accepted_rating_takes_one_branch (ratingState "")
              (received (ratingWorld "") "5") quietEnv "5" 5)
    as (H1 & H2 & [(Hle & _) | (_ & H3 & _)] & _);
    [reflexivity | reflexivity | lia | exfalso; lia | auto].
Defined.

(** C1, as the specification has it, fails: a 3 has been accepted, and the
    next input, a 5, is submitted as a rating again. *)
Lemma rating_submitted_twice : ~ ratingImmutable.
Proof.
  intros H.
  specialize (H (ratingWorld "") quietEnv quietEnv "3" "5" eq_refl eq_refl).
  vm_compute in H. discriminate H.
Qed.

(** The same with the feedback request shown in between. *)
Example three_then_five :
  snd (steps (ratingWorld "")
         [UserInput quietEnv "3";
          TimerFires quietEnv (FeedbackRequest "s1" (Some sampleUser));
          UserInput quietEnv "5"]) =
  [SubmitRating (ratingOf (ratingState "") 3);
   SetTimeout (FeedbackRequest "s1" (Some sampleUser)) 1000;
   SubmitRating (ratingOf (ratingState "") 5);
   SetTimeout (ClosingMessage "s1" (Some sampleUser)) 1500].
Proof. reflexivity. Qed.

(** ** Mentor referral *)

(** Null results are dropped, in order. *)
Lemma nonNull_spec (mentors : list (option Mentor)) (m : Mentor) :
  m ∈ nonNull mentors <-> Some m ∈ mentors.
Proof.
  unfold nonNull. rewrite list_elem_of_omap. split.
  - intros (o & Ho & Hid). cbn in Hid. subst o. exact Ho.
  - intros H. exists (Some m). split; [exact H | reflexivity].
Qed.

(** Every card carries the data of a mentor that some lookup returned, with
    the specializations joined by a comma and a space. *)
Lemma mentor_cards_data (lookup : string -> option Mentor) (card : MentorCard) :
  card ∈ mentorCardsOf (List.map lookup serviceTypes) ->
  exists t m, t ∈ serviceTypes /\ lookup t = Some m /\
    card_name card = mentor_name m /\ card_email card = mentor_email m /\
    card_expertise card = Js.join ", " (mentor_specialization m).
Proof.
  unfold mentorCardsOf. intros H.
  apply list_elem_of_lookup in H as [i Hi].
  rewrite list_lookup_imap in Hi.
  destruct (nonNull (List.map lookup serviceTypes) !! i) as [m|] eqn:Hm; [|discriminate].
  cbn in Hi. injection Hi as <-.
  assert (Hin : m ∈ nonNull (List.map lookup serviceTypes))
    by (apply list_elem_of_lookup; eauto).
  apply nonNull_spec in Hin.
  apply list_elem_of_In, in_map_iff in Hin as (t & Ht & Hin).
  exists t, m. repeat split; auto. apply list_elem_of_In. exact Hin.
Qed.

(** When all four lookups return a mentor, each card has the service of its
    own lookup. *)
Lemma mentor_cards_when_all_found (lookup : string -> option Mentor) :
  (forall t, t ∈ serviceTypes -> is_Some (lookup t)) ->
  mentorCardsOf (List.map lookup serviceTypes) = pairedCards lookup.
Proof.
  intros Hall. unfold mentorCardsOf, pairedCards, nonNull, serviceTypes in *.
  destruct (Hall "registration") as [m1 H1]; [set_solver|].
  destruct (Hall "branding") as [m2 H2]; [set_solver|].
  destruct (Hall "compliance") as [m3 H3]; [set_solver|].
  destruct (Hall "hr") as [m4 H4]; [set_solver|].
  cbn. rewrite H1, H2, H3, H4. reflexivity.
Qed.

(** C7 at a run where the registration lookup returns null and the three
    others a mentor: the null result is dropped and the specializations are
    joined, but the cards are labelled by their position among the mentors
    found, so the branding mentor is shown under Registration, the
    compliance mentor under Branding and the HR mentor under Compliance. *)
Theorem mentor_cards_shift_services :
  mentorCardsOf (List.map (getMentorForService mentorEnv) serviceTypes) =
    [ {| card_name := "branding"; card_email := "branding@example.org";
         card_phone := ""; card_expertise := "Law, Tax";
         card_service := "Registration" |};
      {| card_name := "compliance"; card_email := "compliance@example.org";
         card_phone := ""; card_expertise := "Law, Tax";
         card_service := "Branding" |};
      {| card_name := "hr"; card_email := "hr@example.org";
         card_phone := ""; card_expertise := "Law, Tax";
         card_service := "Compliance" |} ] /\
  mentorCardsOf (List.map (getMentorForService mentorEnv) serviceTypes) <>
    pairedCards (getMentorForService mentorEnv).
Proof. split; [reflexivity | discriminate]. Qed.

(** The cards the user is shown in that run. *)
Example mentor_message_in_run :
  snd (step (ratingWorld "awaiting") (UserInput mentorEnv "too slow")) =
  [SetTimeout
     (MentorMessage "s1" (Some sampleUser)
        (mentorCardsOf (List.map (getMentorForService mentorEnv) serviceTypes)))
     1500].
Proof. reflexivity. Qed.

(** ** Completion of the session after feedback *)

(** With at least one mentor found, the feedback branch schedules the mentor
    message, and its callback marks the session completed. *)
Lemma feedback_with_mentor_completes (c : ChatState) (w : World) (env env' : Env)
    (input : string) :
  ratingFeedback c = "awaiting" ->
  validRating (Js.parseInt (Js.trim input)) = false ->
  Js.truthy (currentSessionId c) = true ->
  (exists t, t ∈ serviceTypes /\ is_Some (getMentorForService env t)) ->
  exists callback,
    ratingLog c w env input = [SetTimeout callback 1500] /\
    statusOf (worldAfter (runTimer env' callback) (ratingReply c w env input))
             (currentSessionId c) =
    (fun _ => completed) <$> statusOf w (currentSessionId c).
Proof.
  intros Hfb Hv Hs (t & Ht & [m Hm]).
  destruct (feedback_branch_run c w env input Hfb Hv) as (_ & _ & _ & Hdb & Hlog).
  cbv zeta in Hlog.
  assert (Hlen : (0 <? length (mentorCardsOf (List.map (getMentorForService env) serviceTypes)))%nat = true).
  { apply Nat.ltb_lt. unfold mentorCardsOf. rewrite length_imap.
    assert (Hin : m ∈ nonNull (List.map (getMentorForService env) serviceTypes)).
    { apply nonNull_spec. apply list_elem_of_In, in_map_iff.
      exists t. split; [exact Hm | apply list_elem_of_In; exact Ht]. }
    destruct (nonNull _); [inversion Hin | cbn; lia]. }
  rewrite Hlen in Hlog.
  eexists. split; [exact Hlog|].
  rewrite mentor_timer_run by exact Hs.
  unfold statusOf. rewrite Hdb. reflexivity.
Qed.

(** Without any mentor, nothing is scheduled and the session table is left
    as it was. *)
Lemma feedback_without_mentor_run (c : ChatState) (w : World) (env : Env)
    (input : string) :
  ratingFeedback c = "awaiting" ->
  validRating (Js.parseInt (Js.trim input)) = false ->
  (forall t, getMentorForService env t = None) ->
  ratingLog c w env input = [] /\
  user_sessions (db (ratingReply c w env input)) = user_sessions (db w).
Proof.
  intros Hfb Hv Hnone.
  destruct (feedback_branch_run c w env input Hfb Hv) as (_ & _ & _ & Hdb & Hlog).
  split; [|exact Hdb].
  rewrite Hlog. unfold serviceTypes. cbn [List.map]. rewrite !Hnone. reflexivity.
Qed.

(** C8 at a run where no mentor is found: the text is taken as feedback
    (the sub-state is cleared and the thank-you is sent), no callback is
    scheduled, and the session is still active. *)
Theorem feedback_without_mentor_stays_active :
  ratingFeedback (ui (fst (step (ratingWorld "awaiting") (UserInput quietEnv "too slow")))) = "" /\
  messages (ui (fst (step (ratingWorld "awaiting") (UserInput quietEnv "too slow")))) =
    [userMessage "too slow"; aiMessage feedbackThanksText] /\
  snd (step (ratingWorld "awaiting") (UserInput quietEnv "too slow")) = [] /\
  statusOf (fst (step (ratingWorld "awaiting") (UserInput quietEnv "too slow"))) "s1"
    = Some active.
Proof. repeat split; reflexivity. Qed.

(** The sibling branch on the same session: after a 5 and its closing
    message the session is completed. *)
Example closing_completes_session :
  statusOf (fst (steps (ratingWorld "")
                   [UserInput quietEnv "5";
                    TimerFires quietEnv (ClosingMessage "s1" (Some sampleUser))])) "s1"
    = Some completed.
Proof. reflexivity. Qed.

(** And the feedback branch with a mentor found. *)
Example mentor_found_completes_session :
  statusOf (fst (steps (ratingWorld "awaiting")
     [UserInput mentorEnv "too slow";
      TimerFires mentorEnv
        (MentorMessage "s1" (Some sampleUser)
           (mentorCardsOf (List.map (getMentorForService mentorEnv) serviceTypes)))])) "s1"
    = Some completed.
Proof. reflexivity. Qed.

(** ** Document generation *)

Lemma DocumentType_eqb_eq (a b : DocumentType) : DocumentType_eqb a b = true <-> a = b.
Proof. destruct a, b; cbn; split; congruence. Qed.

Lemma truthy_length (s : string) : Js.truthy s = false -> String.length s = 0%nat.
Proof. destruct s; [reflexivity | discriminate]. Qed.

(** One request: the document of its type is rewritten by [settle], the
    others and the rest of the world are left alone, nothing is logged. *)
Lemma generateDocument_run (c : ChatState) (u : User) (o : FetchOutcome)
    (t : DocumentType) (w : World) :
  currentUser c = Some u ->
  run (generateDocument c o t) w = run (setDocuments (updateOfType t (settle o))) w.
Proof.
  intros Hu. unfold generateDocument, settle. rewrite Hu.
  destruct o as [|[|] [result|]]; try reflexivity.
  destruct (truthyField (res_error result) || truthyField (res_userMessage result));
    [reflexivity|].
  destruct (Js.truthy (contentOf result)) eqn:Ht; cbn [negb orb].
  - rewrite Nat.leb_antisym. destruct (String.length (contentOf result) <? 100)%nat;
      reflexivity.
  - rewrite (truthy_length _ Ht). reflexivity.
Qed.

(** Without a signed-in user every request fails before it is sent. *)
Lemma generateDocument_no_user (c : ChatState) (o : FetchOutcome)
    (t : DocumentType) (w : World) :
  currentUser c = None ->
  run (generateDocument c o t) w = run (markFailed t) w.
Proof. intros Hu. unfold generateDocument. rewrite Hu. reflexivity. Qed.

Lemma settle_type (o : FetchOutcome) (doc : Document) :
  doc_type (settle o doc) = doc_type doc.
Proof.
  unfold settle. destruct o as [|[|] [result|]]; try reflexivity.
  destruct (_ || _); [reflexivity|]. destruct (_ <=? _)%nat; reflexivity.
Qed.

Section Settling.
Variables (c : ChatState) (u : User) (outcomes : DocumentType -> FetchOutcome).
Hypothesis signedIn : currentUser c = Some u.

Lemma settleAll_run (order : list DocumentType) :
  NoDup order ->
  forall w : World,
    run (settleAll c outcomes order) w =
    run (setDocuments (List.map (settled outcomes order))) w.
Proof.
  induction order as [|t rest IH]; intros Hnd w.
  - unfold settled. cbn. async_unfold.
    rewrite map_id. destruct w as [[] ?]. reflexivity.
  - apply NoDup_cons in Hnd as [Hnotin Hnd].
    cbn [settleAll]. rewrite run_bind.
    pose proof (generateDocument_run c u (outcomes t) t w signedIn) as Hg.
    unfold run in Hg at 1.
    destruct (generateDocument c (outcomes t) t w) as [[[] w1] log1].
    rewrite (IH Hnd w1).
    revert Hg. async_unfold. intros [= -> ->].
    cbn [ui db documentList]. do 3 f_equal.
    unfold updateOfType. rewrite List.map_map.
    apply List.map_ext. intros doc. unfold settled, typeIn.
    cbn [existsb].
    destruct (DocumentType_eqb (doc_type doc) t) eqn:Ht.
    + apply DocumentType_eqb_eq in Ht.
      rewrite settle_type.
      assert (Hrest : existsb (DocumentType_eqb (doc_type doc)) rest = false).
      { apply not_true_is_false. intros Hex.
        apply existsb_exists in Hex as (t' & Hin & Heq).
        apply DocumentType_eqb_eq in Heq. subst.
        apply Hnotin. apply list_elem_of_In. exact Hin. }
      rewrite Hrest, Ht. reflexivity.
    + reflexivity.
Qed.

Lemma settleAll_world (order : list DocumentType) (w : World) :
  NoDup order ->
  worldAfter (settleAll c outcomes order) w =
  worldAfter (setDocuments (List.map (settled outcomes order))) w.
Proof. intros Hnd. unfold worldAfter. rewrite settleAll_run by exact Hnd. reflexivity. Qed.

Lemma settleAll_log (order : list DocumentType) (w : World) :
  NoDup order -> logOf (settleAll c outcomes order) w = [].
Proof. intros Hnd. unfold logOf. rewrite settleAll_run by exact Hnd. reflexivity. Qed.
End Settling.

Lemma settle_succeeds (o : FetchOutcome) (result : EdgeResult) (doc : Document) :
  succeeds o result ->
  settle o doc =
    withCompleted (default [] (res_keyPoints result)) (contentOf result)
                  (res_pdfUrl result) doc.
Proof.
  intros [r Herr Hlen]. unfold settle. unfold errorPayload in Herr. rewrite Herr.
  apply Nat.leb_le in Hlen. rewrite Hlen. reflexivity.
Qed.

Lemma settle_fails (o : FetchOutcome) (doc : Document) :
  fails o -> settle o doc = withFailed doc.
Proof.
  intros [ | | body | r Herr | r Hlen]; unfold settle; try reflexivity.
  - unfold errorPayload in Herr. rewrite Herr. reflexivity.
  - destruct (_ || _); [reflexivity|].
    apply Nat.leb_gt in Hlen. rewrite Hlen. reflexivity.
Qed.

(** Every outcome is a success or a failure, never both. *)
Lemma outcome_decided (o : FetchOutcome) :
  (exists result, succeeds o result) \/ fails o.
Proof.
  destruct o as [|[|] [r|]]; try solve [right; constructor].
  destruct (errorPayload r) eqn:Herr; [right; apply fails_error; exact Herr|].
  destruct (Nat.le_gt_cases 100 (String.length (contentOf r))) as [H|H].
  - left. exists r. constructor; assumption.
  - right. apply fails_short. exact H.
Qed.

Lemma succeeds_not_fails (o : FetchOutcome) (result : EdgeResult) :
  succeeds o result -> ~ fails o.
Proof.
  intros [r Herr Hlen] Hf. inversion Hf; subst; [congruence | lia].
Qed.

Lemma documentTypes_NoDup : NoDup documentTypes.
Proof. apply (bool_decide_unpack _). reflexivity. Qed.

(** ** Key points through the store *)

(** The loader hands an array column back entry by entry, in order. *)
Lemma loader_keeps_arrays (row : DbDocument) (items : list JsVal) :
  db_key_points row = VArr items ->
  doc_keyPoints (formatDocument row) = items.
Proof. intros H. unfold formatDocument. cbn. rewrite H. reflexivity. Qed.

(** The guide functions write the key points as the text of an array, a
    string; the loader, which keeps arrays only, turns it into no key point
    at all. *)
Lemma stored_text_loads_empty (id fullContent : string) (keyPoints : list string)
    (pdfUrl : option string) :
  db_key_points (storedGuideRow id fullContent keyPoints pdfUrl) =
    VStr (Json.stringify keyPoints) /\
  doc_keyPoints (formatDocument (storedGuideRow id fullContent keyPoints pdfUrl)) = [].
Proof. split; reflexivity. Qed.

Example extractKeyPoints_short : extractKeyPoints "Draft." = defaultKeyPoints.
Proof. reflexivity. Qed.

Example extractKeyPoints_payroll :
  extractKeyPoints payrollContent =
    ["Complete employment documentation templates";
     "Essential HR policies (leave, attendance, conduct)";
     "Payroll processing and statutory compliance";
     "Performance management framework";
     "HR technology and tools recommendations";
     "Core HR policy framework"].
Proof. reflexivity. Qed.

Lemma addFallback_nonempty (keyPoints : list string) (fallback : string) :
  keyPoints <> [] -> addFallback keyPoints fallback <> [].
Proof.
  intros Hne. unfold addFallback.
  destruct (6 <=? length keyPoints)%nat; [exact Hne|].
  destruct (negb _); [|exact Hne].
  destruct keyPoints; discriminate.
Qed.

Lemma fallbacks_nonempty (fallbacks keyPoints : list string) :
  keyPoints <> [] -> fold_left addFallback fallbacks keyPoints <> [].
Proof.
  revert keyPoints. induction fallbacks as [|f rest IH]; intros keyPoints Hne.
  - exact Hne.
  - cbn [fold_left]. apply IH, addFallback_nonempty, Hne.
Qed.

(** Every content has at least one key point. *)
Lemma extractKeyPoints_nonempty (content : string) : extractKeyPoints content <> [].
Proof.
  unfold extractKeyPoints.
  destruct (negb (Js.truthy content) || (String.length content <? 100)%nat);
    [discriminate|].
  cbv zeta. match goal with |- take 6 (fold_left _ _ ?kp) <> [] => generalize kp end.
  intros keyPoints.
  assert (Hne : fold_left addFallback fallbackPoints keyPoints <> []).
  { change (fold_left addFallback fallbackPoints keyPoints)
      with (fold_left addFallback (tail fallbackPoints)
              (addFallback keyPoints "Employment contract templates")).
    apply fallbacks_nonempty.
    unfold addFallback. destruct keyPoints as [|p rest]; [discriminate|].
    destruct (6 <=? _)%nat; [discriminate|]. destruct (negb _); discriminate. }
  destruct (fold_left addFallback fallbackPoints keyPoints); [congruence | discriminate].
Qed.

(** Whatever the content of the guide, the key points it was written with
    do not come back from the store. *)
Lemma reloaded_key_points_differ (id fullContent : string) (pdfUrl : option string) :
  doc_keyPoints (formatDocument (hrGuideRow id fullContent pdfUrl)) = [] /\
  doc_keyPoints (formatDocument (hrGuideRow id fullContent pdfUrl)) <>
    VStr <$> extractKeyPoints fullContent.
Proof.
  split; [reflexivity|].
  change (doc_keyPoints (formatDocument (hrGuideRow id fullContent pdfUrl))) with (@nil JsVal).
  pose proof (extractKeyPoints_nonempty fullContent) as Hne.
  destruct (extractKeyPoints fullContent); [congruence | discriminate].
Qed.

(** C6 at a guide with a short content: six key points are written, the
    column holds the text of the array, and the document loaded from the
    store, by the loader alone or at the end of [generateAllDocuments], has
    no key point. *)
Theorem key_points_lost_on_reload :
  extractKeyPoints "Draft." = defaultKeyPoints /\
  db_key_points shortGuideRow =
    VStr ("[" +:+ dq +:+ "Employment documentation templates" +:+ dq +:+ "," +:+
          dq +:+ "HR policies (leave, attendance, conduct)" +:+ dq +:+ "," +:+
          dq +:+ "Salary structure guidelines" +:+ dq +:+ "," +:+
          dq +:+ "Payroll and statutory compliance" +:+ dq +:+ "," +:+
          dq +:+ "Onboarding and performance management" +:+ dq +:+ "," +:+
          dq +:+ "HR technology recommendations" +:+ dq +:+ "]") /\
  doc_keyPoints (formatDocument shortGuideRow) = [] /\
  doc_keyPoints (formatDocument shortGuideRow) <> VStr <$> defaultKeyPoints /\
  List.map doc_keyPoints
    (documentList (ui (worldAfter (loadDocumentsFromDatabase generatingState
                                     (dbDocuments reloadEnv)) generatingWorld))) = [[]] /\
  List.map doc_keyPoints
    (documentList (ui (worldAfter (generateAllDocuments generatingState reloadEnv)
                                  generatingWorld))) = [[]].
Proof. repeat split; try reflexivity. discriminate. Qed.

(** The copy of the key points in the response body is an array, and
    [generateDocument] keeps it. *)
Example key_points_kept_in_memory :
  List.map doc_keyPoints
    (documentList (ui (worldAfter
       (generateDocument generatingState (FetchResolved true (Some goodBody)) hr)
       {| ui := (ui (worldAfter (setDocuments
                   (fun _ => [initialDocument "0" hr])) generatingWorld));
          db := sampleBackend |}))) = [VStr <$> defaultKeyPoints].
Proof. reflexivity. Qed.

(** ** Profile store *)

Lemma mergeProfile_lookup (existingProfile profile : gmap string JsVal) (key : string) :
  mergeProfile existingProfile profile !! key =
  mergedValue profile key (existingProfile !! key).
Proof.
  unfold mergeProfile, mergedValue.
  apply (map_fold_weak_ind
           (fun (merged : gmap string JsVal) (p : gmap string JsVal) =>
              merged !! key =
              match p !! key with
              | Some v' => if hasNewValue v' then Some v' else existingProfile !! key
              | None => existingProfile !! key
              end)).
  - rewrite lookup_empty. reflexivity.
  - intros i x m r Hfresh IH.
    destruct (decide (i = key)) as [->|Hne].
    + rewrite lookup_insert_eq. rewrite Hfresh in IH.
      destruct (hasNewValue x); [apply lookup_insert_eq | exact IH].
    + rewrite (lookup_insert_ne m i key x Hne).
      destruct (hasNewValue x); [rewrite lookup_insert_ne by exact Hne|]; exact IH.
Qed.

(** A merge never removes a field. *)
Lemma mergeProfile_keeps_keys (existingProfile profile : gmap string JsVal) :
  dom existingProfile ⊆ dom (mergeProfile existingProfile profile).
Proof.
  intros key Hk. apply elem_of_dom in Hk as [v Hv]. apply elem_of_dom.
  rewrite mergeProfile_lookup, Hv. unfold mergedValue.
  destruct (profile !! key) as [v'|]; [destruct (hasNewValue v')|]; eauto.
Qed.

Lemma sessionIs_lookup (sid : string) (row : gmap string JsVal) :
  row !! "session_id" = Some (VStr sid) -> sessionIs sid row = true.
Proof. intros H. unfold sessionIs. rewrite H. apply String.eqb_refl. Qed.

Lemma filter_updated_rows (sid : string) (F : gmap string JsVal -> gmap string JsVal)
    (rows : list (gmap string JsVal)) :
  (forall row, sessionIs sid row = true -> sessionIs sid (F row) = true) ->
  List.filter (sessionIs sid)
    (List.map (fun row => if sessionIs sid row then F row else row) rows) =
  List.map F (List.filter (sessionIs sid) rows).
Proof.
  intros HF. induction rows as [|row rows IH]; [reflexivity|].
  cbn [List.map List.filter].
  destruct (sessionIs sid row) eqn:Hrow.
  - rewrite (HF row Hrow). cbn [List.map]. rewrite IH. reflexivity.
  - rewrite Hrow. exact IH.
Qed.

Lemma jsonBody_lookup (o : gmap string JsVal) (key : string) :
  jsonBody o !! key =
  match o !! key with
  | Some v => if isDefined v then Some v else None
  | None => None
  end.
Proof.
  unfold jsonBody. destruct (o !! key) as [v|] eqn:Hv.
  - destruct (isDefined v) eqn:Hd.
    + apply map_lookup_filter_Some. split; [exact Hv | exact Hd].
    + apply map_lookup_filter_None. right. intros v' Hv'. cbn.
      rewrite Hv in Hv'. injection Hv' as <-. rewrite Hd. discriminate.
  - apply map_lookup_filter_None. left. exact Hv.
Qed.

Lemma hasNewValue_isDefined (v : JsVal) : hasNewValue v = true -> isDefined v = true.
Proof. destruct v; cbn; congruence. Qed.

(** An update of a session that has a stored profile: every field is kept,
    and it changes only where the update brings a new value. *)
Lemma update_existing_keeps_fields (c : ChatState) (u : User) (w : World)
    (profile row : gmap string JsVal) :
  currentUser c = Some u ->
  Js.truthy (currentSessionId c) = true ->
  storedProfile w (currentSessionId c) = Some row ->
  (forall key v, row !! key = Some v -> isDefined v = true) ->
  profile !! "session_id" = None ->
  exists stored,
    storedProfile (worldAfter (updateBusinessProfile c profile) w) (currentSessionId c)
      = Some stored /\
    forall key, stored !! key = mergedValue profile key (row !! key).
Proof.
  intros Hu Hs Hrow Hdef Hsession.
  unfold storedProfile in Hrow.
  destruct (List.filter (sessionIs (currentSessionId c)) (business_profiles (db w)))
    as [|row0 [|]] eqn:Hfound; try discriminate.
  injection Hrow as ->.
  assert (Hin : sessionIs (currentSessionId c) row = true).
  { assert (In row (List.filter (sessionIs (currentSessionId c)) (business_profiles (db w))))
      as Hmem by (rewrite Hfound; left; reflexivity).
    apply List.filter_In in Hmem as [_ H]. exact H. }
  assert (Hlookup : forall key,
            (jsonBody (mergeProfile row profile) ∪ row) !! key =
            mergedValue profile key (row !! key)).
  { intros key. rewrite lookup_union, jsonBody_lookup, mergeProfile_lookup.
    unfold mergedValue.
    destruct (profile !! key) as [v'|] eqn:Hp; [destruct (hasNewValue v') eqn:Hn|].
    - rewrite (hasNewValue_isDefined v' Hn). destruct (row !! key); reflexivity.
    - destruct (row !! key) as [v|] eqn:Hv; [|reflexivity].
      rewrite (Hdef key v Hv). reflexivity.
    - destruct (row !! key) as [v|] eqn:Hv; [|reflexivity].
      rewrite (Hdef key v Hv). reflexivity. }
  exists (jsonBody (mergeProfile row profile) ∪ row). split; [|exact Hlookup].
  unfold storedProfile, updateBusinessProfile. rewrite Hu, Hs.
  async_unfold. rewrite Hfound. cbn [maybeSingle]. async_unfold.
  rewrite filter_updated_rows.
  - rewrite Hfound. reflexivity.
  - intros row1 _. unfold sessionIs in *.
    rewrite lookup_union, jsonBody_lookup, mergeProfile_lookup.
    unfold mergedValue. rewrite Hsession.
    destruct (row !! "session_id") as [[]|]; try discriminate.
    cbn [isDefined]. rewrite union_Some_l. exact Hin.
Qed.

Section TwoUpdates.
Variables (c : ChatState) (u : User) (w : World).
Variables (first second : gmap string JsVal).
Hypothesis signedIn : currentUser c = Some u.
Hypothesis inSession : Js.truthy (currentSessionId c) = true.
Hypothesis noProfileYet :
  List.filter (sessionIs (currentSessionId c)) (business_profiles (db w)) = [].
Hypothesis firstKeepsSession : first !! "session_id" = None.
Hypothesis secondKeepsSession : second !! "session_id" = None.

Lemma insertedRow_session :
  sessionIs (currentSessionId c) (insertedRow u (currentSessionId c) first) = true.
Proof.
  apply sessionIs_lookup. unfold insertedRow.
  rewrite jsonBody_lookup, lookup_union_r by exact firstKeepsSession.
  rewrite lookup_insert_ne by discriminate. rewrite lookup_insert_eq. reflexivity.
Qed.

Lemma insertedRow_defined (key : string) (v : JsVal) :
  insertedRow u (currentSessionId c) first !! key = Some v -> isDefined v = true.
Proof.
  unfold insertedRow. rewrite jsonBody_lookup.
  destruct (_ !! key) as [v'|]; [|discriminate].
  destruct (isDefined v') eqn:Hd; [|discriminate]. intros [= <-]. exact Hd.
Qed.

Lemma insertedRow_first (key : string) (v : JsVal) :
  first !! key = Some v -> isDefined v = true ->
  insertedRow u (currentSessionId c) first !! key = Some v.
Proof.
  intros Hv Hd. unfold insertedRow.
  rewrite jsonBody_lookup, (lookup_union_Some_l _ _ _ _ Hv), Hd. reflexivity.
Qed.

Lemma first_update_inserts :
  storedProfile (worldAfter (updateBusinessProfile c first) w) (currentSessionId c)
    = Some (insertedRow u (currentSessionId c) first).
Proof.
  unfold storedProfile, updateBusinessProfile. rewrite signedIn, inSession.
  async_unfold. rewrite noProfileYet. cbn [maybeSingle]. async_unfold.
  rewrite List.filter_app, noProfileYet. cbn [List.filter app].
  rewrite insertedRow_session. reflexivity.
Qed.

Lemma second_update_merges :
  exists stored,
    storedProfile
      (worldAfter (updateBusinessProfile c first ;; updateBusinessProfile c second) w)
      (currentSessionId c) = Some stored /\
    forall key,
      stored !! key =
      mergedValue second key (insertedRow u (currentSessionId c) first !! key).
Proof.
  rewrite worldAfter_seq.
  apply (update_existing_keeps_fields c u _ second
           (insertedRow u (currentSessionId c) first) signedIn inSession
           first_update_inserts insertedRow_defined secondKeepsSession).
Qed.
End TwoUpdates.

(** C5 — Two partial updates of the profile of a session, one after the
    other: the stored profile has every field the first update set; a field
    keeps the value of the first update unless the second brings a value
    for it that is not undefined, null or the empty string, and every such
    value of the second update is stored. *)
Theorem sequential_updates_keep_fields (c : ChatState) (u : User) (w : World)
    (first second : gmap string JsVal) :
  currentUser c = Some u ->
  Js.truthy (currentSessionId c) = true ->
  List.filter (sessionIs (currentSessionId c)) (business_profiles (db w)) = [] ->
  first !! "session_id" = None ->
  second !! "session_id" = None ->
  exists stored,
    storedProfile
      (worldAfter (updateBusinessProfile c first ;; updateBusinessProfile c second) w)
      (currentSessionId c) = Some stored /\
    (forall key v, first !! key = Some v -> isDefined v = true ->
       key ∈ dom stored /\ stored !! key = mergedValue second key (Some v)) /\
    (forall key v, second !! key = Some v -> hasNewValue v = true ->
       stored !! key = Some v).
Proof.
  intros Hu Hs Hnone Hfirst Hsecond.
  destruct (second_update_merges c u w first second Hu Hs Hnone Hfirst Hsecond)
    as (stored & Hstored & Hlookup).
  exists stored. split; [exact Hstored|]. split.
  - intros key v Hv Hd.
    assert (Hkey : stored !! key = mergedValue second key (Some v)).
    { rewrite Hlookup, (insertedRow_first c u first key v Hv Hd). reflexivity. }
    split; [|exact Hkey].
    apply elem_of_dom. rewrite Hkey. unfold mergedValue.
    destruct (second !! key) as [v'|]; [destruct (hasNewValue v')|]; eauto.
  - intros key v Hv Hnew. rewrite Hlookup. unfold mergedValue.
    rewrite Hv, Hnew. reflexivity.
Qed.

Lemma sequential_updates_keep_fields_witness :
  exists stored,
    storedProfile
      (worldAfter (updateBusinessProfile generatingState {[ "a" := VStr "x" ]} ;;
                   updateBusinessProfile generatingState {[ "b" := VStr "y" ]})
                  generatingWorld) "s1" = Some stored /\
    stored !! "a" = Some (VStr "x") /\ stored !! "b" = Some (VStr "y").
Proof.
  destruct (sequential_updates_keep_fields generatingState sampleUser generatingWorld
              {[ "a" := VStr "x" ]} {[ "b" := VStr "y" ]})
    as (stored & Hstored & Hfirst & Hsecond); try reflexivity.
  exists stored. split; [exact Hstored|]. split.
  - apply (Hfirst "a" (VStr "x")); reflexivity.
  - apply (Hsecond "b" (VStr "y")); reflexivity.
Defined.

(** The row the store holds after the two updates of the witness. *)
Example a_then_b_stored :
  storedProfile
    (worldAfter (updateBusinessProfile generatingState {[ "a" := VStr "x" ]} ;;
                 updateBusinessProfile generatingState {[ "b" := VStr "y" ]})
                generatingWorld) "s1"
  = Some (<["a" := VStr "x"]> (<["b" := VStr "y"]>
            (<["user_id" := VStr "u1"]> (<["session_id" := VStr "s1"]> ∅)))).
Proof. reflexivity. Qed.

(** An empty answer in the second update leaves the stored value alone. *)
Example empty_value_does_not_overwrite :
  storedProfile
    (worldAfter (updateBusinessProfile generatingState {[ "a" := VStr "x" ]} ;;
                 updateBusinessProfile generatingState
                   (<["a" := VStr ""]> {[ "b" := VNull ]}))
                generatingWorld) "s1"
  = Some (<["a" := VStr "x"]>
            (<["user_id" := VStr "u1"]> (<["session_id" := VStr "s1"]> ∅))).
Proof. reflexivity. Qed.

(** ** Questioning stage *)

Lemma updateBusinessProfile_ui (c : ChatState) (profile : gmap string JsVal) (w : World) :
  ui (worldAfter (updateBusinessProfile c profile) w) = ui w /\
  logOf (updateBusinessProfile c profile) w = [].
Proof.
  unfold updateBusinessProfile.
  destruct (currentUser c), (Js.truthy (currentSessionId c)); try (split; reflexivity).
  async_unfold.
  destruct (maybeSingle _); split; reflexivity.
Qed.

(** Every request only rewrites the document list. *)
Lemma generateDocument_sets (c : ChatState) (o : FetchOutcome) (t : DocumentType) :
  exists f, forall w, run (generateDocument c o t) w = run (setDocuments f) w.
Proof.
  unfold generateDocument, markFailed.
  destruct (currentUser c); [|eauto].
  destruct o as [|[|] [result|]]; eauto.
  destruct (_ || _); [eauto|]. destruct (_ || _); eauto.
Qed.

Lemma settleAll_sets (c : ChatState) (outcomes : DocumentType -> FetchOutcome)
    (order : list DocumentType) :
  exists f, forall w, run (settleAll c outcomes order) w = run (setDocuments f) w.
Proof.
  induction order as [|t rest [g IH]].
  - exists (fun docs => docs). intros [[] ?]. reflexivity.
  - destruct (generateDocument_sets c (outcomes t) t) as [f Hf].
    exists (fun docs => g (f docs)). intros w.
    cbn [settleAll]. rewrite run_bind.
    specialize (Hf w). unfold run in Hf at 1.
    destruct (generateDocument c (outcomes t) t w) as [[[] w1] log1].
    rewrite IH. revert Hf. async_unfold. intros [= -> ->]. reflexivity.
Qed.

(** The reload and the effect only rewrite the document list. *)
Lemma loadDocumentsFromDatabase_sets (c : ChatState) (rows : option (list DbDocument)) :
  exists f, forall w, run (loadDocumentsFromDatabase c rows) w = run (setDocuments f) w.
Proof.
  unfold loadDocumentsFromDatabase.
  destruct (Js.truthy (currentSessionId c)), rows; eauto;
    exists (fun docs => docs); intros [[] ?]; reflexivity.
Qed.

Lemma effectReload_sets (c : ChatState) (rows : option (list DbDocument)) :
  exists f, forall w, run (effectReload c rows) w = run (setDocuments f) w.
Proof.
  unfold effectReload. destruct (effectFires c).
  - apply loadDocumentsFromDatabase_sets.
  - exists (fun docs => docs). intros [[] ?]. reflexivity.
Qed.

Lemma sets_world (m : Async unit) (f : list Document -> list Document) :
  (forall w, run m w = run (setDocuments f) w) ->
  (forall w, worldAfter m w = worldAfter (setDocuments f) w) /\
  (forall w, logOf m w = []).
Proof.
  intros H. split; intros w; unfold worldAfter, logOf; rewrite H; reflexivity.
Qed.

(** The requests and the reloads of [generateAllDocuments], from the
    dashboard on, only rewrite the document list. *)
Lemma settling_sets (c : ChatState) (env : Env) :
  exists f, forall w,
    run (match currentUser c with
         | Some _ =>
             settleAll c (fetchOutcome env) (take (effectLands env) (settleOrder env)) ;;
             effectReload c (effectDocuments env) ;;
             settleAll c (fetchOutcome env) (drop (effectLands env) (settleOrder env))
         | None => settleAll c (fetchOutcome env) (settleOrder env)
         end) w = run (setDocuments f) w.
Proof.
  destruct (currentUser c); [|apply settleAll_sets].
  destruct (settleAll_sets c (fetchOutcome env) (take (effectLands env) (settleOrder env)))
    as [f1 H1].
  destruct (effectReload_sets c (effectDocuments env)) as [f2 H2].
  destruct (settleAll_sets c (fetchOutcome env) (drop (effectLands env) (settleOrder env)))
    as [f3 H3].
  apply sets_world in H1 as [W1 L1]. apply sets_world in H2 as [W2 L2].
  apply sets_world in H3 as [W3 L3].
  exists (fun docs => f3 (f2 (f1 docs))). intros w.
  rewrite (surjective_pairing (run _ w)).
  change (fst (run ?m w)) with (worldAfter m w).
  change (snd (run ?m w)) with (logOf m w).
  rewrite !worldAfter_seq, !logOf_seq, W1, W2, W3, L1, L2, L3. reflexivity.
Qed.

Lemma late_reload_sets (c : ChatState) (env : Env) :
  exists f, forall w,
    run (match currentUser c with
         | Some _ => mret tt
         | None => effectReload c (dbDocuments env)
         end) w = run (setDocuments f) w.
Proof.
  destruct (currentUser c); [|apply effectReload_sets].
  exists (fun docs => docs). intros [[] ?]. reflexivity.
Qed.

(** What [generateAllDocuments] writes: the view, the stage and a document
    list; what it logs: the stage and the rating prompt. *)
Lemma generateAllDocuments_writes (c : ChatState) (env : Env) (w : World) :
  exists docs,
    worldAfter (generateAllDocuments c env) w =
      {| ui := {| messages := messages (ui w); currentUser := currentUser (ui w);
                  currentSessionId := currentSessionId (ui w);
                  viewMode := dashboard; flowStage := documents;
                  currentQuestionIndex := currentQuestionIndex (ui w);
                  businessProfile := businessProfile (ui w);
                  documentList := docs;
                  awaitingRating := awaitingRating (ui w);
                  ratingFeedback := ratingFeedback (ui w) |};
         db := db w |} /\
    logOf (generateAllDocuments c env) w =
      [SetFlowStage documents;
       SetTimeout (RatingPrompt (currentSessionId c) (currentUser c)) 3000].
Proof.
  destruct (settling_sets c env) as [f1 H1].
  destruct (loadDocumentsFromDatabase_sets c (dbDocuments env)) as [f2 H2].
  destruct (late_reload_sets c env) as [f3 H3].
  apply sets_world in H1 as [W1 L1]. apply sets_world in H2 as [W2 L2].
  apply sets_world in H3 as [W3 L3].
  unfold generateAllDocuments, dispatchDocuments.
  rewrite !worldAfter_seq, !logOf_seq, W1, W2, W3, L1, L2, L3.
  async_unfold. eauto.
Qed.

(** [generateAllDocuments] leaves stage progress other than the stage
    itself alone and logs the stage it sets and the rating prompt. *)
Lemma generateAllDocuments_run (c : ChatState) (env : Env) (w : World) :
  businessProfile (ui (worldAfter (generateAllDocuments c env) w)) = businessProfile (ui w) /\
  currentQuestionIndex (ui (worldAfter (generateAllDocuments c env) w)) =
    currentQuestionIndex (ui w) /\
  logOf (generateAllDocuments c env) w =
    [SetFlowStage documents;
     SetTimeout (RatingPrompt (currentSessionId c) (currentUser c)) 3000].
Proof.
  destruct (generateAllDocuments_writes c env w) as (docs & -> & ->). auto.
Qed.

(** ** Document generation and the reload of the dashboard *)

Lemma settleAll_app (c : ChatState) (outcomes : DocumentType -> FetchOutcome)
    (first rest : list DocumentType) (w : World) :
  worldAfter (settleAll c outcomes (first ++ rest)) w =
  worldAfter (settleAll c outcomes rest) (worldAfter (settleAll c outcomes first) w).
Proof.
  revert w. induction first as [|t first IH]; intros w; [reflexivity|].
  cbn [app settleAll]. rewrite !worldAfter_seq. apply IH.
Qed.

(** What one request does to a list that holds the document of its type:
    completed with what the response brought on a success, failed on every
    other outcome; the model of [generateDocument] is total, no fault gets
    past it. *)
Lemma generateDocument_contract (c : ChatState) (u : User) (o : FetchOutcome)
    (t : DocumentType) (w : World) :
  currentUser c = Some u ->
  (forall result, succeeds o result ->
     documentList (ui (worldAfter (generateDocument c o t) w)) =
     updateOfType t (withCompleted (default [] (res_keyPoints result))
                                   (contentOf result) (res_pdfUrl result))
                  (documentList (ui w))) /\
  (fails o ->
     documentList (ui (worldAfter (generateDocument c o t) w)) =
     updateOfType t withFailed (documentList (ui w))).
Proof.
  intros Hu. split.
  - intros result Hok. unfold worldAfter.
    rewrite (generateDocument_run c u o t w Hu). async_unfold.
    unfold updateOfType. apply List.map_ext. intros doc.
    rewrite (settle_succeeds o result doc Hok). reflexivity.
  - intros Hko. unfold worldAfter.
    rewrite (generateDocument_run c u o t w Hu). async_unfold.
    unfold updateOfType. apply List.map_ext. intros doc.
    rewrite (settle_fails o doc Hko). reflexivity.
Qed.

(** When the effect does not reload (no session id, or the dashboard was
    shown already), each of the four documents has, once all four requests
    have settled, the status of its own outcome, whatever the order. *)
Lemma fan_out_without_reload (c : ChatState) (u : User) (env : Env) (w : World) :
  currentUser c = Some u ->
  effectFires c = false ->
  Permutation (settleOrder env) documentTypes ->
  dispatched c env w =
    List.map (fun t => settle (fetchOutcome env t) (initialDocument (dateNow env) t))
             documentTypes.
Proof.
  intros Hu Hquiet Hperm.
  assert (Hnd : NoDup (settleOrder env)).
  { rewrite Hperm. exact documentTypes_NoDup. }
  assert (Hall : forall t, typeIn (settleOrder env) t = true).
  { intros t. unfold typeIn. apply existsb_exists. exists t. split.
    - apply list_elem_of_In. rewrite Hperm. unfold documentTypes.
      destruct t; repeat first [apply list_elem_of_here | apply list_elem_of_further].
    - apply DocumentType_eqb_eq. reflexivity. }
  unfold dispatched, dispatchDocuments, effectReload. rewrite Hu, Hquiet.
  rewrite !worldAfter_seq.
  change (worldAfter (mret tt) ?w0) with w0.
  rewrite <- settleAll_app, take_drop.
  rewrite (settleAll_world c u (fetchOutcome env) Hu (settleOrder env) _ Hnd).
  async_unfold.
  unfold documentTypes, settled. cbn [List.map initialDocument doc_type].
  rewrite !Hall. reflexivity.
Qed.

(** When the effect reloads, the list is replaced by the rows the store
    held; the requests that settle after that rewrite the documents of
    their types among those rows, the outcomes of the earlier ones are
    gone with the list they were written to. *)
Lemma fan_out_after_reload (c : ChatState) (u : User) (env : Env) (w : World)
    (rows : list DbDocument) :
  currentUser c = Some u ->
  effectFires c = true ->
  effectDocuments env = Some rows ->
  NoDup (settleOrder env) ->
  dispatched c env w =
    List.map (settled (fetchOutcome env) (drop (effectLands env) (settleOrder env)))
             (List.map formatDocument rows).
Proof.
  intros Hu Hfires Hrows Hnd.
  assert (Hs : Js.truthy (currentSessionId c) = true).
  { unfold effectFires in Hfires. apply andb_true_iff in Hfires as [H _]. exact H. }
  assert (Hnd1 : NoDup (take (effectLands env) (settleOrder env))).
  { eapply sublist_NoDup; [exact Hnd | apply sublist_take]. }
  assert (Hnd2 : NoDup (drop (effectLands env) (settleOrder env))).
  { eapply sublist_NoDup; [exact Hnd | apply sublist_drop]. }
  unfold dispatched, dispatchDocuments, effectReload, loadDocumentsFromDatabase.
  rewrite Hu, Hfires, Hs, Hrows. rewrite !worldAfter_seq.
  rewrite (settleAll_world c u (fetchOutcome env) Hu _ _ Hnd2).
  rewrite (settleAll_world c u (fetchOutcome env) Hu _ _ Hnd1).
  async_unfold. reflexivity.
Qed.

(** C2 at the run of the claim: a signed-in user in session s1, the chat
    view, the branding request returning an empty content and the three
    others a good one.  [setViewMode('dashboard')] makes the effect reload
    the documents; the store holds no row yet, the reload lands before the
    requests settle and replaces the four documents by none, and each
    request then maps its outcome over an empty list.  Once all four have
    settled no document is completed and none is failed, and with a store
    that cannot be read afterwards that is what [generateAllDocuments]
    ends with; the stage is [documents].  The same four outcomes without a
    session id, where the effect does not reload, give the three completed
    documents and the failed one of the claim. *)
Theorem statuses_lost_to_dashboard_reload :
  effectFires generatingState = true /\
  statuses (dispatched generatingState oneFlawedEnv generatingWorld) = [] /\
  statuses (dispatched generatingState oneFlawedEnv generatingWorld) <>
    [(registration, completed_); (branding, failed_);
     (compliance, completed_); (hr, completed_)] /\
  documentList (ui (worldAfter (generateAllDocuments generatingState oneFlawedEnv)
                               generatingWorld)) = [] /\
  flowStage (ui (worldAfter (generateAllDocuments generatingState oneFlawedEnv)
                            generatingWorld)) = documents /\
  statuses (dispatched (ui (sessionlessWorld generating)) oneFlawedEnv
                       (sessionlessWorld generating)) =
    [(registration, completed_); (branding, failed_);
     (compliance, completed_); (hr, completed_)].
Proof. repeat split; try reflexivity. discriminate. Qed.

(** The same run with the reload landing when two requests have settled
    and the store holding the row of an earlier HR guide: the row takes the
    place of the four documents, the HR request has settled already, and
    no later request is of its type. *)
Example reload_between_requests :
  statuses (dispatched generatingState
    {| newSessionId := Some "s1"; dateNow := "1700000000000";
       isoNow := "2023-11-14T22:13:20.000Z";
       fetchOutcome := fetchOutcome oneFlawedEnv;
       settleOrder := [hr; compliance; branding; registration];
       dbDocuments := None;
       effectDocuments := Some [shortGuideRow];
       effectLands := 2%nat;
       getMentorForService := fun _ => None |} generatingWorld) =
    [(hr, completed_)] /\
  List.map doc_fullContent (dispatched generatingState
    {| newSessionId := Some "s1"; dateNow := "1700000000000";
       isoNow := "2023-11-14T22:13:20.000Z";
       fetchOutcome := fetchOutcome oneFlawedEnv;
       settleOrder := [hr; compliance; branding; registration];
       dbDocuments := None;
       effectDocuments := Some [shortGuideRow];
       effectLands := 2%nat;
       getMentorForService := fun _ => None |} generatingWorld) = ["Draft."].
Proof. split; reflexivity. Qed.

Lemma steps_cons (w : World) (e : Event) (es : list Event) :
  steps w (e :: es) =
  (fst (steps (fst (step w e)) es), snd (step w e) ++ snd (steps (fst (step w e)) es)).
Proof.
  cbn [steps]. destruct (step w e) as [w1 log1]. cbn [fst snd].
  destruct (steps w1 es) as [w2 log2]. reflexivity.
Qed.

(** Choosing the confirmed-idea flow opens the questioning stage with an
    empty profile, whether or not the store could create the session. *)
Lemma choice_two_step (w : World) (env : Env) (input : string) :
  Js.trim input = "2" ->
  progress w = (initial, 0%nat, ∅) ->
  progress (fst (step w (UserInput env input))) = (questioning, 0%nat, ∅) /\
  snd (step w (UserInput env input)) = [SetFlowStage questioning].
Proof.
  unfold progress. intros Htrim [= Hstage Hidx Hprof].
  unfold step, handleSendMessage. rewrite Htrim, Hstage.
  change (negb (Js.truthy "2")) with false. cbv iota.
  unfold handleInitialChoice. rewrite Htrim.
  change ("2" =? "1")%string with false. change ("2" =? "2")%string with true.
  cbv iota. unfold createSession.
  destruct (newSessionId env) as [sid|], (Js.truthy (currentSessionId (ui w))) eqn:Hs,
           (currentUser (ui w)) eqn:Hu;
    try destruct (truthyField (Some sid)) eqn:Hsid;
    async_unfold; rewrite ?Hs, ?Hu; async_unfold; rewrite ?Hsid; async_unfold;
    rewrite ?Hidx, ?Hprof; split; reflexivity.
Qed.

Lemma async_unit (m : Async unit) (w : World) : m w = (tt, worldAfter m w, logOf m w).
Proof. unfold worldAfter, logOf, run. destruct (m w) as [[[] w1] log1]. reflexivity. Qed.

Lemma updateBusinessProfile_raw (c : ChatState) (profile : gmap string JsVal) (w : World) :
  exists b, updateBusinessProfile c profile w = (tt, {| ui := ui w; db := b |}, []).
Proof.
  destruct (updateBusinessProfile_ui c profile w) as [Hui Hlog].
  rewrite (async_unit (updateBusinessProfile c profile) w), Hlog.
  destruct (worldAfter (updateBusinessProfile c profile) w) as [s b].
  cbn in Hui. subst s. eauto.
Qed.

Lemma generateAllDocuments_raw (c : ChatState) (env : Env) (w : World) :
  exists w',
    generateAllDocuments c env w =
      (tt, w', [SetFlowStage documents;
                SetTimeout (RatingPrompt (currentSessionId c) (currentUser c)) 3000]) /\
    businessProfile (ui w') = businessProfile (ui w) /\
    currentQuestionIndex (ui w') = currentQuestionIndex (ui w).
Proof.
  destruct (generateAllDocuments_run c env w) as (Hp & Hi & Hlog).
  rewrite (async_unit (generateAllDocuments c env) w), Hlog. eauto.
Qed.

(** Any other input leaves the initial stage as it is. *)
Lemma initial_stage_idle (w : World) (env : Env) (input : string) (i : nat)
    (profile : gmap string JsVal) :
  progress w = (initial, i, profile) ->
  Js.trim input <> "2" ->
  progress (fst (step w (UserInput env input))) = (initial, i, profile) /\
  snd (step w (UserInput env input)) = [].
Proof.
  unfold progress. intros [= Hstage Hidx Hprof] Hne.
  unfold step, handleSendMessage.
  destruct (Js.truthy (Js.trim input)); cbn [negb];
    [|async_unfold; rewrite Hstage, Hidx, Hprof; split; reflexivity].
  rewrite Hstage. unfold handleInitialChoice.
  destruct (String.eqb_spec (Js.trim input) "2") as [E|_]; [contradiction|].
  destruct (String.eqb (Js.trim input) "1"),
           (Js.truthy (currentSessionId (ui w))) eqn:Hs, (currentUser (ui w)) eqn:Hu;
    async_unfold; rewrite ?Hs, ?Hu; async_unfold; rewrite Hstage, Hidx, Hprof;
    split; reflexivity.
Qed.

(** An answer to one of the first five questions is recorded and the next
    question is asked. *)
Lemma answer_step (w : World) (env : Env) (input : string) (i : nat)
    (profile : gmap string JsVal) (q : Question) :
  progress w = (questioning, i, profile) ->
  QUESTIONS !! i = Some q -> (i < 5)%nat ->
  Js.truthy (Js.trim input) = true ->
  progress (fst (step w (UserInput env input))) = (questioning, S i, recorded q input profile) /\
  snd (step w (UserInput env input)) = [].
Proof.
  unfold progress. intros [= Hstage Hidx Hprof] Hq Hlt Hin.
  unfold step, handleSendMessage. rewrite Hin, Hstage. cbn [negb].
  unfold handleQuestionResponse. rewrite Hidx, Hq, Hprof.
  assert (Hnext : (i <? length QUESTIONS - 1)%nat = true) by (apply Nat.ltb_lt; cbn; lia).
  rewrite Hnext. unfold recorded.
  destruct (Js.truthy (currentSessionId (ui w))) eqn:Hs, (currentUser (ui w)) eqn:Hu,
           (String.eqb (q_field q) "partners_info");
    async_unfold; rewrite ?Hs, ?Hu; async_unfold;
    match goal with
    | |- context [updateBusinessProfile ?c ?p ?w0] =>
        destruct (updateBusinessProfile_raw c p w0) as [b ->]
    end;
    async_unfold; rewrite ?Hs, ?Hu; async_unfold; rewrite Hstage, Nat.add_1_r;
    split; reflexivity.
Qed.

(** The answer to the last question is recorded, the stage is set to
    [generating] and document generation starts. *)
Lemma last_answer_step (w : World) (env : Env) (input : string)
    (profile : gmap string JsVal) (q : Question) :
  progress w = (questioning, 5%nat, profile) ->
  QUESTIONS !! 5%nat = Some q ->
  Js.truthy (Js.trim input) = true ->
  businessProfile (ui (fst (step w (UserInput env input)))) = recorded q input profile /\
  snd (step w (UserInput env input)) =
    [SetFlowStage generating; SetFlowStage documents;
     SetTimeout (RatingPrompt (currentSessionId (ui w)) (currentUser (ui w))) 3000].
Proof.
  unfold progress. intros [= Hstage Hidx Hprof] Hq Hin.
  unfold step, handleSendMessage. rewrite Hin, Hstage. cbn [negb].
  unfold handleQuestionResponse. rewrite Hidx, Hq, Hprof.
  change (5 <? length QUESTIONS - 1)%nat with false. unfold recorded.
  destruct (Js.truthy (currentSessionId (ui w))) eqn:Hs, (currentUser (ui w)) eqn:Hu,
           (String.eqb (q_field q) "partners_info");
    async_unfold; rewrite ?Hs, ?Hu; async_unfold;
    match goal with
    | |- context [updateBusinessProfile ?c ?p ?w0] =>
        destruct (updateBusinessProfile_raw c p w0) as [b ->]
    end;
    async_unfold; rewrite ?Hs, ?Hu; async_unfold;
    match goal with
    | |- context [generateAllDocuments ?c ?e ?w0] =>
        destruct (generateAllDocuments_raw c e w0) as (w' & -> & Hp & _)
    end;
    async_unfold; rewrite ?Hu; (split; [exact Hp | reflexivity]).
Qed.

(** C4 — A session that picks the confirmed-idea flow and answers the six
    questions ends the questioning stage with a profile of exactly the six
    fields; [partners_info] holds the one-element list [[{info: answer}]]
    whatever the answer is, every other field holds the bare answer; the
    stage is [questioning] until the last answer, and the last answer sets
    it to [generating] before generation starts. *)
Theorem questionnaire_fills_profile (w : World) (start e1 e2 e3 e4 e5 e6 : Env)
    (choice a1 a2 a3 a4 a5 a6 : string) :
  progress w = (initial, 0%nat, ∅) ->
  Js.trim choice = "2" ->
  Js.truthy (Js.trim a1) = true -> Js.truthy (Js.trim a2) = true ->
  Js.truthy (Js.trim a3) = true -> Js.truthy (Js.trim a4) = true ->
  Js.truthy (Js.trim a5) = true -> Js.truthy (Js.trim a6) = true ->
  businessProfile (ui (fst (steps w (questionnaire start choice
     [(e1, a1); (e2, a2); (e3, a3); (e4, a4); (e5, a5); (e6, a6)])))) =
    <["style_preference" := VStr a6]>
      (<["color_preference" := VStr a5]>
         (<["partners_info" := VArr [VObj [("info", VStr a4)]]]>
            (<["location" := VStr a3]>
               (<["company_description" := VStr a2]>
                  (<["business_name" := VStr a1]> ∅))))) /\
  dom (businessProfile (ui (fst (steps w (questionnaire start choice
     [(e1, a1); (e2, a2); (e3, a3); (e4, a4); (e5, a5); (e6, a6)]))))) = profileFields /\
  fst (fst (progress (fst (steps w (questionnaire start choice
     [(e1, a1); (e2, a2); (e3, a3); (e4, a4); (e5, a5)]))))) = questioning /\
  exists after,
    snd (steps w (questionnaire start choice
      [(e1, a1); (e2, a2); (e3, a3); (e4, a4); (e5, a5); (e6, a6)])) =
    SetFlowStage questioning :: SetFlowStage generating :: after.
Proof.
  intros Hstart Hchoice H1 H2 H3 H4 H5 H6.
  unfold questionnaire. cbn [List.map fst snd].
  destruct (choice_two_step w start choice Hchoice Hstart) as [P0 L0].
  set (w0 := fst (step w (UserInput start choice))) in *.
  destruct (answer_step w0 e1 a1 0 _ _ P0 eq_refl ltac:(lia) H1) as [P1 L1].
  set (w1 := fst (step w0 (UserInput e1 a1))) in *.
  destruct (answer_step w1 e2 a2 1 _ _ P1 eq_refl ltac:(lia) H2) as [P2 L2].
  set (w2 := fst (step w1 (UserInput e2 a2))) in *.
  destruct (answer_step w2 e3 a3 2 _ _ P2 eq_refl ltac:(lia) H3) as [P3 L3].
  set (w3 := fst (step w2 (UserInput e3 a3))) in *.
  destruct (answer_step w3 e4 a4 3 _ _ P3 eq_refl ltac:(lia) H4) as [P4 L4].
  set (w4 := fst (step w3 (UserInput e4 a4))) in *.
  destruct (answer_step w4 e5 a5 4 _ _ P4 eq_refl ltac:(lia) H5) as [P5 L5].
  set (w5 := fst (step w4 (UserInput e5 a5))) in *.
  destruct (last_answer_step w5 e6 a6 _ _ P5 eq_refl H6) as [P6 L6].
  assert (Hprofile :
    businessProfile (ui (fst (steps w
      [UserInput start choice; UserInput e1 a1; UserInput e2 a2; UserInput e3 a3;
       UserInput e4 a4; UserInput e5 a5; UserInput e6 a6]))) =
    <["style_preference" := VStr a6]>
      (<["color_preference" := VStr a5]>
         (<["partners_info" := VArr [VObj [("info", VStr a4)]]]>
            (<["location" := VStr a3]>
               (<["company_description" := VStr a2]>
                  (<["business_name" := VStr a1]> ∅)))))).
  { rewrite !steps_cons. cbn [steps fst snd]. fold w0 w1 w2 w3 w4 w5.
    rewrite P6. reflexivity. }
  split; [exact Hprofile|]. split; [|split].
  - rewrite Hprofile. unfold profileFields.
    rewrite !dom_insert_L, dom_empty_L. set_solver.
  - rewrite !steps_cons. cbn [steps fst snd]. fold w0 w1 w2 w3 w4 w5.
    rewrite P5. reflexivity.
  - rewrite !steps_cons. cbn [steps fst snd]. fold w0 w1 w2 w3 w4 w5.
    rewrite L0, L1, L2, L3, L4, L5, L6. cbn [app]. eauto.
Qed.

Lemma questionnaire_fills_profile_witness :
  businessProfile (ui (fst (steps startWorld (questionnaire quietEnv " 2 " sampleAnswers)))) =
    <["style_preference" := VStr "Modern"]>
      (<["color_preference" := VStr "Earthy"]>
         (<["partners_info" := VArr [VObj [("info", VStr "Two directors: CEO and CTO")]]]>
            (<["location" := VStr "Pune"]>
               (<["company_description" := VStr "We sell tools, see acme.example.org"]>
                  (<["business_name" := VStr "Acme Tools"]> ∅))))) /\
  dom (businessProfile (ui (fst (steps startWorld
         (questionnaire quietEnv " 2 " sampleAnswers))))) = profileFields.
Proof.
  destruct (questionnaire_fills_profile startWorld quietEnv quietEnv quietEnv quietEnv
              quietEnv quietEnv quietEnv " 2 " "Acme Tools"
              "We sell tools, see acme.example.org" "Pune"
              "Two directors: CEO and CTO" "Earthy" "Modern")
    as (Hprofile & Hdom & _); try reflexivity.
  split; [exact Hprofile | exact Hdom].
Defined.

(** The stages of the sample run, and the stored profile at its end. *)
Example questionnaire_run :
  snd (steps startWorld (questionnaire quietEnv "2" sampleAnswers)) =
    [SetFlowStage questioning; SetFlowStage generating; SetFlowStage documents;
     SetTimeout (RatingPrompt "s1" (Some sampleUser)) 3000] /\
  dom <$> storedProfile (fst (steps startWorld (questionnaire quietEnv "2" sampleAnswers))) "s1"
    = Some (profileFields ∪ {[ "user_id"; "session_id" ]}).
Proof.
  split; [reflexivity|].
  apply (bool_decide_unpack _). vm_compute. reflexivity.
Qed.

(** * Further properties of the component *)

(** ** What one event can change *)

Lemma updateBusinessProfile_effect (c : ChatState) (profile : gmap string JsVal) (w : World) :
  exists rows,
    updateBusinessProfile c profile w =
      (tt, {| ui := ui w;
              db := {| user_sessions := user_sessions (db w);
                       chat_messages := chat_messages (db w);
                       business_profiles := rows |} |}, []) /\
    (length (business_profiles (db w)) <= length rows)%nat /\
    (Js.truthy (currentSessionId c) = false -> rows = business_profiles (db w)).
Proof.
  unfold updateBusinessProfile.
  destruct (currentUser c), (Js.truthy (currentSessionId c));
    try (exists (business_profiles (db w)); destruct w as [s []];
         split; [reflexivity | split; [lia | reflexivity]]).
  async_unfold.
  destruct (maybeSingle _); eexists; (split; [reflexivity | split; [|discriminate]]).
  - rewrite length_map. lia.
  - rewrite length_app. cbn. lia.
Qed.

Lemma generateAllDocuments_effect (c : ChatState) (env : Env) (w : World) :
  exists docs,
    generateAllDocuments c env w =
      (tt, {| ui := {| messages := messages (ui w); currentUser := currentUser (ui w);
                       currentSessionId := currentSessionId (ui w);
                       viewMode := dashboard; flowStage := documents;
                       currentQuestionIndex := currentQuestionIndex (ui w);
                       businessProfile := businessProfile (ui w);
                       documentList := docs;
                       awaitingRating := awaitingRating (ui w);
                       ratingFeedback := ratingFeedback (ui w) |};
              db := db w |},
       [SetFlowStage documents;
        SetTimeout (RatingPrompt (currentSessionId c) (currentUser c)) 3000]).
Proof.
  destruct (generateAllDocuments_writes c env w) as (docs & Hw & Hl).
  exists docs. rewrite (async_unit (generateAllDocuments c env) w), Hw, Hl. reflexivity.
Qed.

Lemma addMessageAndSave_effect (sid : string) (usr : option User) (m : Message)
    (w : World) :
  exists saved,
    addMessageAndSave sid usr m w =
      (tt, {| ui := {| messages := messages (ui w) ++ [m];
                       currentUser := currentUser (ui w);
                       currentSessionId := currentSessionId (ui w);
                       viewMode := viewMode (ui w); flowStage := flowStage (ui w);
                       currentQuestionIndex := currentQuestionIndex (ui w);
                       businessProfile := businessProfile (ui w);
                       documentList := documentList (ui w);
                       awaitingRating := awaitingRating (ui w);
                       ratingFeedback := ratingFeedback (ui w) |};
              db := {| user_sessions := user_sessions (db w);
                       chat_messages := chat_messages (db w) ++ saved;
                       business_profiles := business_profiles (db w) |} |}, []) /\
    (Js.truthy sid = false -> saved = []).
Proof.
  destruct w as [s [us cm bp]].
  destruct (Js.truthy sid) eqn:Hs, usr as [u|].
  1: exists [{| cr_session_id := sid; cr_user_id := user_id u;
                cr_message_type := msg_type m; cr_content := msg_content m |}].
  2-4: exists [].
  all: async_unfold; rewrite ?Hs; async_unfold; cbn; rewrite ?app_nil_r;
    (split; [reflexivity | congruence]).
Qed.

(** Unfolding of the monad and of the setters that stops at the calls whose
    effect is given by a lemma. *)
Ltac async_core :=
  cbv beta iota zeta delta
    [run worldAfter logOf mbind mret Async_bind Async_ret emit modifyUi
     modifyDb readDb setMessages setCurrentSessionId setViewMode setFlowStage
     setCurrentQuestionIndex setBusinessProfile setDocuments setAwaitingRating
     setRatingFeedback setBusinessProfiles updateSessionStatus markFailed fst snd];
  cbn [ui db messages currentUser currentSessionId viewMode flowStage
       currentQuestionIndex businessProfile documentList awaitingRating
       ratingFeedback user_sessions chat_messages business_profiles app].

Ltac use_effects :=
  repeat
    (async_core;
     match goal with
     | |- context [addMessageAndSave ?s ?u ?m ?w0] =>
         let saved := fresh "saved" in
         let Hsaved := fresh "Hsaved" in
         destruct (addMessageAndSave_effect s u m w0) as (saved & -> & Hsaved)
     | |- context [updateBusinessProfile ?c ?p ?w0] =>
         let rows := fresh "rows" in
         let Hrows := fresh "Hrows" in
         let Hsame := fresh "Hsame" in
         destruct (updateBusinessProfile_effect c p w0) as (rows & -> & Hrows & Hsame);
         cbn [ui db business_profiles] in Hrows, Hsame
     | |- context [generateAllDocuments ?c ?e ?w0] =>
         let docs := fresh "docs" in
         destruct (generateAllDocuments_effect c e w0) as (docs & ->)
     end);
  async_core.

Ltac rewrite_cases :=
  repeat match goal with
         | H : flowStage _ = _ |- _ => rewrite H
         end.

(** Closes one conjunct of a frame statement once the cases are apart. *)
Ltac frame_solver :=
  repeat match goal with
         | H : (_ <? _)%nat = true |- _ => apply Nat.ltb_lt in H; cbn in H
         end;
  rewrite_cases;
  cbn [stageRank submittedRatings scheduled omap length];
  first
    [ reflexivity
    | lia
    | eexists; rewrite <- ?app_assoc;
      first [reflexivity | symmetry; apply app_nil_r]
    | intros; first [congruence | lia | split; first [congruence | reflexivity]]
    | intros; eexists; rewrite <- ?app_assoc; reflexivity
    | intros;
      repeat match goal with
             | Hs : Js.truthy ?s = false, H : Js.truthy ?s = false -> _ |- _ =>
                 specialize (H Hs)
             end;
      subst; rewrite ?app_nil_r;
      match goal with w0 : World |- _ => destruct w0 as [? []] end; reflexivity
    | rewrite ?dom_insert_L; set_solver ].

(** Case analysis of [handleSendMessage] on its input and its closure, with
    the chat log, the store reads and the document fan-out replaced by their
    effect. *)
Ltac user_step_cases w env input :=
  unfold step, handleSendMessage;
  destruct (Js.truthy (Js.trim input)) eqn:?; cbn [negb];
  [ destruct (flowStage (ui w)) eqn:?;
    [ unfold handleInitialChoice, createSession;
      destruct (String.eqb (Js.trim input) "1") eqn:?;
      [| destruct (String.eqb (Js.trim input) "2") eqn:?;
         [ let sid := fresh "sid" in
           destruct (newSessionId env) as [sid|] eqn:?;
           [ destruct (Js.truthy sid) eqn:? |] |] ]
    | unfold handleQuestionResponse;
      let q := fresh "q" in
      destruct (QUESTIONS !! currentQuestionIndex (ui w)) as [q|] eqn:?;
      [ destruct (String.eqb (q_field q) "partners_info") eqn:?;
        destruct (currentQuestionIndex (ui w) <? length QUESTIONS - 1)%nat eqn:? |]
    | | |
      unfold handleRatingResponse;
      destruct (validRating (Js.parseInt (Js.trim input))) eqn:?;
      [ destruct (default 0 (Js.parseInt (Js.trim input)) <=? 3) eqn:?
      | destruct (String.eqb (ratingFeedback (ui w)) "awaiting") eqn:?;
        [ destruct (0 <? length (mentorCardsOf
                      (List.map (getMentorForService env) serviceTypes)))%nat eqn:? |] ] ]
  |];
  rewrite_cases; use_effects;
  cbn [truthyField default from_option id];
  repeat match goal with
         | H : Js.truthy _ = _ |- _ => rewrite H
         end;
  use_effects.

(** What a user input may change, whatever the stage and the input. *)
Lemma user_step_frame (w : World) (env : Env) (input : string) :
  (exists added, messages (ui (fst (step w (UserInput env input)))) =
                 messages (ui w) ++ added) /\
  (exists saved, chat_messages (db (fst (step w (UserInput env input)))) =
                 chat_messages (db w) ++ saved) /\
  currentUser (ui (fst (step w (UserInput env input)))) = currentUser (ui w) /\
  (stageRank (flowStage (ui w)) <=
   stageRank (flowStage (ui (fst (step w (UserInput env input))))))%nat /\
  ((currentQuestionIndex (ui w) <= 5)%nat ->
   (currentQuestionIndex (ui (fst (step w (UserInput env input)))) <= 5)%nat) /\
  (flowStage (ui w) <> initial ->
   currentSessionId (ui (fst (step w (UserInput env input)))) = currentSessionId (ui w)) /\
  dom (user_sessions (db w)) ⊆ dom (user_sessions (db (fst (step w (UserInput env input))))) /\
  (flowStage (ui w) <> initial ->
   user_sessions (db (fst (step w (UserInput env input)))) = user_sessions (db w)) /\
  (length (business_profiles (db w)) <=
   length (business_profiles (db (fst (step w (UserInput env input))))))%nat /\
  (flowStage (ui w) <> initial ->
   dom (businessProfile (ui w)) ⊆
   dom (businessProfile (ui (fst (step w (UserInput env input)))))) /\
  (flowStage (ui w) <> initial -> flowStage (ui w) <> questioning ->
   businessProfile (ui (fst (step w (UserInput env input)))) = businessProfile (ui w) /\
   currentQuestionIndex (ui (fst (step w (UserInput env input)))) =
     currentQuestionIndex (ui w)) /\
  (flowStage (ui w) <> questioning ->
   documentList (ui (fst (step w (UserInput env input)))) = documentList (ui w)) /\
  (length (submittedRatings (snd (step w (UserInput env input)))) <= 1)%nat /\
  (length (scheduled (snd (step w (UserInput env input)))) <= 1)%nat /\
  (Js.truthy (Js.trim input) = true ->
   exists replies, messages (ui (fst (step w (UserInput env input)))) =
                   messages (ui w) ++ userMessage input :: replies) /\
  (Js.truthy (currentSessionId (ui w)) = false -> newSessionId env = None ->
   db (fst (step w (UserInput env input))) = db w) /\
  (Js.truthy (currentSessionId (ui w)) = false -> newSessionId env = None ->
   currentSessionId (ui (fst (step w (UserInput env input)))) = currentSessionId (ui w)).
Proof.
  user_step_cases w env input; repeat split; frame_solver.
Qed.

(** What a timer callback may change. *)
Lemma timer_step_frame (w : World) (env : Env) (callback : TimerCallback) :
  (exists added, messages (ui (fst (step w (TimerFires env callback)))) =
                 messages (ui w) ++ added) /\
  (exists saved, chat_messages (db (fst (step w (TimerFires env callback)))) =
                 chat_messages (db w) ++ saved) /\
  currentUser (ui (fst (step w (TimerFires env callback)))) = currentUser (ui w) /\
  (stageRank (flowStage (ui w)) <=
   stageRank (flowStage (ui (fst (step w (TimerFires env callback))))))%nat /\
  currentQuestionIndex (ui (fst (step w (TimerFires env callback)))) =
    currentQuestionIndex (ui w) /\
  currentSessionId (ui (fst (step w (TimerFires env callback)))) = currentSessionId (ui w) /\
  dom (user_sessions (db (fst (step w (TimerFires env callback))))) =
    dom (user_sessions (db w)) /\
  business_profiles (db (fst (step w (TimerFires env callback)))) =
    business_profiles (db w) /\
  businessProfile (ui (fst (step w (TimerFires env callback)))) = businessProfile (ui w) /\
  documentList (ui (fst (step w (TimerFires env callback)))) = documentList (ui w) /\
  submittedRatings (snd (step w (TimerFires env callback))) = [] /\
  scheduled (snd (step w (TimerFires env callback))) = [].
Proof.
  unfold step, runTimer.
  destruct callback as [sid usr | sid usr | sid usr | sid usr cards];
    try destruct (Js.truthy sid) eqn:Hs;
    use_effects; repeat split;
    try (rewrite dom_alter_L; reflexivity);
    try (destruct (flowStage (ui w)); cbn; lia);
    frame_solver.
Qed.

(** What any event may change. *)
Lemma event_frame (w : World) (e : Event) :
  (exists added, messages (ui (fst (step w e))) = messages (ui w) ++ added) /\
  (exists saved, chat_messages (db (fst (step w e))) = chat_messages (db w) ++ saved) /\
  currentUser (ui (fst (step w e))) = currentUser (ui w) /\
  (stageRank (flowStage (ui w)) <= stageRank (flowStage (ui (fst (step w e)))))%nat /\
  ((currentQuestionIndex (ui w) <= 5)%nat ->
   (currentQuestionIndex (ui (fst (step w e))) <= 5)%nat) /\
  (flowStage (ui w) <> initial ->
   currentSessionId (ui (fst (step w e))) = currentSessionId (ui w)) /\
  dom (user_sessions (db w)) ⊆ dom (user_sessions (db (fst (step w e)))) /\
  (length (business_profiles (db w)) <= length (business_profiles (db (fst (step w e)))))%nat /\
  (flowStage (ui w) <> initial ->
   dom (businessProfile (ui w)) ⊆ dom (businessProfile (ui (fst (step w e))))) /\
  (flowStage (ui w) <> initial -> flowStage (ui w) <> questioning ->
   businessProfile (ui (fst (step w e))) = businessProfile (ui w) /\
   currentQuestionIndex (ui (fst (step w e))) = currentQuestionIndex (ui w)) /\
  (flowStage (ui w) <> questioning ->
   documentList (ui (fst (step w e))) = documentList (ui w)) /\
  (length (submittedRatings (snd (step w e))) <= 1)%nat /\
  (length (scheduled (snd (step w e))) <= 1)%nat.
Proof.
  destruct e as [env input | env callback].
  - destruct (user_step_frame w env input)
      as (H1 & H2 & H3 & H4 & H5 & H6 & H7 & _ & H9 & H10 & H11 & H12 & H13 & H14 & _).
    repeat (split; [assumption|]). assumption.
  - destruct (timer_step_frame w env callback)
      as (H1 & H2 & H3 & H4 & H5 & H6 & H7 & H8 & H9 & H10 & H11 & H12).
    repeat split; try assumption; try (intros; congruence);
      rewrite ?H7, ?H8, ?H9, ?H11, ?H12; cbn; first [reflexivity | lia].
Qed.

Lemma stage_step_monotone (w : World) (e : Event) :
  (stageRank (flowStage (ui w)) <= stageRank (flowStage (ui (fst (step w e)))))%nat.
Proof. apply event_frame. Qed.

Lemma past_initial_step (w : World) (e : Event) :
  flowStage (ui w) <> initial -> flowStage (ui (fst (step w e))) <> initial.
Proof.
  intros Hne Heq. pose proof (stage_step_monotone w e) as Hle.
  rewrite Heq in Hle. destruct (flowStage (ui w)); cbn in Hle; [congruence | lia ..].
Qed.

Lemma past_questioning_step (w : World) (e : Event) :
  (2 <= stageRank (flowStage (ui w)))%nat ->
  (2 <= stageRank (flowStage (ui (fst (step w e)))))%nat.
Proof. intros H. pose proof (stage_step_monotone w e). lia. Qed.

Lemma rank_past_questioning (s : FlowStage) :
  (2 <= stageRank s)%nat <-> s <> initial /\ s <> questioning.
Proof. destruct s; cbn; split; intros; try lia; try (split; congruence); tauto. Qed.

(** ** Invariants of a run *)

(** X1 — Over any run of user inputs and timers the flow never returns to
    an earlier stage of [initial, questioning, generating, documents,
    rating]. *)
Theorem stage_never_goes_back (w : World) (es : list Event) :
  (stageRank (flowStage (ui w)) <= stageRank (flowStage (ui (fst (steps w es)))))%nat.
Proof.
  revert w. induction es as [|e es IH]; intros w.
  - cbn. lia.
  - rewrite steps_cons. cbn [fst].
    etransitivity; [apply stage_step_monotone | apply IH].
Qed.

(** X2 — The question index never leaves the range of [QUESTIONS]: from an
    index of at most five, every run ends with an index of at most five, so
    the question the next answer is recorded for is always defined. *)
Theorem question_index_in_range (w : World) (es : list Event) :
  (currentQuestionIndex (ui w) <= 5)%nat ->
  (currentQuestionIndex (ui (fst (steps w es))) <= 5)%nat /\
  is_Some (QUESTIONS !! currentQuestionIndex (ui (fst (steps w es)))).
Proof.
  intros Hle.
  assert (Hrun : (currentQuestionIndex (ui (fst (steps w es))) <= 5)%nat).
  { revert w Hle. induction es as [|e es IH]; intros w Hle; [exact Hle|].
    rewrite steps_cons. cbn [fst]. apply IH.
    destruct (event_frame w e) as (_ & _ & _ & _ & H5 & _). auto. }
  split; [exact Hrun|].
  apply lookup_lt_is_Some. cbn. lia.
Qed.

Lemma question_index_in_range_witness :
  (currentQuestionIndex (ui (fst (steps startWorld
      (questionnaire quietEnv "2" sampleAnswers ++
       [UserInput quietEnv "one more answer"])))) <= 5)%nat /\
  is_Some (QUESTIONS !! currentQuestionIndex (ui (fst (steps startWorld
      (questionnaire quietEnv "2" sampleAnswers ++
       [UserInput quietEnv "one more answer"]))))).
Proof.
  apply (question_index_in_range startWorld). cbn. lia.
Defined.

(** X3 — The chat is append-only: over any run the messages in memory and
    the rows of the chat table are the former ones followed by new ones;
    none is changed, reordered or removed. *)
Theorem chat_is_append_only (w : World) (es : list Event) :
  (exists added, messages (ui (fst (steps w es))) = messages (ui w) ++ added) /\
  (exists saved, chat_messages (db (fst (steps w es))) = chat_messages (db w) ++ saved).
Proof.
  revert w. induction es as [|e es IH]; intros w.
  - split; exists []; cbn; rewrite app_nil_r; reflexivity.
  - rewrite steps_cons. cbn [fst].
    destruct (event_frame w e) as ([a1 Ha] & [s1 Hs] & _).
    destruct (IH (fst (step w e))) as ([a2 Ha2] & [s2 Hs2]).
    split.
    + exists (a1 ++ a2). rewrite Ha2, Ha, app_assoc. reflexivity.
    + exists (s1 ++ s2). rewrite Hs2, Hs, app_assoc. reflexivity.
Qed.

(** X4 — Once the flow has left the initial stage, no run changes the
    session the conversation belongs to or the signed-in user. *)
Theorem session_fixed_after_initial (w : World) (es : list Event) :
  flowStage (ui w) <> initial ->
  currentSessionId (ui (fst (steps w es))) = currentSessionId (ui w) /\
  currentUser (ui (fst (steps w es))) = currentUser (ui w).
Proof.
  revert w. induction es as [|e es IH]; intros w Hne; [split; reflexivity|].
  rewrite steps_cons. cbn [fst].
  destruct (event_frame w e) as (_ & _ & Hu & _ & _ & Hsid & _).
  destruct (IH (fst (step w e)) (past_initial_step w e Hne)) as [H1 H2].
  rewrite H1, H2, Hu, (Hsid Hne). split; reflexivity.
Qed.

Lemma session_fixed_after_initial_witness :
  currentSessionId (ui (fst (steps (ratingWorld "")
      [UserInput quietEnv "2"; UserInput quietEnv "3";
       TimerFires quietEnv (FeedbackRequest "s1" (Some sampleUser));
       UserInput mentorEnv "too slow"]))) = "s1" /\
  currentUser (ui (fst (steps (ratingWorld "")
      [UserInput quietEnv "2"; UserInput quietEnv "3";
       TimerFires quietEnv (FeedbackRequest "s1" (Some sampleUser));
       UserInput mentorEnv "too slow"]))) = Some sampleUser.
Proof.
  apply (session_fixed_after_initial (ratingWorld "")). discriminate.
Defined.

(** X5 — Nothing is ever deleted from the store: over any run every session
    stays in the session table and the profile table does not lose a
    row. *)
Theorem store_never_shrinks (w : World) (es : list Event) :
  dom (user_sessions (db w)) ⊆ dom (user_sessions (db (fst (steps w es)))) /\
  (length (business_profiles (db w)) <=
   length (business_profiles (db (fst (steps w es)))))%nat.
Proof.
  revert w. induction es as [|e es IH]; intros w; [split; [reflexivity | cbn; lia]|].
  rewrite steps_cons. cbn [fst].
  destruct (event_frame w e) as (_ & _ & _ & _ & _ & _ & Hdom & Hlen & _).
  destruct (IH (fst (step w e))) as [H1 H2].
  split; [etransitivity; eassumption | lia].
Qed.

(** X6 — Once questioning is over (stage generating, documents or rating),
    no run changes the profile in memory, the question index or the
    document list. *)
Theorem frozen_after_questioning (w : World) (es : list Event) :
  (2 <= stageRank (flowStage (ui w)))%nat ->
  businessProfile (ui (fst (steps w es))) = businessProfile (ui w) /\
  currentQuestionIndex (ui (fst (steps w es))) = currentQuestionIndex (ui w) /\
  documentList (ui (fst (steps w es))) = documentList (ui w).
Proof.
  revert w. induction es as [|e es IH]; intros w Hrank; [repeat split; reflexivity|].
  rewrite steps_cons. cbn [fst].
  pose proof (proj1 (rank_past_questioning _) Hrank) as [Hi Hq].
  destruct (event_frame w e)
    as (_ & _ & _ & _ & _ & _ & _ & _ & _ & Hbp & Hdocs & _).
  destruct (Hbp Hi Hq) as [Hp Hidx].
  destruct (IH (fst (step w e)) (past_questioning_step w e Hrank)) as (H1 & H2 & H3).
  rewrite H1, H2, H3, Hp, Hidx, (Hdocs Hq). repeat split; reflexivity.
Qed.

Lemma frozen_after_questioning_witness :
  businessProfile (ui (fst (steps (ratingWorld "")
      [UserInput quietEnv "4";
       TimerFires quietEnv (ClosingMessage "s1" (Some sampleUser))]))) = ∅ /\
  currentQuestionIndex (ui (fst (steps (ratingWorld "")
      [UserInput quietEnv "4";
       TimerFires quietEnv (ClosingMessage "s1" (Some sampleUser))]))) = 5%nat /\
  documentList (ui (fst (steps (ratingWorld "")
      [UserInput quietEnv "4";
       TimerFires quietEnv (ClosingMessage "s1" (Some sampleUser))]))) = [].
Proof.
  apply (frozen_after_questioning (ratingWorld "")). cbn. lia.
Defined.

(** X7 — During and after questioning no answer is dropped from the profile
    in memory: over any run that starts past the initial stage, every field
    the profile has stays in it. *)
Theorem answers_are_kept (w : World) (es : list Event) :
  flowStage (ui w) <> initial ->
  dom (businessProfile (ui w)) ⊆ dom (businessProfile (ui (fst (steps w es)))).
Proof.
  revert w. induction es as [|e es IH]; intros w Hne; [reflexivity|].
  rewrite steps_cons. cbn [fst].
  destruct (event_frame w e) as (_ & _ & _ & _ & _ & _ & _ & _ & Hdom & _).
  etransitivity; [exact (Hdom Hne) | apply IH, past_initial_step, Hne].
Qed.

Lemma answers_are_kept_witness :
  dom (businessProfile (ui (fst (steps startWorld
         [UserInput quietEnv "2"; UserInput quietEnv "Acme Tools"])))) ⊆
  dom (businessProfile (ui (fst (steps (fst (steps startWorld
         [UserInput quietEnv "2"; UserInput quietEnv "Acme Tools"]))
         [UserInput quietEnv "tools"; UserInput quietEnv "Pune"])))).
Proof.
  apply (answers_are_kept (fst (steps startWorld
           [UserInput quietEnv "2"; UserInput quietEnv "Acme Tools"]))).
  discriminate.
Defined.

(** X8 — One event submits at most one rating and sets at most one timer;
    a timer callback submits no rating and sets no further timer. *)
Theorem one_rating_one_timer_per_event (w : World) (e : Event) :
  (length (submittedRatings (snd (step w e))) <= 1)%nat /\
  (length (scheduled (snd (step w e))) <= 1)%nat /\
  (forall env callback, e = TimerFires env callback ->
     submittedRatings (snd (step w e)) = [] /\ scheduled (snd (step w e)) = []).
Proof.
  destruct (event_frame w e)
    as (_ & _ & _ & _ & _ & _ & _ & _ & _ & _ & _ & H12 & H13).
  split; [exact H12|]. split; [exact H13|].
  intros env callback ->.
  destruct (timer_step_frame w env callback)
    as (_ & _ & _ & _ & _ & _ & _ & _ & _ & _ & H11 & H12').
  split; assumption.
Qed.


(** ** Inputs the flow does not act on *)

Lemma trim_blank (s : string) :
  Js.truthy (Js.trim s) = negb (allWhiteSpace s).
Proof.
  unfold Js.trim. induction s as [|c rest IH]; [reflexivity|].
  cbn [Js.trimStart allWhiteSpace].
  destruct (Js.isWhiteSpace c) eqn:Hc; cbn [andb negb]; [exact IH|].
  rewrite (trimEnd_cons_kept c rest Hc). reflexivity.
Qed.

(** X9 — An input is ignored exactly when it consists of white space only:
    then the world is left as it is and nothing is logged; any other input
    is appended to the chat as typed, untrimmed, before the replies. *)
Theorem blank_input_is_ignored (w : World) (env : Env) (input : string) :
  (allWhiteSpace input = true -> step w (UserInput env input) = (w, [])) /\
  (allWhiteSpace input = false ->
   exists replies, messages (ui (fst (step w (UserInput env input)))) =
                   messages (ui w) ++ userMessage input :: replies).
Proof.
  split; intros Hws.
  - apply blank_input_dropped. rewrite trim_blank, Hws. reflexivity.
  - destruct (user_step_frame w env input)
      as (_ & _ & _ & _ & _ & _ & _ & _ & _ & _ & _ & _ & _ & _ & Hfirst & _).
    apply Hfirst. rewrite trim_blank, Hws. reflexivity.
Qed.

(** X10 — In the stages generating and documents a non-blank input is only
    appended to the chat (and saved): there is no reply, nothing is logged,
    and the rest of the state is as before. *)
Theorem input_outside_dialogue_stages (w : World) (env : Env) (input : string) :
  flowStage (ui w) = generating \/ flowStage (ui w) = documents ->
  Js.truthy (Js.trim input) = true ->
  step w (UserInput env input) = (received w input, []).
Proof.
  intros Hstage Hin. unfold step, handleSendMessage, received.
  rewrite Hin. cbn [negb].
  rewrite (surjective_pairing (run _ w)).
  change (fst (run ?m w)) with (worldAfter m w).
  change (snd (run ?m w)) with (logOf m w).
  rewrite worldAfter_seq, logOf_seq, addMessageAndSave_log.
  destruct Hstage as [-> | ->]; reflexivity.
Qed.

Lemma input_outside_dialogue_stages_witness :
  step generatingWorld (UserInput quietEnv "hello?") =
    (received generatingWorld "hello?", []).
Proof.
  apply (input_outside_dialogue_stages generatingWorld quietEnv "hello?");
    [left; reflexivity | reflexivity].
Defined.

(** X11 — When no session could be created, the conversation goes on but
    nothing reaches the store: over any run of user inputs during which the
    store creates no session, the three tables are left as they were and
    the session id stays empty. *)
Theorem nothing_stored_without_session (w : World) (inputs : list (Env * string)) :
  Js.truthy (currentSessionId (ui w)) = false ->
  Forall (fun ei => newSessionId (fst ei) = None) inputs ->
  db (fst (steps w (userInputs inputs))) = db w /\
  currentSessionId (ui (fst (steps w (userInputs inputs)))) = currentSessionId (ui w).
Proof.
  revert w. induction inputs as [|[env input] rest IH]; intros w Hs Hall;
    [split; reflexivity|].
  apply Forall_cons in Hall as [Hnone Hall]. cbn [fst] in Hnone.
  unfold userInputs. cbn [List.map fst snd]. rewrite steps_cons. cbn [fst].
  destruct (user_step_frame w env input)
    as (_ & _ & _ & _ & _ & _ & _ & _ & _ & _ & _ & _ & _ & _ & _ & Hdb & Hsid).
  specialize (Hdb Hs Hnone). specialize (Hsid Hs Hnone).
  destruct (IH (fst (step w (UserInput env input)))) as [H1 H2];
    [rewrite Hsid; exact Hs | exact Hall |].
  fold (userInputs rest). rewrite H1, H2, Hdb, Hsid. split; reflexivity.
Qed.

Lemma nothing_stored_without_session_witness :
  db (fst (steps (sessionlessWorld initial)
            (userInputs ((noSessionEnv, "2") ::
               List.map (fun ea => (noSessionEnv, snd ea)) sampleAnswers ++
               [(noSessionEnv, "5")])))) = sampleBackend /\
  currentSessionId (ui (fst (steps (sessionlessWorld initial)
            (userInputs ((noSessionEnv, "2") ::
               List.map (fun ea => (noSessionEnv, snd ea)) sampleAnswers ++
               [(noSessionEnv, "5")]))))) = "".
Proof.
  apply (nothing_stored_without_session (sessionlessWorld initial)).
  - reflexivity.
  - repeat constructor.
Defined.

(** X12 — The choice of the confirmed-idea flow creates the session, but in
    the closure that handles it the session id is still the old one: from a
    state without session the user's text and the first question are shown
    and neither is written to the chat table. *)
Theorem first_exchange_not_saved (w : World) (env : Env) (input sid : string) :
  flowStage (ui w) = initial ->
  Js.truthy (currentSessionId (ui w)) = false ->
  Js.trim input = "2" ->
  newSessionId env = Some sid -> Js.truthy sid = true ->
  messages (ui (fst (step w (UserInput env input)))) =
    messages (ui w) ++ [userMessage input; aiMessage firstQuestionText] /\
  chat_messages (db (fst (step w (UserInput env input)))) = chat_messages (db w) /\
  currentSessionId (ui (fst (step w (UserInput env input)))) = sid /\
  user_sessions (db (fst (step w (UserInput env input)))) =
    <[sid := {| us_user_id := user_id <$> currentUser (ui w);
                us_service_type := "confirmed_idea_flow";
                us_status := active; us_completed_at := None |}]>
      (user_sessions (db w)) /\
  progress (fst (step w (UserInput env input))) = (questioning, 0%nat, ∅).
Proof.
  intros Hstage Hs Htrim Hnew Hsid.
  unfold step, handleSendMessage, progress. rewrite Htrim, Hstage.
  change (negb (Js.truthy "2")) with false. cbv iota.
  unfold handleInitialChoice, createSession. rewrite Htrim, Hnew.
  change ("2" =? "1")%string with false. change ("2" =? "2")%string with true.
  cbv iota.
  async_unfold. rewrite ?Hs. async_unfold.
  cbn [truthyField default from_option id]. rewrite Hsid. async_unfold.
  rewrite ?Hs. async_unfold. rewrite <- app_assoc. repeat split.
Qed.

Lemma first_exchange_not_saved_witness :
  messages (ui (fst (step (sessionlessWorld initial) (UserInput quietEnv "2")))) =
    [userMessage "2"; aiMessage firstQuestionText] /\
  chat_messages (db (fst (step (sessionlessWorld initial) (UserInput quietEnv "2")))) = [] /\
  currentSessionId (ui (fst (step (sessionlessWorld initial) (UserInput quietEnv "2")))) = "s1".
Proof.
  destruct (first_exchange_not_saved (sessionlessWorld initial) quietEnv "2" "s1")
    as (H1 & H2 & H3 & _); try reflexivity.
  repeat split; assumption.
Defined.

(** X13 — In the initial stage every non-blank input but the choice 2 gets
    a reply and nothing else: the placeholder for 1, the re-prompt for
    anything else; the stage, the question index, the profile and the
    session table stay as they were and nothing is logged. *)
Theorem unrecognised_choice_reprompts (w : World) (env : Env) (input : string) :
  flowStage (ui w) = initial ->
  Js.truthy (Js.trim input) = true ->
  Js.trim input <> "2" ->
  messages (ui (fst (step w (UserInput env input)))) =
    messages (ui w) ++
    [userMessage input;
     aiMessage (if String.eqb (Js.trim input) "1" then ideaTuningText
                else "Please type 1 for Idea Tuning or 2 for Confirmed Idea to proceed.")] /\
  progress (fst (step w (UserInput env input))) = progress w /\
  user_sessions (db (fst (step w (UserInput env input)))) = user_sessions (db w) /\
  snd (step w (UserInput env input)) = [].
Proof.
  intros Hstage Hin Hne.
  unfold step, handleSendMessage, progress. rewrite Hin, Hstage. cbn [negb].
  unfold handleInitialChoice.
  destruct (String.eqb_spec (Js.trim input) "2") as [E|_]; [contradiction|].
  destruct (String.eqb (Js.trim input) "1");
    destruct (Js.truthy (currentSessionId (ui w))) eqn:Hs, (currentUser (ui w)) eqn:Hu;
    async_unfold; rewrite ?Hs, ?Hu; async_unfold; rewrite <- app_assoc, Hstage;
    repeat split.
Qed.

Lemma unrecognised_choice_reprompts_witness :
  messages (ui (fst (step startWorld (UserInput quietEnv "  1 ")))) =
    [userMessage "  1 "; aiMessage ideaTuningText] /\
  progress (fst (step startWorld (UserInput quietEnv "  1 "))) = progress startWorld /\
  snd (step startWorld (UserInput quietEnv "  1 ")) = [].
Proof.
  destruct (unrecognised_choice_reprompts startWorld quietEnv "  1 ")
    as (H1 & H2 & _ & H4); [reflexivity | reflexivity | discriminate |].
  repeat split; assumption.
Defined.

(** ** Ratings over a run *)

Lemma submittedRatings_app (log1 log2 : list Action) :
  submittedRatings (log1 ++ log2) = submittedRatings log1 ++ submittedRatings log2.
Proof. unfold submittedRatings. apply omap_app. Qed.

Lemma rating_stage_stays (w : World) (e : Event) :
  flowStage (ui w) = rating -> flowStage (ui (fst (step w e))) = rating.
Proof.
  intros Hstage. pose proof (stage_step_monotone w e) as Hmono.
  rewrite Hstage in Hmono. destruct (flowStage (ui (fst (step w e)))); cbn in Hmono;
    first [reflexivity | lia].
Qed.

(** X28 — In the rating stage every input that reads as a number from 1 to
    5 is submitted as a rating, once, in the order typed, and no other
    input submits one: a run of inputs submits exactly the ratings among
    them, however many there are. *)
Theorem ratings_submitted_in_order (w : World) (inputs : list (Env * string)) :
  flowStage (ui w) = rating ->
  submittedRatings (snd (steps w (userInputs inputs))) = ratingsIn inputs.
Proof.
  revert w. induction inputs as [|[env input] rest IH]; intros w Hstage; [reflexivity|].
  unfold userInputs, ratingsIn. cbn [List.map omap list_omap fst snd].
  rewrite steps_cons. cbn [snd]. rewrite submittedRatings_app.
  fold (userInputs rest). fold (ratingsIn rest).
  rewrite (IH _ (rating_stage_stays w (UserInput env input) Hstage)).
  destruct (Js.truthy (Js.trim input)) eqn:Hin.
  - rewrite (rating_stage_dispatch w env input Hstage Hin). cbn [snd].
    destruct (validRating (Js.parseInt (Js.trim input))) eqn:Hv.
    + pose proof (proj1 (validRating_range _) Hv) as (n & Hn & Hrange).
      rewrite (rating_accepted_submission _ _ env input n Hn Hrange), Hn. reflexivity.
    + rewrite (rating_rejected_no_submission _ _ env input Hv). reflexivity.
  - rewrite (blank_input_dropped w env input Hin). cbn [snd].
    destruct (Js.trim input); [reflexivity | discriminate].
Qed.

Lemma ratings_submitted_in_order_witness :
  submittedRatings (snd (steps (ratingWorld "")
    (userInputs [(quietEnv, "3"); (quietEnv, "not sure"); (quietEnv, " 5 stars");
                 (quietEnv, "  ")]))) = [3; 5].
Proof.
  rewrite (ratings_submitted_in_order (ratingWorld "")); reflexivity.
Defined.

(** ** Document generation: further properties *)

Lemma updateOfType_lookup (t : DocumentType) (f : Document -> Document)
    (docs : list Document) (i : nat) :
  updateOfType t f docs !! i =
  (fun doc => if DocumentType_eqb (doc_type doc) t then f doc else doc) <$> docs !! i.
Proof. unfold updateOfType. apply list_lookup_fmap. Qed.

(** A request ends in one of two writes. *)
Lemma generateDocument_cases (c : ChatState) (o : FetchOutcome) (t : DocumentType) :
  (forall w, run (generateDocument c o t) w = run (markFailed t) w) \/
  (exists keyPoints fullContent pdfUrl, forall w,
     run (generateDocument c o t) w =
     run (setDocuments (updateOfType t (withCompleted keyPoints fullContent pdfUrl))) w).
Proof.
  unfold generateDocument.
  destruct (currentUser c); [|left; reflexivity].
  destruct o as [|[|] [result|]]; try (left; reflexivity).
  destruct (_ || _); [left; reflexivity|].
  destruct (_ || _); [left; reflexivity|].
  right. eauto.
Qed.

Lemma settleAll_signed_out (c : ChatState) (outcomes : DocumentType -> FetchOutcome)
    (order : list DocumentType) :
  currentUser c = None ->
  forall w : World,
    run (settleAll c outcomes order) w =
    run (setDocuments
           (List.map (fun doc => if typeIn order (doc_type doc) then withFailed doc
                                 else doc))) w.
Proof.
  intros Hu. induction order as [|t rest IH]; intros w.
  - cbn. async_unfold. rewrite map_id. destruct w as [[] ?]. reflexivity.
  - cbn [settleAll]. rewrite run_bind.
    pose proof (generateDocument_no_user c (outcomes t) t w Hu) as Hg.
    unfold run in Hg at 1.
    destruct (generateDocument c (outcomes t) t w) as [[[] w1] log1].
    rewrite (IH w1). revert Hg. async_unfold. intros [= -> ->].
    cbn [ui db documentList]. do 3 f_equal.
    unfold updateOfType. rewrite List.map_map.
    apply List.map_ext. intros doc. unfold typeIn. cbn [existsb].
    destruct (DocumentType_eqb (doc_type doc) t); cbn [orb doc_type withFailed];
      [|reflexivity].
    destruct (existsb _ rest); reflexivity.
Qed.

(** X14 — Without a signed-in user no request is sent: reading the id of
    the null user throws inside each request, so once the four have settled
    all four documents are failed, whatever the guide functions would have
    answered; the stage is [documents] all the same. *)
Theorem documents_fail_without_user (c : ChatState) (env : Env) (w : World) :
  currentUser c = None ->
  (forall t, t ∈ settleOrder env) ->
  dispatched c env w =
    List.map (fun t => withFailed (initialDocument (dateNow env) t)) documentTypes /\
  flowStage (ui (worldAfter (dispatchDocuments c env) w)) = documents.
Proof.
  intros Hu Hall.
  assert (Hin : forall t, typeIn (settleOrder env) t = true).
  { intros t. unfold typeIn. apply existsb_exists. exists t. split.
    - apply list_elem_of_In, Hall.
    - apply DocumentType_eqb_eq. reflexivity. }
  assert (Hw : forall w0, worldAfter (settleAll c (fetchOutcome env) (settleOrder env)) w0 =
            worldAfter (setDocuments (List.map (fun doc =>
              if typeIn (settleOrder env) (doc_type doc) then withFailed doc else doc))) w0).
  { intros w0. unfold worldAfter.
    rewrite (settleAll_signed_out c (fetchOutcome env) (settleOrder env) Hu). reflexivity. }
  unfold dispatched, dispatchDocuments. rewrite Hu, !worldAfter_seq, !Hw.
  async_unfold. split; [|reflexivity].
  unfold documentTypes. cbn [List.map initialDocument doc_type]. rewrite !Hin.
  reflexivity.
Qed.

Lemma documents_fail_without_user_witness :
  List.map doc_status (dispatched signedOutState quietEnv generatingWorld) =
    [failed_; failed_; failed_; failed_].
Proof.
  destruct (documents_fail_without_user signedOutState quietEnv generatingWorld)
    as [Hdocs _].
  - reflexivity.
  - intros t. apply (bool_decide_unpack _). destruct t; reflexivity.
  - rewrite Hdocs. reflexivity.
Defined.


(** X16 — A request touches the document of its own type and nothing
    else: the list keeps its length and order, every document keeps its id,
    type and title, the documents of the other types are unchanged, the
    one of its type is no longer generating; the store is not written and
    nothing is logged. *)
Theorem request_changes_own_document_only (c : ChatState) (o : FetchOutcome)
    (t : DocumentType) (w : World) :
  length (documentList (ui (worldAfter (generateDocument c o t) w))) =
    length (documentList (ui w)) /\
  (forall i doc, documentList (ui w) !! i = Some doc ->
     exists doc', documentList (ui (worldAfter (generateDocument c o t) w)) !! i = Some doc' /\
       doc_id doc' = doc_id doc /\ doc_type doc' = doc_type doc /\
       doc_title doc' = doc_title doc /\
       (doc_type doc <> t -> doc' = doc) /\
       (doc_type doc = t -> doc_status doc' <> generating_)) /\
  db (worldAfter (generateDocument c o t) w) = db w /\
  logOf (generateDocument c o t) w = [].
Proof.
  assert (Hmap : forall f : Document -> Document,
            (forall doc, doc_id (f doc) = doc_id doc /\ doc_type (f doc) = doc_type doc /\
                         doc_title (f doc) = doc_title doc /\
                         doc_status (f doc) <> generating_) ->
            run (generateDocument c o t) w = run (setDocuments (updateOfType t f)) w ->
            length (documentList (ui (worldAfter (generateDocument c o t) w))) =
              length (documentList (ui w)) /\
            (forall i doc, documentList (ui w) !! i = Some doc ->
               exists doc',
                 documentList (ui (worldAfter (generateDocument c o t) w)) !! i = Some doc' /\
                 doc_id doc' = doc_id doc /\ doc_type doc' = doc_type doc /\
                 doc_title doc' = doc_title doc /\
                 (doc_type doc <> t -> doc' = doc) /\
                 (doc_type doc = t -> doc_status doc' <> generating_)) /\
            db (worldAfter (generateDocument c o t) w) = db w /\
            logOf (generateDocument c o t) w = []).
  { intros f Hf Hrun. unfold worldAfter, logOf. rewrite Hrun. async_unfold.
    split; [unfold updateOfType; apply length_map|]. split; [|split; reflexivity].
    intros i doc Hi. rewrite updateOfType_lookup, Hi. cbn [fmap option_fmap option_map].
    eexists. split; [reflexivity|].
    destruct (Hf doc) as (H1 & H2 & H3 & H4).
    destruct (DocumentType_eqb (doc_type doc) t) eqn:Ht.
    - repeat split; auto. intros Hne. apply DocumentType_eqb_eq in Ht. contradiction.
    - repeat split; auto. intros Heq. apply DocumentType_eqb_eq in Heq. congruence. }
  destruct (generateDocument_cases c o t) as [Hfail | (kp & fc & url & Hok)].
  - apply (Hmap withFailed); [|apply Hfail].
    intros doc. repeat split; discriminate.
  - apply (Hmap (withCompleted kp fc url)); [|apply Hok].
    intros doc. repeat split; discriminate.
Qed.

(** ** Mentor cards: further properties *)

(** X17 — The cards are labelled by position among the mentors found: with
    n mentors found the labels are the first n of Registration, Branding,
    Compliance, Hr.  So every card carries the service of its own lookup
    exactly when no lookup that found a mentor comes after one that found
    none. *)
Theorem mentor_cards_labelled_by_position (lookup : string -> option Mentor) :
  List.map card_service (mentorCardsOf (List.map lookup serviceTypes)) =
    take (length (nonNull (List.map lookup serviceTypes)))
         ["Registration"; "Branding"; "Compliance"; "Hr"] /\
  (mentorCardsOf (List.map lookup serviceTypes) = pairedCards lookup <->
   forall i j s t, (i < j)%nat ->
     serviceTypes !! i = Some s -> serviceTypes !! j = Some t ->
     lookup s = None -> lookup t = None).
Proof.
  unfold mentorCardsOf, pairedCards, nonNull, serviceTypes.
  cbn [List.map omap list_omap].
  destruct (lookup "registration") as [m1|] eqn:H1,
           (lookup "branding") as [m2|] eqn:H2,
           (lookup "compliance") as [m3|] eqn:H3,
           (lookup "hr") as [m4|] eqn:H4;
    cbn; (split; [reflexivity|]); split;
    try solve
      [ intros _ i j s t Hlt Hi Hj Hs;
        destruct i as [|[|[|[|i]]]]; cbn in Hi; try discriminate; injection Hi as <-;
        destruct j as [|[|[|[|j]]]]; cbn in Hj; try discriminate; try lia;
        injection Hj as <-; congruence
      | intros _; reflexivity
      | intros Heq; apply (f_equal (List.map card_service)) in Heq; cbn in Heq;
        discriminate
      | intros H; exfalso;
        pose proof (H 0%nat 1%nat _ _ ltac:(lia) eq_refl eq_refl);
        pose proof (H 0%nat 2%nat _ _ ltac:(lia) eq_refl eq_refl);
        pose proof (H 0%nat 3%nat _ _ ltac:(lia) eq_refl eq_refl);
        pose proof (H 1%nat 2%nat _ _ ltac:(lia) eq_refl eq_refl);
        pose proof (H 1%nat 3%nat _ _ ltac:(lia) eq_refl eq_refl);
        pose proof (H 2%nat 3%nat _ _ ltac:(lia) eq_refl eq_refl);
        intuition congruence ].
Qed.

(** ** Profile store: further properties *)

Lemma updateBusinessProfile_exact (c : ChatState) (profile : gmap string JsVal)
    (w : World) :
  updateBusinessProfile c profile w =
    (tt, {| ui := ui w;
            db := {| user_sessions := user_sessions (db w);
                     chat_messages := chat_messages (db w);
                     business_profiles :=
                       profilesAfter c profile (business_profiles (db w)) |} |}, []).
Proof.
  unfold profilesAfter, updateBusinessProfile.
  destruct (currentUser c), (Js.truthy (currentSessionId c));
    try (destruct w as [s []]; reflexivity).
  async_unfold. destruct (maybeSingle _); reflexivity.
Qed.

Lemma profilesAfter_idle (c : ChatState) (profile : gmap string JsVal)
    (rows : list (gmap string JsVal)) :
  currentUser c = None \/ Js.truthy (currentSessionId c) = false ->
  profilesAfter c profile rows = rows.
Proof.
  unfold profilesAfter, updateBusinessProfile.
  intros [-> | ->]; [reflexivity|]. destruct (currentUser c); reflexivity.
Qed.

Lemma profilesAfter_insert (c : ChatState) (u : User) (profile : gmap string JsVal)
    (rows : list (gmap string JsVal)) :
  currentUser c = Some u -> Js.truthy (currentSessionId c) = true ->
  maybeSingle (List.filter (sessionIs (currentSessionId c)) rows) = None ->
  profilesAfter c profile rows = rows ++ [insertedRow u (currentSessionId c) profile].
Proof.
  intros Hu Hs Hnone. unfold profilesAfter, updateBusinessProfile.
  rewrite Hu, Hs. async_unfold. rewrite Hnone. reflexivity.
Qed.

Lemma profilesAfter_update (c : ChatState) (u : User) (profile row : gmap string JsVal)
    (rows : list (gmap string JsVal)) :
  currentUser c = Some u -> Js.truthy (currentSessionId c) = true ->
  maybeSingle (List.filter (sessionIs (currentSessionId c)) rows) = Some row ->
  profilesAfter c profile rows =
  List.map (fun r => if sessionIs (currentSessionId c) r
                     then jsonBody (mergeProfile row profile) ∪ r else r) rows.
Proof.
  intros Hu Hs Hrow. unfold profilesAfter, updateBusinessProfile.
  rewrite Hu, Hs. async_unfold. rewrite Hrow. reflexivity.
Qed.

(** The written columns do not change the session of a row. *)
Lemma merged_row_session (row0 row profile : gmap string JsVal) :
  profile !! "session_id" = None ->
  row0 !! "session_id" = row !! "session_id" ->
  (jsonBody (mergeProfile row0 profile) ∪ row) !! "session_id" = row !! "session_id".
Proof.
  intros Hp Hsame.
  rewrite lookup_union, jsonBody_lookup, mergeProfile_lookup.
  unfold mergedValue. rewrite Hp, Hsame.
  destruct (row !! "session_id") as [v|]; [|reflexivity].
  destruct (isDefined v); reflexivity.
Qed.

Lemma sessionIs_same (sid : string) (row row' : gmap string JsVal) :
  row' !! "session_id" = row !! "session_id" -> sessionIs sid row' = sessionIs sid row.
Proof. unfold sessionIs. intros ->. reflexivity. Qed.

Lemma sessionIs_unique (sid sid' : string) (row : gmap string JsVal) :
  sessionIs sid row = true -> sessionIs sid' row = true -> sid = sid'.
Proof.
  unfold sessionIs. destruct (row !! "session_id") as [[]|]; try discriminate.
  intros H1 H2. apply String.eqb_eq in H1, H2. congruence.
Qed.

Lemma filter_map_same {A} (p : A -> bool) (g : A -> A) (rows : list A) :
  (forall row, p (g row) = p row) ->
  List.filter p (List.map g rows) = List.map g (List.filter p rows).
Proof.
  intros Hg. induction rows as [|row rows IH]; [reflexivity|].
  cbn [List.map List.filter]. rewrite Hg.
  destruct (p row); cbn [List.map]; rewrite IH; reflexivity.
Qed.

Lemma single_found {A} (rows : list A) (row : A) :
  maybeSingle rows = Some row -> rows = [row].
Proof. destruct rows as [|r [|]]; try discriminate. intros [= ->]. reflexivity. Qed.

Lemma insertedRow_is_session (u : User) (sid : string) (profile : gmap string JsVal) :
  profile !! "session_id" = None ->
  insertedRow u sid profile !! "session_id" = Some (VStr sid).
Proof.
  intros Hp. unfold insertedRow.
  rewrite jsonBody_lookup, lookup_union_r by exact Hp.
  rewrite lookup_insert_ne by discriminate. rewrite lookup_insert_eq. reflexivity.
Qed.

(** X18 — One profile per session: an update whose profile has no field
    [session_id] keeps the table at no more than one row per session,
    leaves the rows of every other session as they are, and with a
    signed-in user and a session it leaves exactly one row for the
    session. *)
Theorem one_profile_per_session (c : ChatState) (profile : gmap string JsVal)
    (w : World) :
  profile !! "session_id" = None ->
  (forall sid, (length (profilesOf sid w) <= 1)%nat) ->
  (forall sid,
     (length (profilesOf sid (worldAfter (updateBusinessProfile c profile) w)) <= 1)%nat) /\
  (forall sid, sid <> currentSessionId c ->
     profilesOf sid (worldAfter (updateBusinessProfile c profile) w) = profilesOf sid w) /\
  (is_Some (currentUser c) -> Js.truthy (currentSessionId c) = true ->
   length (profilesOf (currentSessionId c)
             (worldAfter (updateBusinessProfile c profile) w)) = 1%nat).
Proof.
  intros Hp Hone. unfold profilesOf in *. unfold worldAfter, run.
  rewrite updateBusinessProfile_exact. cbn [fst ui db business_profiles].
  destruct (currentUser c) as [u|] eqn:Hu;
    [|rewrite profilesAfter_idle by (left; exact Hu);
      split; [exact Hone | split; [reflexivity | intros [? [=]]]]].
  destruct (Js.truthy (currentSessionId c)) eqn:Hs;
    [|rewrite profilesAfter_idle by (right; exact Hs);
      split; [exact Hone | split; [reflexivity | discriminate]]].
  destruct (maybeSingle (List.filter (sessionIs (currentSessionId c))
                           (business_profiles (db w)))) as [row|] eqn:Hfound.
  - rewrite (profilesAfter_update c u profile row _ Hu Hs Hfound).
    apply single_found in Hfound.
    assert (Hrow : sessionIs (currentSessionId c) row = true).
    { assert (In row (List.filter (sessionIs (currentSessionId c))
                        (business_profiles (db w)))) as Hin
        by (rewrite Hfound; left; reflexivity).
      apply List.filter_In in Hin as [_ H]. exact H. }
    assert (Hkeep : forall sid r,
              sessionIs sid (if sessionIs (currentSessionId c) r
                             then jsonBody (mergeProfile row profile) ∪ r else r) =
              sessionIs sid r).
    { intros sid r. destruct (sessionIs (currentSessionId c) r) eqn:Hr; [|reflexivity].
      apply sessionIs_same, merged_row_session; [exact Hp|].
      unfold sessionIs in Hrow, Hr.
      destruct (row !! "session_id") as [[]|]; try discriminate.
      destruct (r !! "session_id") as [[]|]; try discriminate.
      apply String.eqb_eq in Hrow, Hr. congruence. }
    split; [|split].
    + intros sid. rewrite filter_map_same by (intros r; apply Hkeep).
      rewrite length_map. apply Hone.
    + intros sid Hne. rewrite filter_map_same by (intros r; apply Hkeep).
      rewrite <- (List.map_id (List.filter (sessionIs sid) (business_profiles (db w)))) at 2.
      apply List.map_ext_in. intros r Hin.
      apply List.filter_In in Hin as [_ Hr].
      destruct (sessionIs (currentSessionId c) r) eqn:Hcr; [|reflexivity].
      exfalso. apply Hne. exact (sessionIs_unique _ _ r Hr Hcr).
    + intros _ _. rewrite filter_map_same by (intros r; apply Hkeep).
      rewrite Hfound. reflexivity.
  - rewrite (profilesAfter_insert c u profile _ Hu Hs Hfound).
    assert (Hnone : List.filter (sessionIs (currentSessionId c))
                      (business_profiles (db w)) = []).
    { specialize (Hone (currentSessionId c)).
      destruct (List.filter _ _) as [|r [|]]; [reflexivity | discriminate | cbn in Hone; lia]. }
    assert (Hnew : forall sid,
              sessionIs sid (insertedRow u (currentSessionId c) profile) =
              String.eqb (currentSessionId c) sid).
    { intros sid. unfold sessionIs. rewrite (insertedRow_is_session u _ profile Hp).
      reflexivity. }
    split; [|split].
    + intros sid. rewrite List.filter_app, length_app. cbn [List.filter].
      rewrite Hnew. destruct (String.eqb_spec (currentSessionId c) sid) as [<-|Hne].
      * rewrite Hnone. cbn. lia.
      * cbn. specialize (Hone sid). lia.
    + intros sid Hne. rewrite List.filter_app. cbn [List.filter]. rewrite Hnew.
      destruct (String.eqb_spec (currentSessionId c) sid) as [<-|_]; [contradiction|].
      apply app_nil_r.
    + intros _ _. rewrite List.filter_app, Hnone. cbn [List.filter app].
      rewrite Hnew, String.eqb_refl. reflexivity.
Qed.

Lemma one_profile_per_session_witness :
  length (profilesOf "s1"
    (worldAfter (updateBusinessProfile (ui answeringWorld) {[ "location" := VStr "Pune" ]})
                answeringWorld)) = 1%nat.
Proof.
  destruct (one_profile_per_session (ui answeringWorld) {[ "location" := VStr "Pune" ]}
              answeringWorld) as (_ & _ & Hone).
  - reflexivity.
  - intros sid. unfold profilesOf.
    etransitivity; [apply List.filter_length_le | apply Nat.eq_le_incl; reflexivity].
  - apply Hone; [eexists; reflexivity | reflexivity].
Defined.

(** What an answer leaves in the component and in the profile table. *)
Lemma answer_step_store (w : World) (env : Env) (input : string) (q : Question) :
  flowStage (ui w) = questioning ->
  QUESTIONS !! currentQuestionIndex (ui w) = Some q ->
  Js.truthy (Js.trim input) = true ->
  business_profiles (db (fst (step w (UserInput env input)))) =
    profilesAfter (ui w) (recorded q input (businessProfile (ui w)))
                  (business_profiles (db w)) /\
  businessProfile (ui (fst (step w (UserInput env input)))) =
    recorded q input (businessProfile (ui w)) /\
  currentSessionId (ui (fst (step w (UserInput env input)))) = currentSessionId (ui w).
Proof.
  intros Hstage Hq Hin.
  unfold step, handleSendMessage. rewrite Hin, Hstage. cbn [negb].
  unfold handleQuestionResponse, recorded. rewrite Hq.
  destruct (String.eqb (q_field q) "partners_info");
    destruct (currentQuestionIndex (ui w) <? length QUESTIONS - 1)%nat;
    repeat
      (async_core;
       match goal with
       | |- context [addMessageAndSave ?s ?u ?m ?w0] =>
           let saved := fresh "saved" in
           destruct (addMessageAndSave_effect s u m w0) as (saved & -> & _)
       | |- context [updateBusinessProfile ?c ?p ?w0] =>
           rewrite (updateBusinessProfile_exact c p w0)
       | |- context [generateAllDocuments ?c ?e ?w0] =>
           let docs := fresh "docs" in
           destruct (generateAllDocuments_effect c e w0) as (docs & ->)
       end);
    async_core; repeat split.
Qed.

Lemma merged_row_lookup (row profile : gmap string JsVal) (key : string) :
  (forall k v, row !! k = Some v -> isDefined v = true) ->
  (jsonBody (mergeProfile row profile) ∪ row) !! key =
  mergedValue profile key (row !! key).
Proof.
  intros Hdef. rewrite lookup_union, jsonBody_lookup, mergeProfile_lookup.
  unfold mergedValue.
  destruct (profile !! key) as [v'|] eqn:Hp; [destruct (hasNewValue v') eqn:Hn|].
  - rewrite (hasNewValue_isDefined v' Hn). destruct (row !! key); reflexivity.
  - destruct (row !! key) as [v|] eqn:Hv; [|reflexivity].
    rewrite (Hdef key v Hv). reflexivity.
  - destruct (row !! key) as [v|] eqn:Hv; [|reflexivity].
    rewrite (Hdef key v Hv). reflexivity.
Qed.

Lemma insertedRow_lookup (u : User) (sid : string) (profile : gmap string JsVal)
    (key : string) :
  insertedRow u sid profile !! key =
  match (profile ∪ <["user_id" := VStr (user_id u)]>
                     (<["session_id" := VStr sid]> ∅)) !! key with
  | Some v => if isDefined v then Some v else None
  | None => None
  end.
Proof. unfold insertedRow. apply jsonBody_lookup. Qed.

(** Writing one more field over the stored copy of a profile gives the
    stored copy of the profile with that field. *)
Lemma merged_insertedRow (u : User) (sid field : string) (v : JsVal)
    (profile : gmap string JsVal) :
  hasNewValue v = true ->
  jsonBody (mergeProfile (insertedRow u sid profile) (<[field := v]> profile))
    ∪ insertedRow u sid profile =
  insertedRow u sid (<[field := v]> profile).
Proof.
  intros Hnew. apply map_eq. intros key.
  rewrite merged_row_lookup.
  2:{ intros k x. rewrite insertedRow_lookup.
      destruct (_ !! k) as [y|]; [|discriminate].
      destruct (isDefined y) eqn:Hy; [|discriminate]. intros [= <-]. exact Hy. }
  unfold mergedValue. rewrite !insertedRow_lookup, !lookup_union.
  destruct (decide (field = key)) as [->|Hne].
  - rewrite lookup_insert_eq, Hnew.
    destruct (_ !! key); cbn; rewrite (hasNewValue_isDefined v Hnew); reflexivity.
  - rewrite lookup_insert_ne by exact Hne.
    destruct (profile !! key) as [v'|] eqn:Hp; [|reflexivity].
    destruct (hasNewValue v') eqn:Hn; [|reflexivity].
    rewrite union_Some_l, (hasNewValue_isDefined v' Hn). reflexivity.
Qed.

Lemma truthy_trim (s : string) : Js.truthy (Js.trim s) = true -> Js.truthy s = true.
Proof. destruct s; [discriminate | reflexivity]. Qed.

(** X19 — The store follows the answers: in the questioning stage, with a
    signed-in user and a session, when the table holds for the session the
    profile of the component (or no row yet), then after an answer it
    holds the profile of the component again, the new answer included,
    together with the ids of the user and of the session. *)
Theorem answer_is_stored (w : World) (env : Env) (input : string) (u : User) :
  flowStage (ui w) = questioning ->
  currentUser (ui w) = Some u ->
  Js.truthy (currentSessionId (ui w)) = true ->
  (currentQuestionIndex (ui w) < 6)%nat ->
  Js.truthy (Js.trim input) = true ->
  businessProfile (ui w) !! "session_id" = None ->
  profilesOf (currentSessionId (ui w)) w = [] \/ profileStored u w ->
  profileStored u (fst (step w (UserInput env input))) /\
  businessProfile (ui (fst (step w (UserInput env input)))) !! "session_id" = None.
Proof.
  intros Hstage Hu Hs Hidx Hin Hp Hstored.
  destruct (QUESTIONS !! currentQuestionIndex (ui w)) as [q|] eqn:Hq.
  2:{ apply lookup_ge_None in Hq. cbn in Hq. lia. }
  destruct (answer_step_store w env input q Hstage Hq Hin) as (Hrows & Hprof & Hsid).
  assert (Hfield : q_field q <> "session_id").
  { destruct (currentQuestionIndex (ui w)) as [|[|[|[|[|[|i]]]]]]; cbn in Hq;
      try discriminate; injection Hq as <-; discriminate. }
  assert (Hrec : exists v, hasNewValue v = true /\
            recorded q input (businessProfile (ui w)) =
            <[q_field q := v]> (businessProfile (ui w))).
  { unfold recorded. destruct (String.eqb (q_field q) "partners_info"); eexists;
      (split; [|reflexivity]); [reflexivity | exact (truthy_trim input Hin)]. }
  destruct Hrec as (v & Hv & Hrec).
  assert (Hp' : recorded q input (businessProfile (ui w)) !! "session_id" = None).
  { rewrite Hrec, lookup_insert_ne by exact Hfield. exact Hp. }
  split; [|rewrite Hprof; exact Hp'].
  unfold profileStored, storedProfile. rewrite Hsid, Hprof, Hrows.
  destruct Hstored as [Hnone | Hold].
  - unfold profilesOf in Hnone.
    rewrite (profilesAfter_insert (ui w) u _ _ Hu Hs) by (rewrite Hnone; reflexivity).
    rewrite List.filter_app, Hnone. cbn [List.filter app].
    rewrite (sessionIs_lookup _ _ (insertedRow_is_session u _ _ Hp')). reflexivity.
  - unfold profileStored, storedProfile in Hold.
    rewrite (profilesAfter_update (ui w) u _ _ _ Hu Hs Hold).
    apply single_found in Hold.
    rewrite filter_map_same.
    + rewrite Hold. cbn [List.map maybeSingle].
      rewrite (sessionIs_lookup _ _ (insertedRow_is_session u _ _ Hp)).
      rewrite Hrec, (merged_insertedRow u _ (q_field q) v _ Hv). reflexivity.
    + intros r. destruct (sessionIs (currentSessionId (ui w)) r) eqn:Hr; [|exact Hr].
      rewrite <- Hr. apply sessionIs_same, merged_row_session; [exact Hp'|].
      rewrite (insertedRow_is_session u _ _ Hp).
      unfold sessionIs in Hr. destruct (r !! "session_id") as [[]|]; try discriminate.
      apply String.eqb_eq in Hr. congruence.
Qed.

Lemma answer_is_stored_witness :
  profileStored sampleUser (fst (step answeringWorld (UserInput quietEnv "Pune"))).
Proof.
  refine (proj1 (answer_is_stored answeringWorld quietEnv "Pune" sampleUser
                   _ _ _ _ _ _ _)); try reflexivity.
  - apply Nat.ltb_lt. reflexivity.
  - right. reflexivity.
Defined.

(** ** Session library: further properties *)

(** X20 — Two status updates of a session, one after the other: the row
    ends with the status of the second; its completion time is that of the
    second update when it completes the session, else that of the first
    when that one did (so abandoning a completed session keeps the time),
    else the old one; user and service type are kept.  An id without row
    adds none, the rows of the other sessions, the two other tables and
    the component are left as they were. *)
Theorem status_updates_compose (t1 t2 sid : string) (s1 s2 : SessionStatus) (w : World) :
  user_sessions (db (worldAfter (updateSessionStatus t1 sid s1 ;;
                                 updateSessionStatus t2 sid s2) w)) !! sid =
    (fun row => {| us_user_id := us_user_id row;
                   us_service_type := us_service_type row;
                   us_status := s2;
                   us_completed_at :=
                     match s2, s1 with
                     | completed, _ => Some t2
                     | _, completed => Some t1
                     | _, _ => us_completed_at row
                     end |}) <$> user_sessions (db w) !! sid /\
  (forall sid', sid' <> sid ->
     user_sessions (db (worldAfter (updateSessionStatus t1 sid s1 ;;
                                    updateSessionStatus t2 sid s2) w)) !! sid' =
     user_sessions (db w) !! sid') /\
  chat_messages (db (worldAfter (updateSessionStatus t1 sid s1 ;;
                                 updateSessionStatus t2 sid s2) w)) = chat_messages (db w) /\
  business_profiles (db (worldAfter (updateSessionStatus t1 sid s1 ;;
                                     updateSessionStatus t2 sid s2) w)) =
    business_profiles (db w) /\
  ui (worldAfter (updateSessionStatus t1 sid s1 ;; updateSessionStatus t2 sid s2) w) = ui w.
Proof.
  async_unfold. repeat split.
  - rewrite !lookup_alter_eq. destruct (user_sessions (db w) !! sid) as [row|]; [|reflexivity].
    cbn. destruct s1, s2; reflexivity.
  - intros sid' Hne. rewrite !lookup_alter_ne by congruence. reflexivity.
Qed.

(** ** Key points of the HR guide: further properties *)

Lemma forallBool_spec (p : bool -> bool) :
  forallBool p = true -> forall b, p b = true.
Proof.
  unfold forallBool. intros H b. apply andb_true_iff in H as [Ht Hf].
  destruct b; assumption.
Qed.

Lemma distinct_NoDup (l : list string) : distinct l = true -> NoDup l.
Proof.
  induction l as [|x rest IH]; [constructor|].
  cbn [distinct]. intros H. apply andb_true_iff in H as [Hx Hrest].
  constructor; [|exact (IH Hrest)].
  intros Hin. apply negb_true_iff in Hx.
  assert (existsb (String.eqb x) rest = true) as Hex; [|congruence].
  apply existsb_exists. exists x. split; [apply list_elem_of_In, Hin | apply String.eqb_refl].
Qed.

Lemma allIn_subseteq (texts l : list string) : allIn texts l = true -> l ⊆ texts.
Proof.
  unfold allIn. intros H x Hx.
  apply list_elem_of_In in Hx.
  pose proof (proj1 (forallb_forall _ l) H x Hx) as Hex.
  apply existsb_exists in Hex as (y & Hy & Heq).
  apply String.eqb_eq in Heq. subst y. apply list_elem_of_In, Hy.
Qed.

Lemma keyPointsFound_checked (b1 b2 b3 b4 b5 b6 b7 b8 b9 b10 : bool) :
  (5 <= length (keyPointsFound b1 b2 b3 b4 b5 b6 b7 b8 b9 b10) <= 6)%nat /\
  NoDup (keyPointsFound b1 b2 b3 b4 b5 b6 b7 b8 b9 b10) /\
  keyPointsFound b1 b2 b3 b4 b5 b6 b7 b8 b9 b10 ⊆ keyPointTexts.
Proof.
  assert (H : forallBool (fun c1 => forallBool (fun c2 => forallBool (fun c3 =>
              forallBool (fun c4 => forallBool (fun c5 => forallBool (fun c6 =>
              forallBool (fun c7 => forallBool (fun c8 => forallBool (fun c9 =>
              forallBool (fun c10 =>
                (5 <=? length (keyPointsFound c1 c2 c3 c4 c5 c6 c7 c8 c9 c10))%nat
                && (length (keyPointsFound c1 c2 c3 c4 c5 c6 c7 c8 c9 c10) <=? 6)%nat
                && distinct (keyPointsFound c1 c2 c3 c4 c5 c6 c7 c8 c9 c10)
                && allIn keyPointTexts (keyPointsFound c1 c2 c3 c4 c5 c6 c7 c8 c9 c10)
              )))))))))) = true)
    by (vm_compute; reflexivity).
  apply forallBool_spec with (b := b1) in H. apply forallBool_spec with (b := b2) in H.
  apply forallBool_spec with (b := b3) in H. apply forallBool_spec with (b := b4) in H.
  apply forallBool_spec with (b := b5) in H. apply forallBool_spec with (b := b6) in H.
  apply forallBool_spec with (b := b7) in H. apply forallBool_spec with (b := b8) in H.
  apply forallBool_spec with (b := b9) in H. apply forallBool_spec with (b := b10) in H.
  apply andb_true_iff in H as [H H4]. apply andb_true_iff in H as [H H3].
  apply andb_true_iff in H as [H1 H2].
  apply Nat.leb_le in H1, H2.
  split; [lia|]. split; [exact (distinct_NoDup _ H3) | exact (allIn_subseteq _ _ H4)].
Qed.

Lemma defaultKeyPoints_checked :
  (5 <= length defaultKeyPoints <= 6)%nat /\ NoDup defaultKeyPoints.
Proof.
  split; [cbn; lia|]. apply distinct_NoDup. vm_compute. reflexivity.
Qed.

Lemma extractKeyPoints_cases (content : string) :
  ((String.length content < 100)%nat /\ extractKeyPoints content = defaultKeyPoints) \/
  ((100 <= String.length content)%nat /\
   exists b1 b2 b3 b4 b5 b6 b7 b8 b9 b10,
     extractKeyPoints content = keyPointsFound b1 b2 b3 b4 b5 b6 b7 b8 b9 b10).
Proof.
  unfold extractKeyPoints.
  destruct (Js.truthy content) eqn:Ht; cbn [negb orb].
  - destruct (String.length content <? 100)%nat eqn:Hlen.
    + left. apply Nat.ltb_lt in Hlen. split; [exact Hlen | reflexivity].
    + right. apply Nat.ltb_ge in Hlen. split; [exact Hlen|].
      do 10 eexists. unfold keyPointsFound. reflexivity.
  - left. pose proof (truthy_length content Ht) as Hlen.
    split; [lia | reflexivity].
Qed.

(** X21 — Whatever the content, the HR guide gets five or six key points,
    no two the same; for a content of a hundred units or more each is one
    of the sixteen fixed texts, for a shorter one they are the six default
    texts. *)
Theorem key_points_five_or_six (content : string) :
  (5 <= length (extractKeyPoints content) <= 6)%nat /\
  NoDup (extractKeyPoints content) /\
  ((100 <= String.length content)%nat -> extractKeyPoints content ⊆ keyPointTexts) /\
  ((String.length content < 100)%nat -> extractKeyPoints content = defaultKeyPoints).
Proof.
  destruct defaultKeyPoints_checked as [Hd1 Hd2].
  destruct (extractKeyPoints_cases content)
    as [[Hlen ->] | (Hlen & b1 & b2 & b3 & b4 & b5 & b6 & b7 & b8 & b9 & b10 & ->)].
  - split; [exact Hd1|]. split; [exact Hd2|]. split; [lia | reflexivity].
  - destruct (keyPointsFound_checked b1 b2 b3 b4 b5 b6 b7 b8 b9 b10) as (H1 & H2 & H3).
    split; [exact H1|]. split; [exact H2|]. split; [intros _; exact H3 | lia].
Qed.

(** A content in which only payroll is found gets five key points. *)
Example five_key_points :
  length (extractKeyPoints
    ("Payroll is run on the last working day of each month and every " +:+
     "employee gets a slip by mail the same day.")) = 5%nat.
Proof. reflexivity. Qed.

(** * The PDF generator *)

Lemma renderLine_style (primaryColor : string) (line : string) :
  snd (renderLine primaryColor (11, "#1F2937") line) = (11, "#1F2937").
Proof. unfold renderLine. destruct (lineKind (Js.trim line)); reflexivity. Qed.

(** X22 — The two style variables of the loop over the lines never hold
    another value than the one they start with, so a line is drawn the same
    whatever lines come before it: the body is the page check and the calls
    of each line, one line after the other, and the variables end as they
    began. *)
Theorem line_rendering_is_stateless (primaryColor : string) (lines : list string) :
  renderLines primaryColor (11, "#1F2937") lines =
    (concat (List.map (fun line =>
               OpPageCheck 720 :: fst (renderLine primaryColor (11, "#1F2937") line))
             lines),
     (11, "#1F2937")).
Proof.
  induction lines as [|line rest IH]; [reflexivity|].
  cbn [renderLines List.map concat].
  pose proof (renderLine_style primaryColor line) as Hstyle.
  destruct (renderLine primaryColor (11, "#1F2937") line) as [ops style1].
  cbn [snd] in Hstyle. subst style1. rewrite IH. reflexivity.
Qed.

Lemma removeBold_head (c : ascii) (rest : string) :
  c <> "*"%char -> exists rest', removeBold (String c rest) = String c rest'.
Proof.
  intros Hc. cbn [removeBold]. destruct rest as [|c' rest']; [eauto|].
  destruct (Ascii.eqb_spec c "*"); [contradiction|]. cbn [andb]. eauto.
Qed.

Lemma includes_cons (c : ascii) (s t : string) :
  includes (String c s) t = String.prefix t (String c s) || includes s t.
Proof. reflexivity. Qed.

Lemma prefix_star (s : string) :
  String.prefix "*" s = match s with
                        | String d _ => Ascii.eqb d "*"
                        | EmptyString => false
                        end.
Proof.
  destruct s as [|d rest]; [reflexivity|]. cbn [String.prefix].
  destruct (ascii_dec "*" d) as [<-|Hne].
  - rewrite Ascii.eqb_refl; destruct rest; reflexivity.
  - symmetry. apply Ascii.eqb_neq. congruence.
Qed.

Lemma prefix_stars (c : ascii) (s : string) :
  String.prefix "**" (String c s) = Ascii.eqb c "*" && String.prefix "*" s.
Proof.
  cbn [String.prefix].
  destruct (ascii_dec "*" c) as [<-|Hne].
  - rewrite Ascii.eqb_refl. reflexivity.
  - symmetry. apply andb_false_iff. left. apply Ascii.eqb_neq. congruence.
Qed.

Lemma removeBold_pair (c c' : ascii) (rest : string) :
  removeBold (String c (String c' rest)) =
  if Ascii.eqb c "*" && Ascii.eqb c' "*" then removeBold rest
  else String c (removeBold (String c' rest)).
Proof. reflexivity. Qed.

Lemma removeBold_clean_upto (n : nat) (s : string) :
  (String.length s <= n)%nat -> includes (removeBold s) "**" = false.
Proof.
  revert s. induction n as [|n IH]; intros s Hlen.
  - destruct s; [reflexivity | cbn in Hlen; lia].
  - destruct s as [|c [|c' rest']]; [reflexivity | |].
    + cbn [removeBold]. rewrite includes_cons, prefix_stars, prefix_star.
      rewrite andb_false_r. reflexivity.
    + rewrite removeBold_pair. cbn [String.length] in Hlen.
      destruct (Ascii.eqb_spec c "*") as [->|Hc]; cbn [andb].
      * destruct (Ascii.eqb_spec c' "*") as [->|Hc'].
        -- apply IH. lia.
        -- rewrite includes_cons, (IH (String c' rest')) by (cbn; lia).
           destruct (removeBold_head c' rest' Hc') as [r ->].
           rewrite prefix_stars, prefix_star.
           apply Ascii.eqb_neq in Hc'. rewrite Hc', andb_false_r. reflexivity.
      * rewrite includes_cons, (IH (String c' rest')) by (cbn; lia).
        rewrite prefix_stars. apply Ascii.eqb_neq in Hc. rewrite Hc. reflexivity.
Qed.

Lemma removeBold_clean (s : string) : includes (removeBold s) "**" = false.
Proof. exact (removeBold_clean_upto (String.length s) s (Nat.le_refl _)). Qed.

(** X23 — The text drawn for a bold line or a plain line never holds the
    bold marker: two asterisks in a row do not occur in it. *)
Theorem bold_markers_removed (primaryColor : string) (style : Z * string)
    (line text : string) (align : option string) :
  lineKind (Js.trim line) = BoldLine \/ lineKind (Js.trim line) = PlainLine ->
  OpText text align ∈ fst (renderLine primaryColor style line) ->
  includes text "**" = false.
Proof.
  unfold renderLine. intros [-> | ->]; cbn [fst]; intros Hin;
    repeat (apply elem_of_cons in Hin as [Hin | Hin]; [try discriminate|]);
    try (inversion Hin; fail).
  all: injection Hin as -> _; apply removeBold_clean.
Qed.

Lemma bold_markers_removed_witness :
  includes "Pay by the 7th of each month" "**" = false.
Proof.
  apply (bold_markers_removed "#F97316" (11, "#1F2937")
           "  Pay by the **7th** of each month " "Pay by the 7th of each month"
           (Some "left")).
  - right. reflexivity.
  - vm_compute. apply list_elem_of_further, list_elem_of_further, list_elem_of_here.
Defined.

(** A heading and a bullet keep the markers. *)
Example heading_keeps_bold_markers :
  fst (renderLine "#F97316" (11, "#1F2937") "## **Payroll**") =
    [OpMoveDown 6; OpFontSize 14; OpFillColor "#F97316";
     OpText "**Payroll**" None; OpMoveDown 3] /\
  fst (renderLine "#F97316" (11, "#1F2937") "- **PF**: 12%") =
    [OpFontSize 11; OpFillColor "#1F2937"; OpList ["**PF**: 12%"]].
Proof. split; reflexivity. Qed.

(** X24 — The file of a guide is named by user, document type and day, not
    by session: two generations for the same user and type on the same
    day, neither failing, return the same file name and URL, and the
    bucket ends with one file under that name, the document of the second;
    every other file is left as it was. *)
Theorem same_day_pdf_replaces_file (first second : PDFGenerationOptions)
    (env1 env2 : PdfEnv) (bucket : gmap string (list PdfOp)) :
  opt_userId first = opt_userId second ->
  opt_documentType first = opt_documentType second ->
  head (splitOn "T" (pdf_isoNow env1)) = head (splitOn "T" (pdf_isoNow env2)) ->
  pdf_renderFails env1 = false -> pdf_uploadFails env1 = false ->
  pdf_renderFails env2 = false -> pdf_uploadFails env2 = false ->
  pdf_publicUrl env1 = pdf_publicUrl env2 ->
  exists fileName,
    fst (generateAndStorePDF first env1 bucket) =
      Some (pdf_publicUrl env1 fileName, fileName) /\
    fst (generateAndStorePDF second env2 (snd (generateAndStorePDF first env1 bucket))) =
      Some (pdf_publicUrl env1 fileName, fileName) /\
    snd (generateAndStorePDF second env2 (snd (generateAndStorePDF first env1 bucket)))
      !! fileName =
      Some (generatePDFBuffer (opt_content second) (opt_documentType second)
              (default "Business" (opt_businessName second)) (pdf_dateText env2)) /\
    forall other, other <> fileName ->
      snd (generateAndStorePDF second env2 (snd (generateAndStorePDF first env1 bucket)))
        !! other = bucket !! other.
Proof.
  intros Hu Ht Hday Hr1 Hu1 Hr2 Hu2 Hurl.
  exists (pdfFileName (opt_userId first) (opt_documentType first) (pdf_isoNow env1)).
  assert (Hname : pdfFileName (opt_userId second) (opt_documentType second) (pdf_isoNow env2)
                  = pdfFileName (opt_userId first) (opt_documentType first) (pdf_isoNow env1)).
  { unfold pdfFileName. rewrite Hu, Ht, Hday. reflexivity. }
  unfold generateAndStorePDF. rewrite Hr1, Hu1, Hr2, Hu2, Hname, <- Hurl. cbn [fst snd].
  repeat split.
  - apply lookup_insert_eq.
  - intros other Hne. rewrite !lookup_insert_ne by congruence. reflexivity.
Qed.

Lemma same_day_pdf_replaces_file_witness :
  exists fileName,
    fst (generateAndStorePDF (guideOptions "# First") morningEnv ∅) =
      Some (sampleUrl fileName, fileName) /\
    fst (generateAndStorePDF (guideOptions "# Second") eveningEnv
           (snd (generateAndStorePDF (guideOptions "# First") morningEnv ∅))) =
      Some (sampleUrl fileName, fileName) /\
    snd (generateAndStorePDF (guideOptions "# Second") eveningEnv
           (snd (generateAndStorePDF (guideOptions "# First") morningEnv ∅))) !! fileName =
      Some (generatePDFBuffer "# Second" hr "Acme Tools" "November 14, 2023").
Proof.
  destruct (same_day_pdf_replaces_file (guideOptions "# First") (guideOptions "# Second")
              morningEnv eveningEnv ∅) as (fileName & H1 & H2 & H3 & _);
    try reflexivity.
  exists fileName. repeat split; assumption.
Defined.

(** The name of the file of that day. *)
Example file_name_of_the_day :
  pdfFileName "u1" hr "2023-11-14T22:13:20.000Z" = "u1/hr/hr-guide-2023-11-14.pdf".
Proof. reflexivity. Qed.

(** * The HR guide function *)

Lemma errorResponse_payload (message : option string) :
  rsp_status (errorResponse message) = 500 /\
  exists body, rsp_body (errorResponse message) = Some body /\
               errorPayload body = true /\
               truthyField (res_userMessage body) = true.
Proof.
  unfold errorResponse, errorPayload.
  destruct message as [m|]; [|split; [reflexivity | eexists; repeat split]].
  destruct (String.eqb m "API_KEY_NOT_CONFIGURED");
    [split; [reflexivity | eexists; repeat split]|].
  destruct (startsWith m "API_ERROR") eqn:Hp;
    [|split; [reflexivity | eexists; repeat split]].
  split; [reflexivity|]. eexists. split; [reflexivity|].
  cbn [res_error res_userMessage truthyField].
  destruct m; [discriminate Hp | split; reflexivity].
Qed.

Lemma generateDocument_error_payload (c : ChatState) (ok : bool) (body : EdgeResult)
    (t : DocumentType) (w : World) :
  errorPayload body = true ->
  run (generateDocument c (FetchResolved ok (Some body)) t) w = run (markFailed t) w.
Proof.
  unfold errorPayload, generateDocument. intros Herr.
  destruct (currentUser c), ok; try reflexivity. rewrite Herr. reflexivity.
Qed.

(** X25 — A fault of the function fails the document: when the request
    body cannot be read or the call to the model throws (no API key, a
    status that is no success, a body without content, any other error),
    the function writes no row and answers with status 500 and a body that
    holds an error and a user message; the component marks the document of
    that type failed, as it would for this body under any status. *)
Theorem guide_fault_fails_document (request : GuideRequest) (upstream : Upstream)
    (pdfResult : option (string * string)) (newId : string) (rows : list GuideRow)
    (message : option string) (c : ChatState) (t : DocumentType) (w : World) :
  rq_method request <> "OPTIONS" ->
  rq_body request = inr message \/
    ((exists payload, rq_body request = inl payload) /\
     callOpenRouterAPI upstream = inr message) ->
  snd (hrGuide request upstream pdfResult newId rows) = rows /\
  fst (hrGuide request upstream pdfResult newId rows) = errorResponse message /\
  rsp_status (fst (hrGuide request upstream pdfResult newId rows)) = 500 /\
  run (generateDocument c (fetched (fst (hrGuide request upstream pdfResult newId rows))) t) w
    = run (markFailed t) w /\
  exists body,
    rsp_body (fst (hrGuide request upstream pdfResult newId rows)) = Some body /\
    truthyField (res_userMessage body) = true /\
    forall ok, run (generateDocument c (FetchResolved ok (Some body)) t) w
               = run (markFailed t) w.
Proof.
  intros Hmethod Hfault.
  assert (Hrun : hrGuide request upstream pdfResult newId rows =
                 (errorResponse message, rows)).
  { unfold hrGuide. destruct (String.eqb_spec (rq_method request) "OPTIONS");
      [contradiction|].
    destruct Hfault as [-> | [[payload ->] ->]]; reflexivity. }
  rewrite Hrun. cbn [fst snd].
  destruct (errorResponse_payload message) as (Hstatus & body & Hbody & Herr & Huser).
  split; [reflexivity|]. split; [reflexivity|]. split; [exact Hstatus|]. split.
  - unfold fetched. rewrite Hbody. apply generateDocument_error_payload. exact Herr.
  - exists body. split; [exact Hbody|]. split; [exact Huser|].
    intros ok. apply generateDocument_error_payload. exact Herr.
Qed.

Lemma guide_fault_fails_document_witness :
  fst (hrGuide (guideRequest "s1") (UpstreamStatus 429) None "d2" []) =
    errorResponse (Some "API_ERROR: 429") /\
  run (generateDocument generatingState
         (fetched (fst (hrGuide (guideRequest "s1") (UpstreamStatus 429) None "d2" [])))
         hr) generatingWorld
    = run (markFailed hr) generatingWorld.
Proof.
  destruct (guide_fault_fails_document (guideRequest "s1") (UpstreamStatus 429) None "d2" []
              (Some "API_ERROR: 429") generatingState hr generatingWorld)
    as (_ & Hresponse & _ & Hfailed & _).
  - discriminate.
  - right. split; [eexists; reflexivity | reflexivity].
  - split; [exact Hresponse | exact Hfailed].
Defined.

(** What the component is told in that case. *)
Example rate_limited_response :
  rsp_body (errorResponse (Some "API_ERROR: 429")) =
    Some {| res_error := Some "API_ERROR: 429";
            res_userMessage :=
              Some "AI service temporarily unavailable. Please try again in a moment.";
            res_fullContent := None; res_response := None;
            res_keyPoints := None; res_pdfUrl := None |}.
Proof. reflexivity. Qed.

Lemma rewritten_isHrOf (sid fullContent : string) (keyPoints : list string)
    (pdfResult : option (string * string)) (row : GuideRow) :
  isHrOf sid (rewritten fullContent keyPoints pdfResult row) = isHrOf sid row.
Proof. reflexivity. Qed.

Lemma same_id_same_row (rows : list GuideRow) (row row' : GuideRow) :
  NoDup (rowIds rows) -> row ∈ rows -> row' ∈ rows -> gr_id row = gr_id row' ->
  row = row'.
Proof.
  unfold rowIds. intros Hnd Hin Hin' Hid.
  apply list_elem_of_lookup in Hin as [i Hi].
  apply list_elem_of_lookup in Hin' as [j Hj].
  assert (i = j) as ->.
  { apply (NoDup_lookup _ i j (gr_id row) Hnd).
    - change (List.map gr_id rows) with (gr_id <$> rows).
      rewrite list_lookup_fmap, Hi. reflexivity.
    - change (List.map gr_id rows) with (gr_id <$> rows).
      rewrite list_lookup_fmap, Hj, Hid. reflexivity. }
  congruence.
Qed.

(** The rows after a run in which the model returned [fullContent]. *)
Lemma hrGuide_success (request : GuideRequest) (payload : RequestPayload)
    (upstream : Upstream) (fullContent : string) (pdfResult : option (string * string))
    (newId : string) (rows : list GuideRow) :
  rq_method request <> "OPTIONS" ->
  rq_body request = inl payload ->
  callOpenRouterAPI upstream = inl fullContent ->
  fst (hrGuide request upstream pdfResult newId rows) =
    {| rsp_status := 200;
       rsp_body := Some (hrGuideResponse fullContent (fst <$> pdfResult)) |} /\
  snd (hrGuide request upstream pdfResult newId rows) =
    match maybeSingle (guidesOf (rp_sessionId payload) rows) with
    | Some existingDoc =>
        List.map (fun row => if String.eqb (gr_id row) (gr_id existingDoc)
                             then rewritten fullContent (extractKeyPoints fullContent)
                                            pdfResult row
                             else row) rows
    | None =>
        rows ++ [rewritten fullContent (extractKeyPoints fullContent) pdfResult
                   {| gr_id := newId; gr_user_id := rp_userId payload;
                      gr_session_id := rp_sessionId payload; gr_document_type := "hr";
                      gr_document_title := ""; gr_key_points := "";
                      gr_full_content := ""; gr_pdf_url := None;
                      gr_pdf_file_name := None; gr_generation_status := generating_;
                      gr_service_type := "" |}]
    end.
Proof.
  intros Hmethod Hbody Hcontent. unfold hrGuide, guidesOf.
  destruct (String.eqb_spec (rq_method request) "OPTIONS"); [contradiction|].
  rewrite Hbody, Hcontent. cbn [fst snd]. split; reflexivity.
Qed.

(** X26 — Generating the guide again for a session rewrites its row
    instead of adding one: with distinct row ids, a new id that is not in
    use and at most one HR row for the session, a successful run leaves
    exactly one HR row for the session, completed, with the content the
    model returned and its key points as JSON text; it keeps the id of the
    row it found, leaves every other row as it was and keeps the ids
    distinct. *)
Theorem guide_regeneration_keeps_one_row (request : GuideRequest)
    (payload : RequestPayload) (upstream : Upstream) (fullContent : string)
    (pdfResult : option (string * string)) (newId : string) (rows : list GuideRow) :
  rq_method request <> "OPTIONS" ->
  rq_body request = inl payload ->
  callOpenRouterAPI upstream = inl fullContent ->
  NoDup (rowIds rows) ->
  newId ∉ rowIds rows ->
  (length (guidesOf (rp_sessionId payload) rows) <= 1)%nat ->
  (exists row,
     guidesOf (rp_sessionId payload) (snd (hrGuide request upstream pdfResult newId rows))
       = [row] /\
     gr_generation_status row = completed_ /\
     gr_full_content row = fullContent /\
     gr_key_points row = Json.stringify (extractKeyPoints fullContent) /\
     gr_pdf_url row = orElse (fst <$> pdfResult) None /\
     (forall old, old ∈ guidesOf (rp_sessionId payload) rows -> gr_id row = gr_id old)) /\
  otherGuides (rp_sessionId payload) (snd (hrGuide request upstream pdfResult newId rows))
    = otherGuides (rp_sessionId payload) rows /\
  NoDup (rowIds (snd (hrGuide request upstream pdfResult newId rows))).
Proof.
  intros Hmethod Hbody Hcontent Hnd Hfresh Hone.
  destruct (hrGuide_success request payload upstream fullContent pdfResult newId rows
              Hmethod Hbody Hcontent) as [_ ->].
  set (sid := rp_sessionId payload) in *.
  set (write := rewritten fullContent (extractKeyPoints fullContent) pdfResult).
  destruct (maybeSingle (guidesOf sid rows)) as [existingDoc|] eqn:Hfound.
  - apply single_found in Hfound.
    assert (Hin : existingDoc ∈ rows /\ isHrOf sid existingDoc = true).
    { assert (In existingDoc (guidesOf sid rows)) as H
        by (rewrite Hfound; left; reflexivity).
      apply List.filter_In in H as [H1 H2]. split; [apply list_elem_of_In, H1 | exact H2]. }
    destruct Hin as [Hin Hhr].
    set (g := fun row : GuideRow =>
                if String.eqb (gr_id row) (gr_id existingDoc) then write row else row).
    assert (Hg : forall row, isHrOf sid (g row) = isHrOf sid row).
    { intros row. unfold g. destruct (String.eqb _ _); reflexivity. }
    assert (Hgid : forall row, gr_id (g row) = gr_id row).
    { intros row. unfold g. destruct (String.eqb _ _); reflexivity. }
    split; [|split].
    + exists (write existingDoc). unfold guidesOf in *.
      rewrite (filter_map_same (isHrOf sid) g rows Hg), Hfound. cbn [List.map].
      unfold g at 1. rewrite String.eqb_refl.
      split; [reflexivity|]. repeat split.
      intros old Hold. apply list_elem_of_singleton in Hold. subst old. reflexivity.
    + unfold otherGuides.
      rewrite (filter_map_same (fun row => negb (isHrOf sid row)) g rows)
        by (intros row; rewrite Hg; reflexivity).
      rewrite <- (List.map_id (List.filter _ rows)) at 2.
      apply List.map_ext_in. intros row Hrow.
      apply List.filter_In in Hrow as [Hrow Hnot].
      unfold g. destruct (String.eqb_spec (gr_id row) (gr_id existingDoc)) as [Hid|_];
        [|reflexivity].
      apply list_elem_of_In in Hrow.
      rewrite (same_id_same_row rows row existingDoc Hnd Hrow Hin Hid) in Hnot.
      rewrite Hhr in Hnot. discriminate.
    + unfold rowIds in *. rewrite List.map_map.
      rewrite (List.map_ext _ gr_id Hgid). exact Hnd.
  - assert (Hnone : guidesOf sid rows = []).
    { destruct (guidesOf sid rows) as [|r [|]];
        [reflexivity | discriminate | cbn in Hone; lia]. }
    split; [|split].
    + eexists. unfold guidesOf in *. rewrite List.filter_app, Hnone. cbn [List.filter app].
      unfold isHrOf at 1. cbn [write rewritten gr_session_id gr_document_type].
      fold sid. rewrite String.eqb_refl. cbn [andb].
      split; [reflexivity|]. repeat split. intros old Hold. inversion Hold.
    + unfold otherGuides. rewrite List.filter_app. cbn [List.filter].
      unfold isHrOf at 2. cbn [write rewritten gr_session_id gr_document_type].
      fold sid. rewrite String.eqb_refl. cbn [andb negb]. apply app_nil_r.
    + unfold rowIds in *. rewrite List.map_app. cbn [List.map write rewritten gr_id].
      apply NoDup_app. split; [exact Hnd|]. split; [|apply NoDup_singleton].
      intros x Hx Hx'. apply list_elem_of_singleton in Hx'. subst x. contradiction.
Qed.

Lemma guide_regeneration_keeps_one_row_witness :
  length (guidesOf "s1"
    (snd (hrGuide (guideRequest "s1") (UpstreamContent (Some payrollContent)) None "d2"
       (snd (hrGuide (guideRequest "s1") (UpstreamContent (Some "Draft.")) None "d1" [])))))
  = 1%nat.
Proof.
  destruct (guide_regeneration_keeps_one_row (guideRequest "s1")
              {| rp_message := "generate_document"; rp_sessionId := "s1";
                 rp_userId := "u1" |}
              (UpstreamContent (Some payrollContent)) payrollContent None "d2"
              (snd (hrGuide (guideRequest "s1") (UpstreamContent (Some "Draft.")) None
                      "d1" [])))
    as ((row & Hrow & _) & _ & _).
  - discriminate.
  - reflexivity.
  - reflexivity.
  - apply (bool_decide_unpack _). vm_compute. exact I.
  - apply (bool_decide_unpack _). vm_compute. exact I.
  - vm_compute. lia.
  - cbn [rp_sessionId] in Hrow. rewrite Hrow. reflexivity.
Defined.

Lemma contentOf_guideResponse (fullContent : string) (keyPoints : list string)
    (pdfUrl : option string) :
  Js.truthy fullContent = true ->
  contentOf (guideResponse fullContent keyPoints pdfUrl) = fullContent.
Proof.
  intros Ht. unfold contentOf, guideResponse, orElse. cbn [res_fullContent res_response].
  cbn [truthyField]. rewrite Ht. cbn [truthyField]. rewrite Ht. reflexivity.
Qed.

Lemma callOpenRouterAPI_truthy (upstream : Upstream) (fullContent : string) :
  callOpenRouterAPI upstream = inl fullContent -> Js.truthy fullContent = true.
Proof.
  destruct upstream as [| |status|[content|]]; try discriminate.
  cbn. destruct (Js.truthy content) eqn:Ht; [|discriminate].
  intros [= <-]. exact Ht.
Qed.

(** X27 — Store and component can disagree on a guide: whenever the model
    returns a content, the function answers 200 and its row says
    completed; the component, with a signed-in user, marks the document
    completed, with the key points of the function, only for a content of
    a hundred units or more, and failed for a shorter one. *)
Theorem guide_status_in_store_and_component (request : GuideRequest)
    (payload : RequestPayload) (upstream : Upstream) (fullContent : string)
    (pdfResult : option (string * string)) (newId : string) (rows : list GuideRow)
    (c : ChatState) (u : User) (w : World) :
  rq_method request <> "OPTIONS" ->
  rq_body request = inl payload ->
  callOpenRouterAPI upstream = inl fullContent ->
  currentUser c = Some u ->
  (exists row,
     row ∈ guidesOf (rp_sessionId payload)
             (snd (hrGuide request upstream pdfResult newId rows)) /\
     gr_generation_status row = completed_ /\ gr_full_content row = fullContent) /\
  rsp_status (fst (hrGuide request upstream pdfResult newId rows)) = 200 /\
  documentList (ui (worldAfter
    (generateDocument c (fetched (fst (hrGuide request upstream pdfResult newId rows))) hr)
    w)) =
  updateOfType hr
    (if (100 <=? String.length fullContent)%nat
     then withCompleted (VStr <$> extractKeyPoints fullContent) fullContent
                        (fst <$> pdfResult)
     else withFailed)
    (documentList (ui w)).
Proof.
  intros Hmethod Hbody Hcontent Hu.
  pose proof (callOpenRouterAPI_truthy upstream fullContent Hcontent) as Ht.
  destruct (hrGuide_success request payload upstream fullContent pdfResult newId rows
              Hmethod Hbody Hcontent) as [-> ->].
  set (sid := rp_sessionId payload).
  split; [|split; [reflexivity|]].
  - destruct (maybeSingle (guidesOf sid rows)) as [existingDoc|] eqn:Hfound.
    + apply single_found in Hfound.
      assert (In existingDoc (guidesOf sid rows)) as Hin
        by (rewrite Hfound; left; reflexivity).
      apply List.filter_In in Hin as [Hin Hhr].
      exists (rewritten fullContent (extractKeyPoints fullContent) pdfResult existingDoc).
      split; [|split; reflexivity].
      apply list_elem_of_In, List.filter_In. split; [|exact Hhr].
      apply in_map_iff. exists existingDoc. rewrite String.eqb_refl. split; [reflexivity | exact Hin].
    + eexists. split; [|split].
      * apply list_elem_of_In, List.filter_In. split.
        -- apply in_or_app. right. left. reflexivity.
        -- unfold isHrOf. cbn [rewritten gr_session_id gr_document_type].
           fold sid. rewrite String.eqb_refl. reflexivity.
      * reflexivity.
      * reflexivity.
  - unfold worldAfter, fetched, responseOk. cbn [rsp_status rsp_body andb Z.leb Z.compare].
    rewrite (generateDocument_run c u _ hr w Hu). async_unfold.
    unfold updateOfType. apply List.map_ext. intros doc.
    unfold settle, hrGuideResponse. cbn [guideResponse res_error res_userMessage truthyField orb].
    rewrite (contentOf_guideResponse fullContent _ _ Ht).
    destruct (DocumentType_eqb (doc_type doc) hr); [|reflexivity].
    destruct (100 <=? String.length fullContent)%nat; reflexivity.
Qed.

Lemma guide_status_in_store_and_component_witness :
  List.map gr_generation_status
    (snd (hrGuide (guideRequest "s1") (UpstreamContent (Some "Draft.")) None "d1" []))
    = [completed_] /\
  List.map doc_status
    (documentList (ui (worldAfter
       (generateDocument generatingState
          (fetched (fst (hrGuide (guideRequest "s1") (UpstreamContent (Some "Draft."))
                           None "d1" []))) hr)
       {| ui := ui (worldAfter (setDocuments (fun _ => [initialDocument "0" hr]))
                               generatingWorld);
          db := sampleBackend |}))) = [failed_].
Proof.
  destruct (guide_status_in_store_and_component (guideRequest "s1")
              {| rp_message := "generate_document"; rp_sessionId := "s1";
                 rp_userId := "u1" |}
              (UpstreamContent (Some "Draft.")) "Draft." None "d1" []
              generatingState sampleUser
              {| ui := ui (worldAfter (setDocuments (fun _ => [initialDocument "0" hr]))
                                      generatingWorld);
                 db := sampleBackend |})
    as (_ & _ & Hdocs); try reflexivity; try discriminate.
  split; [reflexivity|]. rewrite Hdocs. reflexivity.
Defined.
